(** * Loan and KYC ledger core of the fintech backend

    A shallow embedding of the service and controller layer
    (loanService, kycService, loanController, kycController) over an
    explicit model of the relational store, followed by the properties
    of the authorization, state-transition and reporting logic.

    Conventions.
    - Identifiers, statuses, roles and document types are JavaScript
      strings and are modelled as [string]; [null]/[undefined] fields are
      [option].  The store refuses a query on the loan list whose
      [status] or [type] is no value of the column's enum
      ([Prisma.valid_where]); its validation of the values written and of
      the queries on the analytics and on KYC documents is outside the
      model.
    - A string is its UTF-8 bytes.
    - Monetary amounts and byte counts are modelled as [Z].
    - An [async] function that touches the store is a computation in the
      monad [M]: it threads the [World] (tables and log file) and may
      throw a [JsError]; a thrown error keeps every write made before it.
    - Values the code draws from its environment (clock, generated keys,
      process environment, outcome of the audit-table write) are read
      from an [Env]. *)

From Stdlib Require Import ZArith Ascii String Floats.
From stdpp Require Import base option list strings pretty gmap sorting.

Local Open Scope string_scope.
Local Open Scope Z_scope.

(** ** JavaScript primitives used by the services *)

Module Js.

(** Truthiness of a string value: only the empty string is falsy. *)
Definition truthy (s : string) : bool := negb (bool_decide (s = "")).

(** [x || d] where [x] is a string or [undefined]. *)
Definition or_default (x : option string) (d : string) : string :=
  match x with
  | Some s => if truthy s then s else d
  | None => d
  end.

(** [x || null] where [x] is a string, [null] or [undefined]. *)
Definition or_null (x : option string) : option string :=
  match x with
  | Some s => if truthy s then Some s else None
  | None => None
  end.

(** [`${x}`] for a string or [undefined]. *)
Definition interpolate (x : option string) : string := default "undefined" x.

(** [s.split(',')] *)
Fixpoint split_comma (s : string) : list string :=
  match s with
  | EmptyString => [""]
  | String c s' =>
      if bool_decide (c = ","%char) then "" :: split_comma s'
      else match split_comma s' with
           | h :: t => String c h :: t
           | [] => [String c ""]
           end
  end.

(** White space and line terminators, as [parseInt] skips them.  A string
    is its UTF-8 bytes: the ASCII ones take one byte, U+00A0 takes two, and
    U+1680, U+2000 to U+200A, U+2028, U+2029, U+202F, U+205F, U+3000 and
    U+FEFF take three. *)
Definition is_white_space (c : ascii) : bool :=
  bool_decide (c ∈ [" "%char; "009"%char; "010"%char; "011"%char; "012"%char; "013"%char]).

Definition byte (c : ascii) : Z := Z.of_nat (nat_of_ascii c).

Definition is_white_space2 (c1 c2 : ascii) : bool :=
  (byte c1 =? 194) && (byte c2 =? 160).

Definition is_white_space3 (c1 c2 c3 : ascii) : bool :=
  ((byte c1 =? 225) && (byte c2 =? 154) && (byte c3 =? 128))
  || ((byte c1 =? 226) && (byte c2 =? 128)
      && (((128 <=? byte c3) && (byte c3 <=? 138))
          || (byte c3 =? 168) || (byte c3 =? 169) || (byte c3 =? 175)))
  || ((byte c1 =? 226) && (byte c2 =? 129) && (byte c3 =? 159))
  || ((byte c1 =? 227) && (byte c2 =? 128) && (byte c3 =? 128))
  || ((byte c1 =? 239) && (byte c2 =? 187) && (byte c3 =? 191)).

Fixpoint skip_white_space (s : string) : string :=
  match s with
  | String c1 s1 =>
      if is_white_space c1 then skip_white_space s1
      else
        match s1 with
        | String c2 s2 =>
            if is_white_space2 c1 c2 then skip_white_space s2
            else
              match s2 with
              | String c3 s3 =>
                  if is_white_space3 c1 c2 c3 then skip_white_space s3 else s
              | EmptyString => s
              end
        | EmptyString => s
        end
  | EmptyString => s
  end.

(** Value of a character as a digit of the given radix (10 or 16). *)
Definition digit_value (radix : Z) (c : ascii) : option Z :=
  let n := Z.of_nat (nat_of_ascii c) in
  let v :=
    if (48 <=? n) && (n <=? 57) then Some (n - 48)
    else if (97 <=? n) && (n <=? 102) then Some (n - 87)
    else if (65 <=? n) && (n <=? 70) then Some (n - 55)
    else None in
  match v with
  | Some d => if d <? radix then Some d else None
  | None => None
  end.

(** Longest prefix of digits, most significant first; [None] when the
    prefix is empty. *)
Fixpoint parse_digits (radix : Z) (s : string) (acc : option Z) : option Z :=
  match s with
  | String c s' =>
      match digit_value radix c with
      | Some d => parse_digits radix s' (Some (radix * default 0 acc + d))
      | None => acc
      end
  | EmptyString => acc
  end.

Definition parse_unsigned (s : string) : option Z :=
  match s with
  | String "0" (String "x" s') => parse_digits 16 s' None
  | String "0" (String "X" s') => parse_digits 16 s' None
  | _ => parse_digits 10 s None
  end.

(** [parseInt(s)] without a radix; [None] is [NaN].  The result is kept
    exact: it is the JavaScript number for magnitudes up to 2^53, above
    which a JavaScript number rounds. *)
Definition parseInt (s : string) : option Z :=
  match skip_white_space s with
  | String "-" s' => Z.opp <$> parse_unsigned s'
  | String "+" s' => parse_unsigned s'
  | s' => parse_unsigned s'
  end.

(** [x > y] where [y] may be [NaN]: every comparison with [NaN] is false. *)
Definition gt (x : Z) (y : option Z) : bool :=
  match y with
  | Some m => m <? x
  | None => false
  end.

(** A small non-negative integer as an IEEE-754 double. *)
Definition number (z : Z) : float := PrimFloat.of_uint63 (Uint63.of_Z z).

(** [Math.round(x)] read back as an integer: the integer nearest to the
    double [x], ties towards +infinity.  A finite double is
    [(-1)^s * m * 2^e] exactly. *)
Definition Math_round (x : float) : Z :=
  match Prim2SF x with
  | S754_finite s m e =>
      let mz := if s then Z.neg m else Z.pos m in
      if 0 <=? e then mz * 2 ^ e
      else (2 * mz + 2 ^ (- e)) / 2 ^ (- e + 1)
  | _ => 0
  end.

End Js.

(** ** Data model: rows of the three tables *)

Module Loan.
Record t := mk {
  id : string;
  type : string;
  amount : Z;
  status : string;
  applicantId : string;
  merchantId : option string;
  bankerId : option string;
  createdAt : Z;
  updatedAt : Z;
}.
End Loan.

Module KYCDocument.
Record t := mk {
  id : string;
  type : string;
  url : option string;
  status : string;
  userId : string;
  verifiedBy : option string;
  createdAt : Z;
}.
End KYCDocument.

Module AuditLog.
(** The generated primary key of an entry is its position in the table. *)
Record t := mk {
  loanId : option string;
  action : string;
  actorId : option string;
  createdAt : Z;
}.
End AuditLog.

(** A thrown [Error]: message, the [status] the services attach to it, and
    the [code] the store client attaches to its own errors. *)
Record JsError := mkError {
  message : string;
  status : option Z;
  code : option string;
}.

(** A line written by the logger. *)
Record LogLine := mkLog {
  level : string;
  text : string;
}.

Record World := mkWorld {
  loans : gmap string Loan.t;
  kycDocuments : gmap string KYCDocument.t;
  auditLogs : list AuditLog.t;
  logFile : list LogLine;
}.

Record Env := mkEnv {
  now : Z;                          (* new Date(), Date.now(): milliseconds *)
  newId : string;                   (* primary key the store gives a created row *)
  uuid : string;                    (* uuidv4() *)
  auditLogError : option JsError;   (* the error auditLog.create throws, if it does *)
  process_env : gmap string string; (* process.env *)
}.

(** ** State-and-exception monad of the async functions *)

Definition M (A : Type) : Type := World → (JsError + A) * World.

Definition ret {A} (a : A) : M A := λ w, (inr a, w).

Definition bind {A B} (m : M A) (k : A → M B) : M B :=
  λ w, match m w with
       | (inr a, w') => k a w'
       | (inl e, w') => (inl e, w')
       end.

Definition throw {A} (e : JsError) : M A := λ w, (inl e, w).

(** [try { m } catch (error) { h error }] *)
Definition try_catch {A} (m : M A) (h : JsError → M A) : M A :=
  λ w, match m w with
       | (inr a, w') => (inr a, w')
       | (inl e, w') => h e w'
       end.

Notation "x <- m ;; k" := (bind m (λ x, k))
  (at level 100, m at next level, right associativity).
Notation "m ;;; k" := (bind m (λ _, k))
  (at level 100, right associativity).

(** [const error = new Error(msg); error.status = st; throw error] *)
Definition throw_status {A} (msg : string) (st : Z) : M A :=
  throw (mkError msg (Some st) None).

(** *** Logger: level [info], so [debug] lines are dropped *)

Definition logger_log (lvl msg : string) : M unit :=
  λ w, (inr (), mkWorld (loans w) (kycDocuments w) (auditLogs w)
                        (logFile w ++ [mkLog lvl msg])).
Definition logger_info := logger_log "info".
Definition logger_error := logger_log "error".
Definition logger_debug (msg : string) : M unit := ret ().

(** ** The store client *)

(** [where] clause of a loan query.  An absent key is [None]; the keys
    that are present are conjoined, the alternatives under [OR] are
    disjoined. *)
Inductive LoanCond :=
  | applicantId_is (u : string)
  | merchantId_is (u : string).

Record LoanWhere := mkWhere {
  where_applicantId : option string;
  where_OR : option (list LoanCond);
  where_status : option string;
  where_type : option string;
  where_amount_gte : option Z;
}.

Module Prisma.

Definition set_loans (ls : gmap string Loan.t) (w : World) : World :=
  mkWorld ls (kycDocuments w) (auditLogs w) (logFile w).
Definition set_kycDocuments (ds : gmap string KYCDocument.t) (w : World) : World :=
  mkWorld (loans w) ds (auditLogs w) (logFile w).
Definition set_auditLogs (al : list AuditLog.t) (w : World) : World :=
  mkWorld (loans w) (kycDocuments w) al (logFile w).

(** Errors of the client itself carry no [status]; its known request
    errors carry a [code].  The [message] texts stand for the client's own
    wording, which the services only pass on. *)
Definition uniqueConstraintFailed : JsError :=
  mkError "Unique constraint failed on the fields: (`id`)" None (Some "P2002").
Definition recordNotFound : JsError :=
  mkError "Record to update not found." None (Some "P2025").

(** [take: n]: the first [n] rows, or the last [-n] rows when negative. *)
Definition take_rows {A} (n : Z) (rows : list A) : list A :=
  if 0 <=? n then take (Z.to_nat n) rows
  else drop (length rows - Z.to_nat (- n))%nat rows.

(** *** loan *)

Definition holds (c : LoanCond) (l : Loan.t) : bool :=
  match c with
  | applicantId_is u => bool_decide (Loan.applicantId l = u)
  | merchantId_is u => bool_decide (Loan.merchantId l = Some u)
  end.

Definition key_ok {A} (k : option A) (test : A → bool) : bool :=
  match k with
  | Some a => test a
  | None => true
  end.

Definition matches (wh : LoanWhere) (l : Loan.t) : bool :=
  key_ok (where_applicantId wh) (λ u, bool_decide (Loan.applicantId l = u))
  && key_ok (where_OR wh) (λ cs, existsb (λ c, holds c l) cs)
  && key_ok (where_status wh) (λ s, bool_decide (Loan.status l = s))
  && key_ok (where_type wh) (λ t, bool_decide (Loan.type l = t))
  && key_ok (where_amount_gte wh) (λ a, a <=? Loan.amount l).

(** [orderBy: { createdAt: 'desc' }] *)
Definition newest_first (a b : Loan.t) : Prop :=
  Loan.createdAt b ≤ Loan.createdAt a.
#[global] Instance newest_first_dec a b : Decision (newest_first a b) :=
  Z_le_dec (Loan.createdAt b) (Loan.createdAt a).

Definition log_newest_first (a b : AuditLog.t) : Prop :=
  AuditLog.createdAt b ≤ AuditLog.createdAt a.
#[global] Instance log_newest_first_dec a b : Decision (log_newest_first a b) :=
  Z_le_dec (AuditLog.createdAt b) (AuditLog.createdAt a).

Definition loan_rows (w : World) : list Loan.t := (map_to_list (loans w)).*2.

Definition loan_create (env : Env) (type : string) (amount : Z)
    (status applicantId : string) (merchantId bankerId : option string) : M Loan.t :=
  λ w, match loans w !! newId env with
       | Some _ => (inl uniqueConstraintFailed, w)
       | None =>
           let l := Loan.mk (newId env) type amount status applicantId
                            merchantId bankerId (now env) (now env) in
           (inr l, set_loans (<[newId env := l]> (loans w)) w)
       end.

Definition loan_findUnique (id : string) : M (option Loan.t) :=
  λ w, (inr (loans w !! id), w).

(** Modelled from the spec: the store's schema is not under src/; these
    are the values of the [status] and [type] columns of a loan. *)
Definition enum_LoanStatus : list string := ["PENDING"; "APPROVED"; "REJECTED"].
Definition enum_LoanType : list string := ["PERSONAL"; "BUSINESS"; "VEHICLE"; "EQUIPMENT"].

(** The error of a query whose arguments the client refuses; it has
    neither [status] nor [code]. *)
Definition validationError : JsError :=
  mkError "Invalid value for argument. Expected enum value." None None.

(** The client checks the arguments of a query before it runs it: a
    [status] or [type] that is no value of the column's enum is refused. *)
Definition valid_where (wh : LoanWhere) : bool :=
  key_ok (where_status wh) (λ s, bool_decide (s ∈ enum_LoanStatus))
  && key_ok (where_type wh) (λ t, bool_decide (t ∈ enum_LoanType)).

(** [findMany({ where, orderBy: { createdAt: 'desc' }, take })] *)
Definition loan_findMany (wh : LoanWhere) (n : Z) : M (list Loan.t) :=
  λ w, if valid_where wh
       then (inr (take_rows n (merge_sort newest_first
                                 (filter (λ l, matches wh l) (loan_rows w)))), w)
       else (inl validationError, w).

Definition loan_update (id : string) (data : Loan.t → Loan.t) : M Loan.t :=
  λ w, match loans w !! id with
       | Some l => (inr (data l), set_loans (<[id := data l]> (loans w)) w)
       | None => (inl recordNotFound, w)
       end.

(** *** auditLog *)

Definition auditLog_create (env : Env) (loanId : option string)
    (action : string) (actorId : option string) : M unit :=
  λ w, match auditLogError env with
       | Some e => (inl e, w)
       | None =>
           (inr (), set_auditLogs
                      (auditLogs w ++ [AuditLog.mk loanId action actorId (now env)]) w)
       end.

(** [include: { auditLogs: { orderBy: { createdAt: 'desc' }, take: 5 } }] *)
Definition recent_auditLogs (id : string) (w : World) : list AuditLog.t :=
  take_rows 5 (merge_sort log_newest_first
                 (filter (λ a, AuditLog.loanId a = Some id) (auditLogs w))).

(** *** kYCDocument *)

Definition kYCDocument_create (env : Env) (type : string) (url : option string)
    (status userId : string) : M KYCDocument.t :=
  λ w, match kycDocuments w !! newId env with
       | Some _ => (inl uniqueConstraintFailed, w)
       | None =>
           let d := KYCDocument.mk (newId env) type url status userId None (now env) in
           (inr d, set_kycDocuments (<[newId env := d]> (kycDocuments w)) w)
       end.

Definition kYCDocument_update (id : string) (data : KYCDocument.t → KYCDocument.t)
    : M KYCDocument.t :=
  λ w, match kycDocuments w !! id with
       | Some d => (inr (data d), set_kycDocuments (<[id := data d]> (kycDocuments w)) w)
       | None => (inl recordNotFound, w)
       end.

End Prisma.

(** ** loanService *)

(** A loan as [getLoanById] returns it: the row and its five most recent
    audit entries.  (The [applicant] and [merchant] user projections of
    the query are display data and are not modelled: there is no user
    table in the model.) *)
Record LoanDetails := mkDetails {
  loan : Loan.t;
  recentAuditLogs : list AuditLog.t;
}.

Record LoanData := mkLoanData {
  data_type : string;
  data_amount : Z;
  data_merchantId : option string;
}.

Record LoanFilters := mkFilters {
  filter_status : option string;
  filter_type : option string;
  filter_minAmount : option Z;
  filter_limit : option Z;       (* [None]: undefined or NaN *)
}.

Module LoanService.

(** [createAuditLog(loanId, action, actorId, details)] *)
Definition createAuditLog (env : Env) (loanId action actorId details : string) : M unit :=
  try_catch
    (Prisma.auditLog_create env (Some loanId) action (Some actorId) ;;;
     logger_info "Audit Log Created")
    (λ error,
       logger_error "Audit Log Creation Failed"
       (* Don't throw - audit logs shouldn't break main flow *)).

(** [createLoan(loanData, userId)] *)
Definition createLoan (env : Env) (loanData : LoanData) (userId : string) : M Loan.t :=
  try_catch
    (loan <- Prisma.loan_create env (data_type loanData) (data_amount loanData)
               "PENDING" userId (Js.or_null (data_merchantId loanData)) None ;;
     createAuditLog env (Loan.id loan) "LOAN_CREATED" userId "Loan application submitted" ;;;
     logger_info "Loan Created" ;;;
     ret loan)
    (λ error, logger_error "Loan Creation Failed" ;;; throw error).

(** The authorization test of [getLoanById]. *)
Definition canAccess (l : Loan.t) (userId : string) : bool :=
  bool_decide (Loan.applicantId l = userId)
  || bool_decide (Loan.merchantId l = Some userId)
  || (Js.truthy userId && bool_decide (Loan.bankerId l = Some userId)).

(** [getLoanById(loanId, userId)] *)
Definition getLoanById (loanId userId : string) : M LoanDetails :=
  try_catch
    (found <- Prisma.loan_findUnique loanId ;;
     match found with
     | None => throw_status "Loan not found" 404
     | Some l =>
         if negb (canAccess l userId)
         then throw_status "Unauthorized access to loan" 403
         else
           logger_info "Loan Retrieved" ;;;
           (λ w, (inr (mkDetails l (Prisma.recent_auditLogs loanId w)), w))
     end)
    (λ error, logger_error "Get Loan Failed" ;;; throw error).

(** The role scope of [getUserLoans]: the [switch (role)]. *)
Definition roleScope (userId role : string) : LoanWhere :=
  if bool_decide (role = "CUSTOMER") then
    mkWhere (Some userId) None None None None
  else if bool_decide (role = "MERCHANT") then
    mkWhere None (Some [applicantId_is userId; merchantId_is userId]) None None None
  else if bool_decide (role = "BANKER") then
    mkWhere None None (Some "PENDING") None None
  else
    mkWhere (Some userId) None None None None.

(** The three assignments under "Apply filters". *)
Definition applyFilters (filters : LoanFilters) (wh : LoanWhere) : LoanWhere :=
  let wh1 :=
    match filter_status filters with
    | Some s =>
        if Js.truthy s
        then mkWhere (where_applicantId wh) (where_OR wh)
                     (Some s) (where_type wh) (where_amount_gte wh)
        else wh
    | None => wh
    end in
  let wh2 :=
    match filter_type filters with
    | Some t =>
        if Js.truthy t
        then mkWhere (where_applicantId wh1) (where_OR wh1)
                     (where_status wh1) (Some t) (where_amount_gte wh1)
        else wh1
    | None => wh1
    end in
  match filter_minAmount filters with
  | Some a =>
      if bool_decide (a = 0) then wh2
      else mkWhere (where_applicantId wh2) (where_OR wh2)
                   (where_status wh2) (where_type wh2) (Some a)
  | None => wh2
  end.

(** [filters.limit || 20] *)
Definition limitOf (filters : LoanFilters) : Z :=
  match filter_limit filters with
  | Some n => if bool_decide (n = 0) then 20 else n
  | None => 20
  end.

(** [getUserLoans(userId, role, filters)] *)
Definition getUserLoans (userId role : string) (filters : LoanFilters) : M (list Loan.t) :=
  try_catch
    (let whereClause := applyFilters filters (roleScope userId role) in
     loans <- Prisma.loan_findMany whereClause (limitOf filters) ;;
     logger_info "User Loans Retrieved" ;;;
     ret loans)
    (λ error, logger_error "Get User Loans Failed" ;;; throw error).

Definition validStatuses : list string := ["APPROVED"; "REJECTED"].

(** [updateLoanStatus(loanId, status, userId, notes)] *)
Definition updateLoanStatus (env : Env) (loanId status userId notes : string) : M Loan.t :=
  try_catch
    (if negb (bool_decide (status ∈ validStatuses))
     then throw_status "Invalid status transition" 400
     else
       loan <- Prisma.loan_update loanId
                 (λ l, Loan.mk (Loan.id l) (Loan.type l) (Loan.amount l) status
                               (Loan.applicantId l) (Loan.merchantId l) (Some userId)
                               (Loan.createdAt l) (now env)) ;;
       let action := if bool_decide (status = "APPROVED")
                     then "LOAN_APPROVED" else "LOAN_REJECTED" in
       createAuditLog env loanId action userId notes ;;;
       logger_info "Loan Status Updated" ;;;
       ret loan)
    (λ error, logger_error "Update Loan Status Failed" ;;; throw error).

End LoanService.

(** ** loanController *)

(** [req.user]: the principal the identity gateway attached to the request. *)
Record Principal := mkPrincipal {
  userId : string;
  role : string;
}.

(** The [merchantId] member of a request body. *)
Inductive MerchantRef :=
  | ref_undefined
  | ref_null
  | ref_string (s : string).

(** Body of POST /loan/apply, each member of the type the schema expects
    or absent. *)
Record ApplyBody := mkBody {
  body_type : option string;
  body_amount : option Z;
  body_merchantId : MerchantRef;
  body_purpose : option string;
}.

Record ApplyResponse := mkApplyResponse {
  applied_loan : Loan.t;
  applicationType : string;
}.

Record StatusResponse := mkStatusResponse {
  status_loan : Loan.t;
  recentActivity : list AuditLog.t;
  fullDetails : option LoanDetails;
  isProxyLoan : bool;
}.

Module LoanController.

Definition validationFailed : JsError :=
  mkError "Validation failed" (Some 400) None.

Section Validation.

(** The format test of the schema library's [string().uuid()]. *)
Variable isGuid : string → bool.

(** [validateLoan(validationSchemas.loanApply, body)]: the validated
    value, in which a [null] or absent [merchantId] is [None]. *)
Definition validateLoan (body : ApplyBody) : JsError + LoanData :=
  match body_type body, body_amount body with
  | Some t, Some a =>
      if bool_decide (t ∈ ["PERSONAL"; "BUSINESS"; "VEHICLE"; "EQUIPMENT"])
         && (1000 <=? a) && (a <=? 5000000)
         && match body_merchantId body with
            | ref_string s => Js.truthy s && isGuid s
            | _ => true
            end
         && match body_purpose body with
            | Some p => Js.truthy p && (Z.of_nat (String.length p) <=? 500)
            | None => true
            end
      then inr (mkLoanData t a
                  match body_merchantId body with
                  | ref_string s => Some s
                  | _ => None
                  end)
      else inl validationFailed
  | _, _ => inl validationFailed
  end.

(** [if (loanData.merchantId)] *)
Definition isProxy (loanData : LoanData) : bool :=
  match data_merchantId loanData with
  | Some s => Js.truthy s
  | None => false
  end.

(** POST /loan/apply.  An error handed to [next] is the thrown error of
    the computation. *)
Definition apply (env : Env) (user : Principal) (body : ApplyBody) : M ApplyResponse :=
  if negb (bool_decide (role user ∈ ["CUSTOMER"; "MERCHANT"]))
  then throw_status "Only customers and merchants can apply for loans" 403
  else
    match validateLoan body with
    | inl error => throw error
    | inr loanData =>
        finalMerchantId <-
          (if bool_decide (role user = "MERCHANT") then
             if isProxy loanData then
               logger_info "Merchant proxy loan application" ;;;
               ret (Some (userId user))
             else
               logger_info "Merchant self-application" ;;;
               ret None
           else ret None) ;;
        loan <- LoanService.createLoan env
                  (mkLoanData (data_type loanData) (data_amount loanData) finalMerchantId)
                  (userId user) ;;
        let applicationType :=
          if bool_decide (role user = "MERCHANT") then
            match finalMerchantId with
            | None => "merchant_self"
            | Some _ => "merchant_proxy"
            end
          else "customer_direct" in
        logger_info "Loan Application Submitted" ;;;
        ret (mkApplyResponse loan applicationType)
    end.

End Validation.

(** GET /loan/:id/status *)
Definition getStatus (user : Principal) (loanId : string) : M StatusResponse :=
  details <- LoanService.getLoanById loanId (userId user) ;;
  let l := loan details in
  let response :=
    mkStatusResponse l (recentAuditLogs details)
      (if bool_decide (role user = "BANKER") then Some details else None)
      (bool_decide (role user = "MERCHANT")
       && bool_decide (Loan.merchantId l = Some (userId user))) in
  logger_info "Loan Status Retrieved" ;;;
  ret response.

End LoanController.

(** ** kycService *)

Record UploadData := mkUploadData {
  uploadUrl : string;
  kycDocId : string;
  publicId : string;
  timestamp : Z;
  apiKey : option string;
  folder : option string;
  instructions : string;
}.

Record VerifyResult := mkVerifyResult {
  kycDoc : KYCDocument.t;
  verify_action : string;
  verify_message : string;
}.

Record RequiredDoc := mkRequired {
  required_type : string;
  displayName : string;
  isRequired : bool;
  required_status : string;
}.

Module KYCService.

Definition cloudName (env : Env) : string :=
  Js.interpolate (process_env env !! "CLOUDINARY_CLOUD_NAME").

(** [`https://res.cloudinary.com/${CLOUD_NAME}/image/upload/${publicId}`] *)
Definition documentUrl (env : Env) (publicId : string) : string :=
  "https://res.cloudinary.com/" +:+ cloudName env +:+ "/image/upload/" +:+ publicId.

Definition typeNames : gmap string string :=
  {[ "ID_PROOF" := "Government ID (Aadhaar/Passport)";
     "ADDRESS_PROOF" := "Address Proof (Utility Bill/Bank Statement)";
     "PAN_CARD" := "PAN Card";
     "BANK_STATEMENT" := "Bank Statement (Last 6 months)" ]}.

(** [getDocTypeName(type)] *)
Definition getDocTypeName (type : string) : string :=
  Js.or_default (typeNames !! type) type.

(** [createKYCAuditLog(kycDocId, action, actorId, details)] *)
Definition createKYCAuditLog (env : Env) (kycDocId action : string)
    (actorId : option string) (details : string) : M unit :=
  try_catch
    (Prisma.auditLog_create env None ("KYC_" +:+ action) actorId ;;;
     logger_debug "KYC Audit Log Created")
    (λ error,
       logger_error "KYC Audit Log Failed"
       (* Don't throw - audit shouldn't break main flow *)).

(** [createKYCDocument(userId, type, status, publicId)] *)
Definition createKYCDocument (env : Env) (userId type status : string)
    (publicId : option string) : M KYCDocument.t :=
  try_catch
    (kycDoc <- Prisma.kYCDocument_create env type
                 (documentUrl env <$> Js.or_null publicId) status userId ;;
     logger_info "KYC Document Created" ;;;
     ret kycDoc)
    (λ error, logger_error "Create KYC Document Failed" ;;; throw error).

Definition allowedDocTypes : list string :=
  ["ID_PROOF"; "ADDRESS_PROOF"; "PAN_CARD"; "BANK_STATEMENT"].

(** [generateUploadUrl(userId, docType)].  The upload signature, computed
    by the media host's SDK, is left out of the result. *)
Definition generateUploadUrl (env : Env) (userId docType : string) : M UploadData :=
  try_catch
    (if negb (bool_decide (docType ∈ allowedDocTypes))
     then throw_status "Invalid document type" 400
     else
       let publicId :=
         userId +:+ "/" +:+ docType +:+ "/" +:+ uuid env +:+ "-" +:+ pretty (now env) in
       let timestamp :=
         Js.Math_round (PrimFloat.div (Js.number (now env)) (Js.number 1000)) in
       kycDoc <- createKYCDocument env userId docType "UPLOADING" (Some publicId) ;;
       logger_info "Cloudinary Upload URL Generated" ;;;
       ret (mkUploadData
              ("https://api.cloudinary.com/v1_1/" +:+ cloudName env +:+ "/auto/upload")
              (KYCDocument.id kycDoc)
              publicId
              timestamp
              (process_env env !! "CLOUDINARY_API_KEY")
              (process_env env !! "CLOUDINARY_KYC_FOLDER")
              ("Upload your " +:+ getDocTypeName docType +:+ " (Max 5MB, JPG/PNG/PDF)")))
    (λ error, logger_error "Generate Upload URL Failed" ;;; throw error).

(** [parseInt(process.env.KYC_MAX_FILE_SIZE || '5242880')] *)
Definition maxFileSize (env : Env) : option Z :=
  Js.parseInt (Js.or_default (process_env env !! "KYC_MAX_FILE_SIZE") "5242880").

(** [(process.env.KYC_ALLOWED_TYPES || '...').split(',')] *)
Definition allowedTypes (env : Env) : list string :=
  Js.split_comma (Js.or_default (process_env env !! "KYC_ALLOWED_TYPES")
                                "image/jpeg,image/png,application/pdf").

(** [completeUpload(kycDocId, publicId, fileSize, contentType)] *)
Definition completeUpload (env : Env) (kycDocId publicId : string) (fileSize : Z)
    (contentType : string) : M KYCDocument.t :=
  try_catch
    (if Js.gt fileSize (maxFileSize env)
     then throw_status "File size exceeds 5MB limit" 413
     else if negb (bool_decide (contentType ∈ allowedTypes env))
     then throw_status "Invalid file type. Only JPG, PNG, PDF allowed" 415
     else
       kycDoc <- Prisma.kYCDocument_update kycDocId
                   (λ d, KYCDocument.mk (KYCDocument.id d) (KYCDocument.type d)
                           (Some (documentUrl env publicId)) "PENDING"
                           (KYCDocument.userId d) None (KYCDocument.createdAt d)) ;;
       createKYCAuditLog env kycDocId "DOCUMENT_UPLOADED" None
         ("File uploaded: " +:+ pretty fileSize +:+ " bytes, " +:+ contentType) ;;;
       logger_info "KYC Upload Completed" ;;;
       ret kycDoc)
    (λ error, logger_error "Complete Upload Failed" ;;; throw error).

Definition validStatuses : list string := ["VERIFIED"; "REJECTED"].

(** [verifyKYCDocument(kycDocId, status, bankerId, notes)] *)
Definition verifyKYCDocument (env : Env) (kycDocId status bankerId notes : string)
    : M VerifyResult :=
  try_catch
    (if negb (bool_decide (status ∈ validStatuses))
     then throw_status "Status must be VERIFIED or REJECTED" 400
     else
       kycDoc <- Prisma.kYCDocument_update kycDocId
                   (λ d, KYCDocument.mk (KYCDocument.id d) (KYCDocument.type d)
                           (KYCDocument.url d) status (KYCDocument.userId d)
                           (if bool_decide (status = "VERIFIED")
                            then Some bankerId else None)
                           (KYCDocument.createdAt d)) ;;
       let action := if bool_decide (status = "VERIFIED")
                     then "KYC_VERIFIED" else "KYC_REJECTED" in
       createKYCAuditLog env kycDocId action (Some bankerId) notes ;;;
       logger_info "KYC Document Verified" ;;;
       ret (mkVerifyResult kycDoc action
              (if bool_decide (status = "VERIFIED")
               then "Document verified successfully"
               else "Document rejected: " +:+ notes)))
    (λ error, logger_error "Verify KYC Document Failed" ;;; throw error).

Definition baseRequirements : gmap string (list string) :=
  {[ "CUSTOMER" := ["ID_PROOF"; "ADDRESS_PROOF"; "PAN_CARD"];
     "MERCHANT" := ["ID_PROOF"; "ADDRESS_PROOF"; "PAN_CARD"; "BANK_STATEMENT"];
     "BANKER" := [] ]}.

Definition loanSpecific : gmap string (list string) :=
  {[ "BUSINESS" := ["BANK_STATEMENT"];
     "VEHICLE" := ["ADDRESS_PROOF"];
     "EQUIPMENT" := ["BANK_STATEMENT"] ]}.

(** [[...new Set(l)]]: first occurrences, in insertion order. *)
Definition spreadSet (l : list string) : list string :=
  fold_left (λ (seen : list string) x,
               if bool_decide (x ∈ seen) then seen else (seen ++ [x])%list) l [].

(** The list of types [getRequiredDocuments] settles on before mapping. *)
Definition requirements (userRole : string) (loanType : option string) : list string :=
  let base := default [] (baseRequirements !! userRole) in
  match loanType with
  | Some t =>
      if Js.truthy t
      then spreadSet (base ++ default [] (loanSpecific !! t))
      else base
  | None => base
  end.

(** [getRequiredDocuments(userRole, loanType = null)].  Keys are looked
    up among the own properties of the two tables. *)
Definition getRequiredDocuments (userRole : string) (loanType : option string)
    : list RequiredDoc :=
  (λ type, mkRequired type (getDocTypeName type) true "NOT_STARTED")
    <$> requirements userRole loanType.

End KYCService.

(** ** kycController *)

Record Completion := mkCompletion {
  percentComplete : Z;
  completed : Z;
  pending : Z;
  incomplete : Z;
  completion_status : string;
  needsAction : bool;
}.

Module KYCController.

(** [new Set(documents.filter(doc => doc.status === st).map(doc => doc.type))];
    only membership in the set is used. *)
Definition typesWithStatus (st : string) (documents : list KYCDocument.t) : list string :=
  KYCDocument.type <$> filter (λ doc, KYCDocument.status doc = st) documents.

(** [requiredDocs.filter(doc => types.has(doc.type)).length] *)
Definition countIn (types : list string) (requiredDocs : list RequiredDoc) : Z :=
  Z.of_nat (length (filter (λ doc, required_type doc ∈ types) requiredDocs)).

(** [Math.round((completed / totalRequired) * 100)], in double arithmetic. *)
Definition percent (completed totalRequired : Z) : Z :=
  Js.Math_round
    (PrimFloat.mul (PrimFloat.div (Js.number completed) (Js.number totalRequired))
                   (Js.number 100)).

(** [calculateKYCCompletion(documents, requiredDocs)] *)
Definition calculateKYCCompletion (documents : list KYCDocument.t)
    (requiredDocs : list RequiredDoc) : Completion :=
  let completedTypes := typesWithStatus "VERIFIED" documents in
  let pendingTypes := typesWithStatus "PENDING" documents in
  let totalRequired := Z.of_nat (length requiredDocs) in
  let completed := countIn completedTypes requiredDocs in
  let pending := countIn pendingTypes requiredDocs in
  let incomplete := totalRequired - completed - pending in
  mkCompletion
    (if 0 <? totalRequired then percent completed totalRequired else 0)
    completed
    pending
    incomplete
    (if bool_decide (totalRequired = 0) then "NOT_REQUIRED"
     else if bool_decide (completed = totalRequired) then "COMPLETE"
     else if 0 <? pending then "IN_PROGRESS" else "INCOMPLETE")
    (0 <? pending + incomplete).

End KYCController.

(** ** Enumerations of the request schema

    The roles and loan types the validation schemas admit, with the
    strings that stand for them. *)

Inductive Role := CUSTOMER | MERCHANT | BANKER.

Definition role_name (r : Role) : string :=
  match r with
  | CUSTOMER => "CUSTOMER"
  | MERCHANT => "MERCHANT"
  | BANKER => "BANKER"
  end.

Inductive LoanType := PERSONAL | BUSINESS | VEHICLE | EQUIPMENT.

Definition loanType_name (t : LoanType) : string :=
  match t with
  | PERSONAL => "PERSONAL"
  | BUSINESS => "BUSINESS"
  | VEHICLE => "VEHICLE"
  | EQUIPMENT => "EQUIPMENT"
  end.

(** ** Sample data *)

Module Sample.

Definition env : Env := mkEnv 1700000000000 "id-9" "f47ac10b" None ∅.

(** The same request when the audit table rejects the write. *)
Definition env_audit_down : Env :=
  mkEnv 1700000000000 "id-9" "f47ac10b"
        (Some (mkError "Can't reach database server" None (Some "P1001"))) ∅.

Definition pendingLoan : Loan.t :=
  Loan.mk "loan-1" "PERSONAL" 50000 "PENDING" "alice" None None 100 100.
Definition approvedLoan : Loan.t :=
  Loan.mk "loan-2" "BUSINESS" 70000 "APPROVED" "carol" (Some "mike") (Some "bob") 200 300.
Definition laterLoan : Loan.t :=
  Loan.mk "loan-3" "BUSINESS" 90000 "PENDING" "carol" None None 300 300.

Definition verifiedDoc : KYCDocument.t :=
  KYCDocument.mk "doc-1" "ID_PROOF" (Some "https://res.cloudinary.com/demo/image/upload/a")
                 "VERIFIED" "alice" (Some "bob") 50.
Definition pendingDoc : KYCDocument.t :=
  KYCDocument.mk "doc-2" "ID_PROOF" (Some "https://res.cloudinary.com/demo/image/upload/b")
                 "PENDING" "alice" None 60.

Definition world : World :=
  mkWorld {[ "loan-1" := pendingLoan; "loan-2" := approvedLoan; "loan-3" := laterLoan ]}
          {[ "doc-1" := verifiedDoc; "doc-2" := pendingDoc ]}
          [] [].

Definition banker : Principal := mkPrincipal "bob" "BANKER".
Definition otherBanker : Principal := mkPrincipal "dave" "BANKER".
Definition merchant : Principal := mkPrincipal "mike" "MERCHANT".
Definition customer : Principal := mkPrincipal "alice" "CUSTOMER".

(** A stand-in for the schema library's uuid test. *)
Definition isGuid (s : string) : bool := bool_decide (String.length s = 36%nat).

Definition proxyBody : ApplyBody :=
  mkBody (Some "PERSONAL") (Some 50000)
         (ref_string "123e4567-e89b-12d3-a456-426614174000") None.
Definition plainBody : ApplyBody :=
  mkBody (Some "PERSONAL") (Some 50000) ref_undefined None.

End Sample.

(** * The rest of the service and controller layer *)

(** ** Further JavaScript primitives *)

Module JsNum.

(** An integer of either sign as a double (exact below 2^53). *)
Definition of_Z (z : Z) : float :=
  if z <? 0 then PrimFloat.opp (Js.number (- z)) else Js.number z.

(** [Math.floor(x)] read back as an integer. *)
Definition Math_floor (x : float) : Z :=
  match Prim2SF x with
  | S754_finite s m e =>
      let mz := if s then Z.neg m else Z.pos m in
      if 0 <=? e then mz * 2 ^ e else mz / 2 ^ (- e)
  | _ => 0
  end.

(** Milliseconds in a day: [1000 * 60 * 60 * 24]. *)
Definition msPerDay : Z := 1000 * 60 * 60 * 24.

(** [Math.floor(ms / (1000 * 60 * 60 * 24))] *)
Definition wholeDays (ms : Z) : Z :=
  Math_floor (PrimFloat.div (of_Z ms) (Js.number msPerDay)).

(** Truthiness of a value that is a string or [undefined]. *)
Definition truthy_opt (x : option string) : bool :=
  match x with
  | Some s => Js.truthy s
  | None => false
  end.

End JsNum.

Definition logger_warn := logger_log "warn".

(** ** auth middleware *)

Module AuthMiddleware.

(** [authorize(roles)], applied to [req.user]. *)
Definition authorize (roles : list string) (user : option Principal) : M Principal :=
  match user with
  | None => throw_status "User not authenticated" 401
  | Some u =>
      if negb (bool_decide (length roles = 0%nat)) && negb (bool_decide (role u ∈ roles))
      then logger_warn "Access Denied" ;;; throw_status "Insufficient permissions" 403
      else ret u
  end.

(** An exported handler chain [[authenticate, authorize(roles), handler]].
    Token verification is outside the model: its outcome, the principal or
    the error it hands to [next], is the input. *)
Definition chain {A} (roles : list string) (handler : Principal → M A)
    (authenticated : JsError + Principal) : M A :=
  match authenticated with
  | inl error => logger_warn "Authentication Failed" ;;; throw error
  | inr u =>
      logger_info "Token Verified" ;;;
      (u' <- authorize roles (Some u) ;; handler u')
  end.

(** A chain without an [authorize] stage. *)
Definition chain_any {A} (handler : Principal → M A)
    (authenticated : JsError + Principal) : M A :=
  match authenticated with
  | inl error => logger_warn "Authentication Failed" ;;; throw error
  | inr u => logger_info "Token Verified" ;;; handler u
  end.

End AuthMiddleware.

(** ** loanService: merchant analytics *)

Record AnalyticsFilters := mkAnalyticsFilters {
  analytics_status : option string;
  analytics_startDate : option string;
  analytics_endDate : option string;
}.

Record Analytics := mkAnalytics {
  analytics_merchantId : string;
  period : string;
  totalLoans : Z;
  approvedLoans : Z;
  approvalRate : Z;
  totalApprovedAmount : Z;
  averageApprovalTimeDays : Z;
  generatedAt : Z;
}.

(** The [where] clause of the analytics queries. *)
Record AnalyticsWhere := mkAnalyticsWhere {
  scope_merchantId : string;
  scope_status : option string;
  scope_createdAt_gte : option Z;
  scope_createdAt_lte : option Z;
}.

Module LoanAnalytics.

Definition invalidDate : JsError :=
  mkError "Provided Date object is invalid. Expected Date." None None.

Definition inScope (wh : AnalyticsWhere) (l : Loan.t) : bool :=
  bool_decide (Loan.merchantId l = Some (scope_merchantId wh))
  && Prisma.key_ok (scope_status wh) (λ s, bool_decide (Loan.status l = s))
  && Prisma.key_ok (scope_createdAt_gte wh) (λ t, t <=? Loan.createdAt l)
  && Prisma.key_ok (scope_createdAt_lte wh) (λ t, Loan.createdAt l <=? t).

Definition rowsIn (wh : AnalyticsWhere) (w : World) : list Loan.t :=
  filter (λ l, inScope wh l) (Prisma.loan_rows w).

(** [{ ...whereClause, status: 'APPROVED' }] *)
Definition approvedScope (wh : AnalyticsWhere) : AnalyticsWhere :=
  mkAnalyticsWhere (scope_merchantId wh) (Some "APPROVED")
                   (scope_createdAt_gte wh) (scope_createdAt_lte wh).

Definition sumZ (l : list Z) : Z := foldr Z.add 0 l.

(** [aggregate({ _sum: { amount: true } })._sum?.amount || 0]: the sum is
    [null] over no rows. *)
Definition sumAmount (rows : list Loan.t) : Z :=
  let sum := match rows with
             | [] => None
             | _ => Some (sumZ (Loan.amount <$> rows))
             end in
  match sum with
  | Some s => if bool_decide (s = 0) then 0 else s
  | None => 0
  end.

(** The [.then(loans => ...)] of the fourth query. *)
Definition averageDays (rows : list Loan.t) : Z :=
  if bool_decide (length rows = 0%nat) then 0
  else
    let total := sumZ ((λ l, Loan.updatedAt l - Loan.createdAt l) <$> rows) in
    let avgTime := PrimFloat.div (JsNum.of_Z total) (Js.number (Z.of_nat (length rows))) in
    Js.Math_round (PrimFloat.div avgTime (Js.number JsNum.msPerDay)).

Section Dates.

(** [new Date(s).getTime()]; [None] for an Invalid Date, which the store
    client refuses. *)
Variable Date_parse : string → option Z.

(** The [where] clause [getMerchantAnalytics] builds, or the error of the
    first query when a bound is no date. *)
Definition whereClause (merchantId : string) (filters : AnalyticsFilters)
    : JsError + AnalyticsWhere :=
  let status := if JsNum.truthy_opt (analytics_status filters)
                then analytics_status filters else None in
  let bound (d : option string) : JsError + option Z :=
    match d with
    | Some s => if Js.truthy s
                then match Date_parse s with
                     | Some t => inr (Some t)
                     | None => inl invalidDate
                     end
                else inr None
    | None => inr None
    end in
  match bound (analytics_startDate filters), bound (analytics_endDate filters) with
  | inr gte, inr lte => inr (mkAnalyticsWhere merchantId status gte lte)
  | inl e, _ => inl e
  | _, inl e => inl e
  end.

(** [getMerchantAnalytics(merchantId, filters)] *)
Definition getMerchantAnalytics (env : Env) (merchantId : string)
    (filters : AnalyticsFilters) : M Analytics :=
  try_catch
    (match whereClause merchantId filters with
     | inl error => throw error
     | inr wh =>
         λ w,
           let totalLoans := Z.of_nat (length (rowsIn wh w)) in
           let approved := rowsIn (approvedScope wh) w in
           let approvedLoans := Z.of_nat (length approved) in
           let analytics :=
             mkAnalytics merchantId
               (if JsNum.truthy_opt (analytics_startDate filters)
                   && JsNum.truthy_opt (analytics_endDate filters)
                then Js.interpolate (analytics_startDate filters) +:+ " to "
                     +:+ Js.interpolate (analytics_endDate filters)
                else "All time")
               totalLoans
               approvedLoans
               (if 0 <? totalLoans
                then Js.Math_round
                       (PrimFloat.mul
                          (PrimFloat.div (Js.number approvedLoans) (Js.number totalLoans))
                          (Js.number 100))
                else 0)
               (sumAmount approved)
               (averageDays approved)
               (now env) in
           (logger_info "Merchant Analytics Generated" ;;; ret analytics) w
     end)
    (λ error, logger_error "Merchant Analytics Failed" ;;; throw error).

End Dates.

End LoanAnalytics.

(** ** loanController: the remaining handlers *)

Record DecisionResponse := mkDecisionResponse {
  decided_id : string;
  decided_status : string;
  decided_updatedAt : Z;
}.

(** [req.query] of the list request, each key a single string or absent.
    (A repeated or bracketed key, which the query parser turns into an
    array or an object, is not modelled.) *)
Record ListQuery := mkListQuery {
  query_status : option string;
  query_type : option string;
  query_limit : option string;
}.

Record LoanSummary := mkSummary {
  summary_id : string;
  summary_type : string;
  summary_amount : Z;
  summary_status : string;
  summary_createdAt : Z;
}.

Record ListResponse := mkListResponse {
  listed : list LoanSummary;
  listed_filters : LoanFilters;
  listed_total : Z;
}.

(** [req.body.notes].  No schema checks the body of a decision, so the
    member is any JSON value: absent, [null], a string, or ([notes_other],
    with its truthiness) a number, a boolean, an array or an object. *)
Inductive BodyNotes :=
  | notes_undefined
  | notes_null
  | notes_string (s : string)
  | notes_other (truthy : bool).

Module LoanRoutes.

(** [notes || fallback], the last argument of [updateLoanStatus]: a string,
    or ([None]) a truthy value that is no string. *)
Definition notesArg (notes : BodyNotes) (fallback : string) : option string :=
  match notes with
  | notes_string s => Some (if Js.truthy s then s else fallback)
  | notes_other true => None
  | notes_other false | notes_undefined | notes_null => Some fallback
  end.

(** The TypeError of [x.substring(...)] when [x] is no string. *)
Definition notAFunction (x : string) : JsError :=
  mkError (x +:+ ".substring is not a function") None None.

(** [createAuditLog(loanId, action, actorId, details)] when [details] is no
    string: the argument of the log call throws after the entry is
    written, inside the [try], and the [catch] swallows it. *)
Definition createAuditLog_noString (env : Env) (loanId action actorId : string) : M unit :=
  try_catch
    (Prisma.auditLog_create env (Some loanId) action (Some actorId) ;;;
     throw (notAFunction "details"))
    (λ error, logger_error "Audit Log Creation Failed").

(** [updateLoanStatus(loanId, status, userId, notes)] when [notes] is no
    string: the argument of the last log call throws after the loan is
    updated and the audit entry attempted. *)
Definition updateLoanStatus_noString (env : Env) (loanId status userId : string)
    : M Loan.t :=
  try_catch
    (if negb (bool_decide (status ∈ LoanService.validStatuses))
     then throw_status "Invalid status transition" 400
     else
       loan <- Prisma.loan_update loanId
                 (λ l, Loan.mk (Loan.id l) (Loan.type l) (Loan.amount l) status
                               (Loan.applicantId l) (Loan.merchantId l) (Some userId)
                               (Loan.createdAt l) (now env)) ;;
       let action := if bool_decide (status = "APPROVED")
                     then "LOAN_APPROVED" else "LOAN_REJECTED" in
       createAuditLog_noString env loanId action userId ;;;
       throw (notAFunction "notes"))
    (λ error, logger_error "Update Loan Status Failed" ;;; throw error).

(** [loanService.updateLoanStatus(loanId, status, userId, notes || fallback)] *)
Definition decide_loan (env : Env) (loanId status userId : string) (notes : BodyNotes)
    (fallback : string) : M Loan.t :=
  match notesArg notes fallback with
  | Some s => LoanService.updateLoanStatus env loanId status userId s
  | None => updateLoanStatus_noString env loanId status userId
  end.

(** POST /loan/:id/approve; [notes] is [req.body.notes]. *)
Definition approve (env : Env) (loanId : string) (notes : BodyNotes)
    (user : Principal) : M DecisionResponse :=
  if negb (bool_decide (role user = "BANKER"))
  then throw_status "Only bankers can approve loans" 403
  else
    loan <- decide_loan env loanId "APPROVED" (userId user) notes
              "Loan approved by banker" ;;
    logger_info "Loan Approved" ;;;
    ret (mkDecisionResponse (Loan.id loan) (Loan.status loan) (Loan.updatedAt loan)).

(** POST /loan/:id/reject *)
Definition reject (env : Env) (loanId : string) (notes : BodyNotes)
    (user : Principal) : M DecisionResponse :=
  if negb (bool_decide (role user = "BANKER"))
  then throw_status "Only bankers can reject loans" 403
  else
    loan <- decide_loan env loanId "REJECTED" (userId user) notes
              "Loan rejected by banker" ;;
    logger_info "Loan Rejected" ;;;
    ret (mkDecisionResponse (Loan.id loan) (Loan.status loan) (Loan.updatedAt loan)).

(** [const { status, type, limit = 10 } = req.query;
     const filters = { status, type, limit: parseInt(limit) }] *)
Definition listFilters (query : ListQuery) : LoanFilters :=
  mkFilters (query_status query) (query_type query) None
            match query_limit query with
            | Some s => Js.parseInt s
            | None => Some 10
            end.

(** GET /loan/list.  (The applicant projection of each entry is not
    modelled.) *)
Definition listLoans (query : ListQuery) (user : Principal) : M ListResponse :=
  let filters := listFilters query in
  loans <- LoanService.getUserLoans (userId user) (role user) filters ;;
  logger_info "Loan List Retrieved" ;;;
  ret (mkListResponse
         ((λ l, mkSummary (Loan.id l) (Loan.type l) (Loan.amount l) (Loan.status l)
                          (Loan.createdAt l)) <$> loans)
         filters
         (Z.of_nat (length loans))).

(** GET /loan/analytics/merchant *)
Definition merchantAnalytics (Date_parse : string → option Z) (env : Env)
    (filters : AnalyticsFilters) (user : Principal) : M Analytics :=
  if negb (bool_decide (role user = "MERCHANT"))
  then throw_status "Only merchants can view analytics" 403
  else
    analytics <- LoanAnalytics.getMerchantAnalytics Date_parse env (userId user) filters ;;
    logger_info "Merchant Analytics Accessed" ;;;
    ret analytics.

(** The exported chains. *)
Definition approve_route (env : Env) (loanId : string) (notes : BodyNotes) :=
  AuthMiddleware.chain ["BANKER"] (approve env loanId notes).
Definition reject_route (env : Env) (loanId : string) (notes : BodyNotes) :=
  AuthMiddleware.chain ["BANKER"] (reject env loanId notes).
Definition listLoans_route (query : ListQuery) :=
  AuthMiddleware.chain_any (listLoans query).

End LoanRoutes.

(** ** kycService: the queries *)

Record EnrichedDoc := mkEnriched {
  enriched_doc : KYCDocument.t;
  docTypeName : string;
  isPending : bool;
  needsResubmission : bool;
}.

Record PendingDoc := mkPendingDoc {
  pending_doc : KYCDocument.t;
  daysPending : Z;
}.

Record ReviewDoc := mkReviewDoc {
  review_doc : KYCDocument.t;
  review_docTypeName : string;
  isOverdue : bool;
}.

Module KYCQueries.

Definition doc_rows (w : World) : list KYCDocument.t :=
  (map_to_list (kycDocuments w)).*2.

(** [orderBy: { createdAt: 'desc' }] and [orderBy: { createdAt: 'asc' }] *)
Definition doc_newest_first (a b : KYCDocument.t) : Prop :=
  KYCDocument.createdAt b ≤ KYCDocument.createdAt a.
#[global] Instance doc_newest_first_dec a b : Decision (doc_newest_first a b) :=
  Z_le_dec (KYCDocument.createdAt b) (KYCDocument.createdAt a).

Definition doc_oldest_first (a b : KYCDocument.t) : Prop :=
  KYCDocument.createdAt a ≤ KYCDocument.createdAt b.
#[global] Instance doc_oldest_first_dec a b : Decision (doc_oldest_first a b) :=
  Z_le_dec (KYCDocument.createdAt a) (KYCDocument.createdAt b).

(** [getUserKYCDocuments(userId, status = null)] *)
Definition getUserKYCDocuments (user : string) (st : option string) : M (list EnrichedDoc) :=
  try_catch
    (λ w,
       let documents :=
         merge_sort doc_newest_first
           (filter (λ d, KYCDocument.userId d = user
                         ∧ (JsNum.truthy_opt st = true → Some (KYCDocument.status d) = st))
                   (doc_rows w)) in
       let enrichedDocs :=
         (λ d, mkEnriched d (KYCService.getDocTypeName (KYCDocument.type d))
                          (bool_decide (KYCDocument.status d = "PENDING"))
                          (bool_decide (KYCDocument.status d = "REJECTED")))
           <$> documents in
       (logger_info "KYC Documents Retrieved" ;;; ret enrichedDocs) w)
    (λ error, logger_error "Get User KYC Failed" ;;; throw error).

(** [getPendingKYCForReview(bankerId, limit)].  (The owner's profile
    fields of each entry are not modelled.) *)
Definition getPendingKYCForReview (env : Env) (bankerId : string) (limit : Z)
    : M (list PendingDoc) :=
  try_catch
    (λ w,
       let documents :=
         Prisma.take_rows limit
           (merge_sort doc_oldest_first
              (filter (λ d, KYCDocument.status d = "PENDING") (doc_rows w))) in
       let enrichedDocs :=
         (λ d, mkPendingDoc d (JsNum.wholeDays (now env - KYCDocument.createdAt d)))
           <$> documents in
       (logger_info "Pending KYC Retrieved for Review" ;;; ret enrichedDocs) w)
    (λ error, logger_error "Get Pending KYC Failed" ;;; throw error).

(** [getKYCForReview(kycDocId)] *)
Definition getKYCForReview (env : Env) (docId : string) : M ReviewDoc :=
  try_catch
    (λ w,
       match kycDocuments w !! docId with
       | None => throw_status "KYC document not found" 404 w
       | Some d =>
           (inr (mkReviewDoc d (KYCService.getDocTypeName (KYCDocument.type d))
                   (bool_decide (KYCDocument.status d = "PENDING")
                    && (3 <? JsNum.wholeDays (now env - KYCDocument.createdAt d)))), w)
       end)
    (λ error, logger_error "Get KYC for Review Failed" ;;; throw error).

End KYCQueries.

(** ** kycController: the handlers *)

Record UploadUrlBody := mkUploadUrlBody {
  upload_docType : option string;
}.

Record CompleteUploadBody := mkCompleteBody {
  complete_kycDocId : option string;
  complete_publicId : option string;
  complete_fileSize : option Z;
  complete_contentType : option string;
}.

Record VerifyBody := mkVerifyBody {
  verify_status : option string;
  verify_notes : option string;
}.

Record VerifyResponse := mkVerifyResponse {
  verified_kycDocId : string;
  newStatus : string;
  verified_action : string;
  verified_notes : option string;
  verified_message : string;
}.

Record KycStatusResponse := mkKycStatus {
  status_documents : list EnrichedDoc;
  requiredDocuments : list RequiredDoc;
  completion : Completion;
  overallStatus : string;
}.

Module KYCRoutes.

(** [validateKYC(validationSchemas.kycUploadUrl, body)] *)
Definition validateUploadUrl (body : UploadUrlBody) : JsError + string :=
  match upload_docType body with
  | Some t =>
      if bool_decide (t ∈ ["ID_PROOF"; "ADDRESS_PROOF"; "PAN_CARD"; "BANK_STATEMENT"])
      then inr t else inl LoanController.validationFailed
  | None => inl LoanController.validationFailed
  end.

(** [validateKYC(validationSchemas.kycVerify, body)]: the status and the
    notes, which may be empty or absent. *)
Definition validateVerify (body : VerifyBody) : JsError + (string * option string) :=
  match verify_status body with
  | Some s =>
      if bool_decide (s ∈ ["VERIFIED"; "REJECTED"])
         && match verify_notes body with
            | Some n => Z.of_nat (String.length n) <=? 1000
            | None => true
            end
      then inr (s, verify_notes body) else inl LoanController.validationFailed
  | None => inl LoanController.validationFailed
  end.

Section Validation.

(** The format test of the schema library's [string().uuid()]. *)
Variable isGuid : string → bool.

(** [validateKYC(validationSchemas.kycCompleteUpload, body)] *)
Definition validateCompleteUpload (body : CompleteUploadBody)
    : JsError + (string * string * Z * string) :=
  match complete_kycDocId body, complete_publicId body,
        complete_fileSize body, complete_contentType body with
  | Some id, Some pid, Some size, Some ct =>
      if Js.truthy id && isGuid id && Js.truthy pid && (1 <=? size)
         && bool_decide (ct ∈ ["image/jpeg"; "image/png"; "application/pdf"])
      then inr (id, pid, size, ct) else inl LoanController.validationFailed
  | _, _, _, _ => inl LoanController.validationFailed
  end.

(** POST /kyc/complete-upload *)
Definition completeUpload (env : Env) (body : CompleteUploadBody) (user : Principal)
    : M KYCDocument.t :=
  if negb (bool_decide (role user ∈ ["CUSTOMER"; "MERCHANT"]))
  then throw_status "Only customers and merchants can complete KYC uploads" 403
  else
    match validateCompleteUpload body with
    | inl error => throw error
    | inr (id, pid, size, ct) =>
        doc <- KYCService.completeUpload env id pid size ct ;;
        logger_info "KYC Upload Completed" ;;;
        ret doc
    end.

End Validation.

(** POST /kyc/upload-url *)
Definition generateUploadUrl (env : Env) (body : UploadUrlBody) (user : Principal)
    : M UploadData :=
  if negb (bool_decide (role user ∈ ["CUSTOMER"; "MERCHANT"]))
  then throw_status "Only customers and merchants can upload KYC documents" 403
  else
    match validateUploadUrl body with
    | inl error => throw error
    | inr docType =>
        uploadData <- KYCService.generateUploadUrl env (userId user) docType ;;
        logger_info "KYC Upload Signature Generated" ;;;
        ret uploadData
    end.

(** GET /kyc/status; [st] is [req.query.status]. *)
Definition getStatus (st : option string) (user : Principal) : M KycStatusResponse :=
  documents <- KYCQueries.getUserKYCDocuments (userId user) st ;;
  let requiredDocs := KYCService.getRequiredDocuments (role user) None in
  let completionStatus :=
    KYCController.calculateKYCCompletion (enriched_doc <$> documents) requiredDocs in
  logger_info "KYC Status Retrieved" ;;;
  ret (mkKycStatus documents requiredDocs completionStatus
         (if bool_decide (percentComplete completionStatus = 100)
          then "COMPLETE" else "INCOMPLETE")).

(** POST /kyc/:kycDocId/verify *)
Definition verify (env : Env) (docId : string) (body : VerifyBody) (user : Principal)
    : M VerifyResponse :=
  if negb (bool_decide (role user = "BANKER"))
  then throw_status "Only bankers can verify KYC documents" 403
  else
    match validateVerify body with
    | inl error => throw error
    | inr (st, notes) =>
        result <- KYCService.verifyKYCDocument env docId st (userId user)
                    (default "" notes) ;;
        logger_info "KYC Document Verified" ;;;
        ret (mkVerifyResponse docId st (verify_action result) (Js.or_null notes)
                              (verify_message result))
    end.

(** GET /kyc/:kycDocId/review *)
Definition getForReview (env : Env) (docId : string) (user : Principal) : M ReviewDoc :=
  if negb (bool_decide (role user = "BANKER"))
  then throw_status "Only bankers can review KYC documents" 403
  else
    document <- KYCQueries.getKYCForReview env docId ;;
    logger_info "KYC Document Retrieved for Review" ;;;
    ret document.

(** GET /kyc/required; [loanType] is [req.query.loanType]. *)
Definition getRequired (loanType : option string) (user : Principal) : M (list RequiredDoc) :=
  let requiredDocs := KYCService.getRequiredDocuments (role user) loanType in
  logger_info "Required KYC Retrieved" ;;;
  ret requiredDocs.

(** The exported chains of the banker handlers. *)
Definition verify_route (env : Env) (docId : string) (body : VerifyBody) :=
  AuthMiddleware.chain ["BANKER"] (verify env docId body).
Definition getForReview_route (env : Env) (docId : string) :=
  AuthMiddleware.chain ["BANKER"] (getForReview env docId).

End KYCRoutes.

(** ** Further sample data *)

Module Fixtures.

Definition docKey : string := "0b6f5c1e-2a4d-4e8b-9c3a-7d1e5f2a9b10".

(** A decided document of alice, stored under a key the schema accepts. *)
Definition decidedDoc : KYCDocument.t :=
  KYCDocument.mk docKey "PAN_CARD" (Some "https://res.cloudinary.com/demo/image/upload/c")
                 "VERIFIED" "alice" (Some "bob") 70.

Definition world : World :=
  mkWorld (loans Sample.world) (<[docKey := decidedDoc]> (kycDocuments Sample.world)) [] [].

Definition stranger : Principal := mkPrincipal "mallory" "CUSTOMER".

Definition completeBody : CompleteUploadBody :=
  mkCompleteBody (Some docKey) (Some "mallory/PAN_CARD/x") (Some 2048) (Some "image/png").

(** A stand-in for [new Date(s).getTime()]: decimal milliseconds. *)
Definition Date_parse (s : string) : option Z := Js.parseInt s.

End Fixtures.

(** ** Vocabulary of the statements *)

(** A condition on a value that may be absent: it holds of the value when
    there is one, and vacuously otherwise. *)
Definition when_present {A} (k : option A) (P : A → Prop) : Prop :=
  match k with
  | Some a => P a
  | None => True
  end.

#[global] Instance when_present_dec {A} (k : option A) (P : A → Prop)
    `{!∀ a, Decision (P a)} : Decision (when_present k P) :=
  match k as k' return Decision (when_present k' P) with
  | Some a => decide (P a)
  | None => left I
  end.

(** The [status] and [type] filters of a list request are values the
    store knows for these columns; an empty filter is no filter. *)
Definition known_filters (filters : LoanFilters) : Prop :=
  when_present (filter_status filters) (λ s, s ≠ "" → s ∈ Prisma.enum_LoanStatus)
  ∧ when_present (filter_type filters) (λ t, t ≠ "" → t ∈ Prisma.enum_LoanType).

#[global] Instance known_filters_dec (filters : LoanFilters) :
    Decision (known_filters filters) :=
  and_dec (when_present_dec (filter_status filters) _)
          (when_present_dec (filter_type filters) _).

(** * Properties *)

(** ** Auxiliary facts *)

Lemma truthy_spec (s : string) : Js.truthy s = true ↔ s ≠ "".
Proof.
  unfold Js.truthy. rewrite negb_true_iff, bool_decide_eq_false. done.
Qed.

Lemma or_null_truthy (s : string) : s ≠ "" → Js.or_null (Some s) = Some s.
Proof. intros Hs. unfold Js.or_null. by rewrite (proj2 (truthy_spec s) Hs). Qed.

Lemma decision_in_pair (x a b : string) : x ∈ [a; b] ↔ x = a ∨ x = b.
Proof. rewrite !elem_of_cons, elem_of_nil. tauto. Qed.

Lemma take_rows_sublist {A} (n : Z) (rows : list A) :
  Prisma.take_rows n rows `sublist_of` rows.
Proof.
  unfold Prisma.take_rows. destruct (0 <=? n); [apply sublist_take | apply sublist_drop].
Qed.

Lemma take_rows_length {A} (n : Z) (rows : list A) :
  (length (Prisma.take_rows n rows) ≤ Z.to_nat (Z.abs n))%nat.
Proof.
  unfold Prisma.take_rows. destruct (Z.leb_spec 0 n).
  - rewrite length_take. lia.
  - rewrite length_drop. lia.
Qed.

Lemma take_rows_all {A} (n : Z) (rows : list A) :
  (length rows ≤ Z.to_nat (Z.abs n))%nat → Prisma.take_rows n rows = rows.
Proof.
  unfold Prisma.take_rows. intros Hlen. destruct (Z.leb_spec 0 n).
  - apply take_ge. lia.
  - replace (length rows - Z.to_nat (- n))%nat with 0%nat by lia. done.
Qed.

Lemma StronglySorted_sublist {A} (R : relation A) (l1 l2 : list A) :
  l1 `sublist_of` l2 → StronglySorted R l2 → StronglySorted R l1.
Proof.
  induction 1 as [|x l1 l2 Hsub IH|x l1 l2 Hsub IH]; intros Hs.
  - constructor.
  - apply StronglySorted_cons in Hs as [Hall Hs]. apply StronglySorted_cons. split.
    + rewrite Forall_forall in *. intros y Hy. apply Hall. by eapply elem_of_sublist.
    + by apply IH.
  - apply StronglySorted_cons in Hs as [_ Hs]. by apply IH.
Qed.

#[local] Instance newest_first_trans : Transitive Prisma.newest_first.
Proof. unfold Prisma.newest_first. intros a b c ??. lia. Qed.

#[local] Instance newest_first_total : Total Prisma.newest_first.
Proof. unfold Prisma.newest_first. intros a b. lia. Qed.

(** What [findMany({ where, orderBy, take })] returns, for any filter and
    any total order: rows that pass the filter, in order, at most [|n|] of
    them, and all of them unless the page is full. *)
Lemma sorted_page_spec {A} (R : relation A) `{!∀ x y, Decision (R x y)}
    `{!Transitive R} `{!Total R} (P : A → Prop) `{!∀ x, Decision (P x)}
    (rows : list A) (n : Z) :
  let page := Prisma.take_rows n (merge_sort R (filter P rows)) in
  (∀ x, x ∈ page → x ∈ rows ∧ P x)
  ∧ StronglySorted R page
  ∧ (length page ≤ Z.to_nat (Z.abs n))%nat
  ∧ (∀ x, x ∈ rows → P x → x ∈ page ∨ length page = Z.to_nat (Z.abs n)).
Proof.
  intros page.
  assert (∀ x, x ∈ merge_sort R (filter P rows) ↔ x ∈ rows ∧ P x) as Hall.
  { intros x. rewrite merge_sort_Permutation, list_elem_of_filter. tauto. }
  split; [|split; [|split]].
  - intros x Hx. apply Hall. eapply elem_of_sublist; [exact Hx | apply take_rows_sublist].
  - eapply StronglySorted_sublist; [apply take_rows_sublist|].
    by apply StronglySorted_merge_sort.
  - apply take_rows_length.
  - intros x Hx HP.
    destruct (decide (length (merge_sort R (filter P rows)) ≤ Z.to_nat (Z.abs n))%nat)
      as [Hle|Hgt].
    + left. unfold page. rewrite take_rows_all by done. apply Hall. done.
    + right. unfold page, Prisma.take_rows in *. destruct (Z.leb_spec 0 n).
      * rewrite length_take. lia.
      * rewrite length_drop. lia.
Qed.

Lemma take_rows_length_eq {A} (n : Z) (rows : list A) :
  length (Prisma.take_rows n rows) = Nat.min (Z.to_nat (Z.abs n)) (length rows).
Proof.
  unfold Prisma.take_rows. destruct (Z.leb_spec 0 n).
  - rewrite length_take. lia.
  - rewrite length_drop. lia.
Qed.

(** Rows of the loan table are exactly the values stored under their key. *)
Lemma elem_of_loan_rows (w : World) (l : Loan.t) :
  l ∈ Prisma.loan_rows w ↔ ∃ k, loans w !! k = Some l.
Proof.
  unfold Prisma.loan_rows. rewrite list_elem_of_fmap. split.
  - intros [[k l'] [-> Hin]]. exists k. by apply elem_of_map_to_list in Hin.
  - intros [k Hk]. exists (k, l). split; [done | by apply elem_of_map_to_list].
Qed.

(** The audit write never throws, and it touches neither ledger. *)
Lemma createAuditLog_total (env : Env) (loanId action actorId details : string) (w : World) :
  let r := LoanService.createAuditLog env loanId action actorId details w in
  r.1 = inr () ∧ loans r.2 = loans w ∧ kycDocuments r.2 = kycDocuments w.
Proof.
  unfold LoanService.createAuditLog, try_catch, bind, Prisma.auditLog_create.
  destruct (auditLogError env); simpl; done.
Qed.

Lemma createKYCAuditLog_total (env : Env) (kycDocId action : string)
    (actorId : option string) (details : string) (w : World) :
  let r := KYCService.createKYCAuditLog env kycDocId action actorId details w in
  r.1 = inr () ∧ loans r.2 = loans w ∧ kycDocuments r.2 = kycDocuments w.
Proof.
  unfold KYCService.createKYCAuditLog, try_catch, bind, Prisma.auditLog_create.
  destruct (auditLogError env); simpl; done.
Qed.

(** Unfolds the monadic plumbing of a service call. *)
Ltac run_monad :=
  unfold try_catch, bind, ret, throw_status, throw, logger_info, logger_error,
         logger_debug, logger_log,
         Prisma.loan_findUnique, Prisma.loan_update, Prisma.loan_create,
         Prisma.loan_findMany, Prisma.kYCDocument_update, Prisma.kYCDocument_create,
         Prisma.auditLog_create;
  simpl.

Lemma canAccess_spec (l : Loan.t) (userId : string) :
  LoanService.canAccess l userId = true ↔
    Loan.applicantId l = userId
    ∨ Loan.merchantId l = Some userId
    ∨ (userId ≠ "" ∧ Loan.bankerId l = Some userId).
Proof.
  unfold LoanService.canAccess.
  rewrite !orb_true_iff, andb_true_iff, !bool_decide_eq_true, truthy_spec. tauto.
Qed.

(** ** Loan ledger: reading one loan *)

(** C1, as the code decides it.  [getLoanById] fails with status 404 when
    no loan has the id; it returns the loan (with its recent audit
    entries) when the requester is the applicant, the recorded merchant,
    or the banker recorded in [bankerId]; it fails with status 403 for
    every other requester.  The requester's role is not an input of the
    decision.  The tables are left as they were. *)
Theorem getLoanById_access (w : World) (loanId userId : string) :
  let r := LoanService.getLoanById loanId userId w in
  (loans w !! loanId = None →
     r.1 = inl (mkError "Loan not found" (Some 404) None))
  ∧ (∀ l, loans w !! loanId = Some l →
       Loan.applicantId l = userId
       ∨ Loan.merchantId l = Some userId
       ∨ (userId ≠ "" ∧ Loan.bankerId l = Some userId) →
       r.1 = inr (mkDetails l (Prisma.recent_auditLogs loanId w)))
  ∧ (∀ l, loans w !! loanId = Some l →
       Loan.applicantId l ≠ userId →
       Loan.merchantId l ≠ Some userId →
       userId = "" ∨ Loan.bankerId l ≠ Some userId →
       r.1 = inl (mkError "Unauthorized access to loan" (Some 403) None))
  ∧ loans r.2 = loans w ∧ kycDocuments r.2 = kycDocuments w
  ∧ auditLogs r.2 = auditLogs w.
Proof.
  unfold LoanService.getLoanById. run_monad.
  destruct (loans w !! loanId) as [l|] eqn:Hl; simpl.
  - destruct (LoanService.canAccess l userId) eqn:Hacc; simpl.
    + apply canAccess_spec in Hacc.
      repeat split; try done.
      * intros l' [= <-] _. done.
      * intros l' [= <-] Ha Hm Hb. exfalso. destruct Hacc as [?|[?|[? ?]]]; [done..|].
        destruct Hb; done.
    + assert (¬ (Loan.applicantId l = userId
                 ∨ Loan.merchantId l = Some userId
                 ∨ (userId ≠ "" ∧ Loan.bankerId l = Some userId))) as Hno.
      { rewrite <- canAccess_spec, Hacc. done. }
      repeat split; try done.
      intros l' [= <-] Hyes. done.
  - repeat split; done.
Qed.

Lemma getLoanById_access_witness :
  (LoanService.getLoanById "loan-2" "bob" Sample.world).1
    = inr (mkDetails Sample.approvedLoan [])
  ∧ (LoanService.getLoanById "loan-1" "dave" Sample.world).1
    = inl (mkError "Unauthorized access to loan" (Some 403) None)
  ∧ (LoanService.getLoanById "loan-7" "bob" Sample.world).1
    = inl (mkError "Loan not found" (Some 404) None).
Proof.
  split; [|split].
  - refine (proj1 (proj2 (getLoanById_access Sample.world "loan-2" "bob"))
              Sample.approvedLoan _ _).
    + reflexivity.
    + right; right. split; [discriminate | reflexivity].
  - refine (proj1 (proj2 (proj2 (getLoanById_access Sample.world "loan-1" "dave")))
              Sample.pendingLoan _ _ _ _).
    + reflexivity.
    + discriminate.
    + discriminate.
    + right. discriminate.
  - refine (proj1 (getLoanById_access Sample.world "loan-7" "bob") _).
    reflexivity.
Defined.

(** C1, as stated, fails: a principal holding the BANKER role who is not
    the banker recorded on the loan is refused, both on a loan that has
    no recorded banker yet and on one decided by a colleague. *)
Lemma getLoanById_banker_role_refused :
  role Sample.otherBanker = "BANKER"
  ∧ loans Sample.world !! "loan-1" = Some Sample.pendingLoan
  ∧ (LoanService.getLoanById "loan-1" (userId Sample.otherBanker) Sample.world).1
    = inl (mkError "Unauthorized access to loan" (Some 403) None)
  ∧ (LoanController.getStatus Sample.otherBanker "loan-1" Sample.world).1
    = inl (mkError "Unauthorized access to loan" (Some 403) None)
  ∧ loans Sample.world !! "loan-2" = Some Sample.approvedLoan
  ∧ (LoanController.getStatus Sample.otherBanker "loan-2" Sample.world).1
    = inl (mkError "Unauthorized access to loan" (Some 403) None).
Proof. repeat split; vm_compute; reflexivity. Qed.

(** ** Loan ledger: the role-scoped list *)

Lemma roleScope_banker (userId : string) :
  LoanService.roleScope userId "BANKER"
    = mkWhere None None (Some "PENDING") None None.
Proof. reflexivity. Qed.

(** What the query built for a BANKER asks of a row. *)
Lemma banker_where (userId : string) (filters : LoanFilters) (l : Loan.t) :
  Prisma.matches (LoanService.applyFilters filters (LoanService.roleScope userId "BANKER")) l
    = true ↔
    Loan.status l = match filter_status filters with
                    | Some s => if Js.truthy s then s else "PENDING"
                    | None => "PENDING"
                    end
    ∧ (∀ t, filter_type filters = Some t → t ≠ "" → Loan.type l = t)
    ∧ (∀ a, filter_minAmount filters = Some a → a ≠ 0 → a ≤ Loan.amount l).
Proof.
  rewrite roleScope_banker. unfold LoanService.applyFilters, Prisma.matches.
  destruct filters as [fs ft fa fl]; simpl.
  assert (∀ (P Q R : Prop) (b1 b2 b3 : bool),
            (b1 = true ↔ P) → (b2 = true ↔ Q) → (b3 = true ↔ R) →
            (b1 && b2 && b3 = true ↔ P ∧ Q ∧ R)) as Hand.
  { intros P Q R b1 b2 b3 H1 H2 H3. rewrite !andb_true_iff. tauto. }
  destruct fs as [s|]; [destruct (Js.truthy s) eqn:Hs|];
    (destruct ft as [t|]; [destruct (Js.truthy t) eqn:Ht|]);
    (destruct fa as [a|]; [destruct (decide (a = 0)) as [Ha|Ha];
       [rewrite (bool_decide_eq_true_2 _ Ha) | rewrite (bool_decide_eq_false_2 _ Ha)]|]);
    simpl; apply Hand;
    rewrite ?bool_decide_eq_true, ?Z.leb_le;
    try (apply truthy_spec in Ht);
    try (apply not_true_iff_false in Ht; rewrite truthy_spec in Ht);
    try done; split; try done; try (intros; simplify_eq; done);
    try (intros H; by apply H); try (intros ->; intros ? [= <-]; done).
Qed.

(** The role scopes set no [type], and no [status] other than PENDING. *)
Lemma roleScope_keys (user role_ : string) :
  (where_status (LoanService.roleScope user role_) = None
   ∨ where_status (LoanService.roleScope user role_) = Some "PENDING")
  ∧ where_type (LoanService.roleScope user role_) = None.
Proof.
  unfold LoanService.roleScope.
  destruct (bool_decide (role_ = "CUSTOMER")); [by split; [left|]|].
  destruct (bool_decide (role_ = "MERCHANT")); [by split; [left|]|].
  destruct (bool_decide (role_ = "BANKER")); [by split; [right|] | by split; [left|]].
Qed.

(** The store accepts the query of [getUserLoans] exactly when the
    [status] and [type] filters are values it knows. *)
Lemma valid_where_filters (user role_ : string) (filters : LoanFilters) :
  Prisma.valid_where (LoanService.applyFilters filters (LoanService.roleScope user role_))
    = true ↔ known_filters filters.
Proof.
  destruct (roleScope_keys user role_) as [Hst Hty].
  destruct (LoanService.roleScope user role_) as [wa wo ws wt wg]. simpl in Hst, Hty.
  subst wt.
  assert (Prisma.key_ok ws (λ s, bool_decide (s ∈ Prisma.enum_LoanStatus)) = true) as Hws.
  { destruct Hst as [-> | ->]; reflexivity. }
  unfold LoanService.applyFilters, Prisma.valid_where, known_filters, when_present.
  destruct filters as [fs ft fa fl]; simpl.
  assert (∀ s, Js.truthy s = false → s = "") as Hfalsy.
  { intros s Hs. destruct (decide (s = "")) as [|Hne]; [done|].
    apply truthy_spec in Hne. congruence. }
  destruct fs as [s|]; [destruct (Js.truthy s) eqn:Hs|];
    (destruct ft as [t|]; [destruct (Js.truthy t) eqn:Ht|]);
    (destruct fa as [a|]; [destruct (bool_decide (a = 0))|]);
    simpl; rewrite ?Hws, ?andb_true_iff, ?bool_decide_eq_true;
    try (apply truthy_spec in Hs); try (apply truthy_spec in Ht);
    try (apply Hfalsy in Hs); try (apply Hfalsy in Ht);
    tauto.
Qed.

(** One run of [getUserLoans]: the page the store returns for an accepted
    query, the store's own error for a refused one; no table is written. *)
Lemma getUserLoans_run (user role_ : string) (filters : LoanFilters) (w : World) :
  let wh := LoanService.applyFilters filters (LoanService.roleScope user role_) in
  let r := LoanService.getUserLoans user role_ filters w in
  (known_filters filters →
     r.1 = inr (Prisma.take_rows (LoanService.limitOf filters)
                  (merge_sort Prisma.newest_first
                     (filter (λ l, Prisma.matches wh l) (Prisma.loan_rows w)))))
  ∧ (¬ known_filters filters → r.1 = inl Prisma.validationError)
  ∧ loans r.2 = loans w ∧ kycDocuments r.2 = kycDocuments w
  ∧ auditLogs r.2 = auditLogs w.
Proof.
  intros wh r. subst r. unfold LoanService.getUserLoans. fold wh. run_monad.
  pose proof (valid_where_filters user role_ filters) as Hvalid. fold wh in Hvalid.
  destruct (Prisma.valid_where wh); simpl.
  - split; [done|]. split; [|done]. intros Hn. destruct Hn. by apply Hvalid.
  - split; [|done]. intros Hk. apply Hvalid in Hk. discriminate.
Qed.

(** [filters.limit || 20], as a number of rows. *)
Lemma limitOf_cap (filters : LoanFilters) :
  Z.to_nat (Z.abs (LoanService.limitOf filters))
  = match filter_limit filters with
    | Some n => if decide (n = 0) then 20%nat else Z.to_nat (Z.abs n)
    | None => 20%nat
    end.
Proof.
  unfold LoanService.limitOf. destruct (filter_limit filters) as [n|]; [|done].
  destruct (decide (n = 0)) as [Hn|Hn].
  - by rewrite (bool_decide_eq_true_2 _ Hn).
  - by rewrite (bool_decide_eq_false_2 _ Hn).
Qed.

(** The list of [getUserLoans] for a role whose query asks [scope] of a
    row. *)
Lemma getUserLoans_page (user role_ : string) (filters : LoanFilters) (w : World)
    (scope : Loan.t → Prop) :
  (∀ l, Prisma.matches
          (LoanService.applyFilters filters (LoanService.roleScope user role_)) l = true
        ↔ scope l) →
  let cap := match filter_limit filters with
             | Some n => if decide (n = 0) then 20%nat else Z.to_nat (Z.abs n)
             | None => 20%nat
             end in
  let r := LoanService.getUserLoans user role_ filters w in
  (known_filters filters →
     ∃ result,
       r.1 = inr result
       ∧ (∀ l, l ∈ result → (∃ k, loans w !! k = Some l) ∧ scope l)
       ∧ StronglySorted Prisma.newest_first result
       ∧ (length result ≤ cap)%nat
       ∧ (∀ k l, loans w !! k = Some l → scope l →
            l ∈ result ∨ length result = cap))
  ∧ (¬ known_filters filters → ∃ e, r.1 = inl e ∧ status e = None)
  ∧ loans r.2 = loans w ∧ kycDocuments r.2 = kycDocuments w
  ∧ auditLogs r.2 = auditLogs w.
Proof.
  intros Hwh cap r.
  destruct (getUserLoans_run user role_ filters w) as (Hok & Herr & Hstate).
  split; [|split; [|exact Hstate]].
  - intros Hknown. eexists. split; [exact (Hok Hknown)|].
    destruct (sorted_page_spec Prisma.newest_first
                (λ l, Prisma.matches
                        (LoanService.applyFilters filters
                           (LoanService.roleScope user role_)) l)
                (Prisma.loan_rows w) (LoanService.limitOf filters))
      as (Hin & Hsorted & Hcap & Hfull).
    rewrite limitOf_cap in Hcap, Hfull. fold cap in Hcap, Hfull.
    split; [|split; [|split]].
    + intros l Hl. destruct (Hin l Hl) as [Hrow Hmatch].
      split; [by apply elem_of_loan_rows | apply Hwh; by apply Is_true_true].
    + exact Hsorted.
    + exact Hcap.
    + intros k l Hk Hl. apply Hfull; [apply elem_of_loan_rows; eauto|].
      apply Is_true_true. by apply Hwh.
  - intros Hn. exists Prisma.validationError. split; [exact (Herr Hn) | reflexivity].
Qed.

(** C2, as the code builds the query.  For a BANKER whose [status] and
    [type] filters are values of the store's enumerations (or empty, or
    absent), the list holds stored loans whose status is the [status]
    filter when one is supplied and PENDING only when none is (the filter
    replaces the role's status scope); the [type] and [minAmount] filters
    are conjoined with it; the list is ordered newest first and holds at
    most [limit] loans, where [limit] is 20 when absent or 0 and the
    magnitude of the number otherwise; and no matching loan is left out
    unless the list is full.  A [status] or [type] filter the store does
    not know makes the call fail with the store's error, which carries no
    HTTP status.  In either case no table is changed. *)
Theorem getUserLoans_banker_scope (userId : string) (filters : LoanFilters) (w : World) :
  let scope (l : Loan.t) :=
    Loan.status l = match filter_status filters with
                    | Some s => if Js.truthy s then s else "PENDING"
                    | None => "PENDING"
                    end
    ∧ (∀ t, filter_type filters = Some t → t ≠ "" → Loan.type l = t)
    ∧ (∀ a, filter_minAmount filters = Some a → a ≠ 0 → a ≤ Loan.amount l) in
  let cap := match filter_limit filters with
             | Some n => if decide (n = 0) then 20%nat else Z.to_nat (Z.abs n)
             | None => 20%nat
             end in
  let r := LoanService.getUserLoans userId "BANKER" filters w in
  (known_filters filters →
     ∃ result,
       r.1 = inr result
       ∧ (∀ l, l ∈ result → (∃ k, loans w !! k = Some l) ∧ scope l)
       ∧ StronglySorted Prisma.newest_first result
       ∧ (length result ≤ cap)%nat
       ∧ (∀ k l, loans w !! k = Some l → scope l →
            l ∈ result ∨ length result = cap))
  ∧ (¬ known_filters filters → ∃ e, r.1 = inl e ∧ status e = None)
  ∧ loans r.2 = loans w ∧ kycDocuments r.2 = kycDocuments w
  ∧ auditLogs r.2 = auditLogs w.
Proof.
  intros scope cap r.
  apply (getUserLoans_page userId "BANKER" filters w scope).
  intros l. apply banker_where.
Qed.

Lemma getUserLoans_banker_scope_witness :
  (∃ result,
     (LoanService.getUserLoans "bob" "BANKER" (mkFilters None (Some "BUSINESS") None (Some 0))
        Sample.world).1 = inr result
     ∧ (Sample.laterLoan ∈ result ∨ length result = 20%nat))
  ∧ (∃ e, (LoanService.getUserLoans "bob" "BANKER" (mkFilters (Some "FOO") None None None)
             Sample.world).1 = inl e
          ∧ status e = None).
Proof.
  split.
  - destruct (getUserLoans_banker_scope "bob" (mkFilters None (Some "BUSINESS") None (Some 0))
                Sample.world) as (Hok & _).
    destruct Hok as (result & Hrun & _ & _ & _ & Hfull).
    { split; [exact I|]. intros _. refine (bool_decide_unpack _ _). vm_compute. exact I. }
    exists result. split; [exact Hrun|].
    apply (Hfull "loan-3" Sample.laterLoan).
    + reflexivity.
    + split; [reflexivity|]. split.
      * intros t [= <-] _. reflexivity.
      * intros a. discriminate.
  - destruct (getUserLoans_banker_scope "bob" (mkFilters (Some "FOO") None None None)
                Sample.world) as (_ & Herr & _).
    apply Herr. intros [Hs _]. simpl in Hs.
    assert ("FOO" ∈ Prisma.enum_LoanStatus) as Hin by (apply Hs; discriminate).
    revert Hin. refine (bool_decide_unpack _ _). vm_compute. exact I.
Defined.

(** C2, as stated, fails: a [status] filter is not conjoined with the
    BANKER's PENDING scope but takes its place, so a banker who filters on
    APPROVED is shown a loan that is not PENDING. *)
Lemma getUserLoans_banker_status_filter_overrides :
  (LoanService.getUserLoans "bob" "BANKER" (mkFilters (Some "APPROVED") None None None)
     Sample.world).1 = inr [Sample.approvedLoan]
  ∧ Loan.status Sample.approvedLoan = "APPROVED"
  ∧ Loan.status Sample.approvedLoan ≠ "PENDING".
Proof. split; [vm_compute; reflexivity | split; [reflexivity | discriminate]]. Qed.

(** ** Loan ledger: creation *)

Section Creation.

Variable isGuid : string → bool.

(** A body the schema accepts carries a merchant reference exactly when
    [loanData.merchantId] is truthy. *)
Lemma validateLoan_isProxy (body : ApplyBody) (loanData : LoanData) :
  LoanController.validateLoan isGuid body = inr loanData →
  (LoanController.isProxy loanData = true ↔ ∃ s, body_merchantId body = ref_string s).
Proof.
  unfold LoanController.validateLoan, LoanController.isProxy.
  destruct (body_type body) as [t|]; [|done].
  destruct (body_amount body) as [a|]; [|done].
  destruct (bool_decide _ && _ && _ && _ && _) eqn:Hok; [|done].
  intros [= <-]. simpl.
  destruct (body_merchantId body) as [| |s]; simpl.
  - split; [done | intros [s ?]; done].
  - split; [done | intros [s ?]; done].
  - rewrite !andb_true_iff in Hok. destruct Hok as [[_ [Hs _]] _]. rewrite Hs.
    split; eauto.
Qed.

(** What [createLoan] does when the generated key is free. *)
Lemma createLoan_fresh (env : Env) (loanData : LoanData) (userId : string) (w : World) :
  loans w !! newId env = None →
  let l := Loan.mk (newId env) (data_type loanData) (data_amount loanData) "PENDING"
                   userId (Js.or_null (data_merchantId loanData)) None
                   (now env) (now env) in
  let r := LoanService.createLoan env loanData userId w in
  r.1 = inr l ∧ loans r.2 = <[newId env := l]> (loans w).
Proof.
  intros Hfresh. unfold LoanService.createLoan, LoanService.createAuditLog.
  run_monad. rewrite Hfresh. simpl.
  destruct (auditLogError env); simpl; done.
Qed.

End Creation.

(** C3.  An application by a CUSTOMER or MERCHANT whose body the schema
    accepts creates a loan (the generated key being free) with the
    principal as applicant, and its [merchantId] is: the acting
    merchant's own [userId] when a MERCHANT supplies a merchant reference
    (whatever id the reference names); [null] when a MERCHANT supplies
    none; [null] for every CUSTOMER, whatever the body holds. *)
Theorem apply_merchantId (isGuid : string → bool) (env : Env) (user : Principal)
    (body : ApplyBody) (loanData : LoanData) (w : World) :
  role user = "CUSTOMER" ∨ role user = "MERCHANT" →
  LoanController.validateLoan isGuid body = inr loanData →
  loans w !! newId env = None →
  let r := LoanController.apply isGuid env user body w in
  ∃ response,
    r.1 = inr response
    ∧ loans r.2 !! newId env = Some (applied_loan response)
    ∧ Loan.applicantId (applied_loan response) = userId user
    ∧ Loan.status (applied_loan response) = "PENDING"
    ∧ (role user = "MERCHANT" → (∃ s, body_merchantId body = ref_string s) →
       userId user ≠ "" →
       Loan.merchantId (applied_loan response) = Some (userId user))
    ∧ (role user = "MERCHANT" → (∀ s, body_merchantId body ≠ ref_string s) →
       Loan.merchantId (applied_loan response) = None)
    ∧ (role user = "CUSTOMER" → Loan.merchantId (applied_loan response) = None).
Proof.
  intros Hrole Hvalid Hfresh r. subst r. unfold LoanController.apply.
  rewrite bool_decide_eq_true_2 by (apply decision_in_pair; exact Hrole). simpl.
  rewrite Hvalid.
  pose proof (validateLoan_isProxy isGuid body loanData Hvalid) as Hproxy.
  destruct (decide (role user = "MERCHANT")) as [Hm|Hm].
  - rewrite (bool_decide_eq_true_2 _ Hm).
    destruct (LoanController.isProxy loanData) eqn:Hp.
    + run_monad.
      match goal with |- context [LoanService.createLoan env ?d ?u ?w'] =>
        destruct (createLoan_fresh env d u w' Hfresh) as [Hres Hst];
        destruct (LoanService.createLoan env d u w') as [res w2] end.
      simpl in Hres, Hst. subst res. simpl.
      eexists. split; [reflexivity|]. simpl. rewrite Hst, lookup_insert_eq.
      repeat split; try done.
      * intros _ _ Hne. by apply or_null_truthy.
      * intros _ Hnone. destruct (proj1 Hproxy eq_refl) as [s Hs]. by destruct (Hnone s).
      * intros Hc. rewrite Hc in Hm. done.
    + run_monad.
      match goal with |- context [LoanService.createLoan env ?d ?u ?w'] =>
        destruct (createLoan_fresh env d u w' Hfresh) as [Hres Hst];
        destruct (LoanService.createLoan env d u w') as [res w2] end.
      simpl in Hres, Hst. subst res. simpl.
      eexists. split; [reflexivity|]. simpl. rewrite Hst, lookup_insert_eq.
      repeat split; try done.
      intros _ Hsome _. apply Hproxy in Hsome. done.
  - rewrite (bool_decide_eq_false_2 _ Hm). run_monad.
    match goal with |- context [LoanService.createLoan env ?d ?u ?w'] =>
      destruct (createLoan_fresh env d u w' Hfresh) as [Hres Hst];
      destruct (LoanService.createLoan env d u w') as [res w2] end.
    simpl in Hres, Hst. subst res. simpl.
    eexists. split; [reflexivity|]. simpl. rewrite Hst, lookup_insert_eq.
    repeat split; try done.
Qed.

Lemma apply_merchantId_witness :
  ∃ response,
    (LoanController.apply Sample.isGuid Sample.env Sample.merchant Sample.proxyBody
       Sample.world).1 = inr response
    ∧ Loan.merchantId (applied_loan response) = Some "mike".
Proof.
  destruct (apply_merchantId Sample.isGuid Sample.env Sample.merchant Sample.proxyBody
              (mkLoanData "PERSONAL" 50000 (Some "123e4567-e89b-12d3-a456-426614174000"))
              Sample.world)
    as (response & Hrun & _ & _ & _ & Hproxy & _).
  - right. reflexivity.
  - reflexivity.
  - reflexivity.
  - exists response. split; [exact Hrun|].
    apply Hproxy.
    + reflexivity.
    + eexists. reflexivity.
    + discriminate.
Defined.

(** ** Loan ledger: the banker's decision *)

(** The row a decision leaves behind. *)
Lemma updateLoanStatus_valid (env : Env) (w : World) (loanId decision userId notes : string)
    (l : Loan.t) :
  decision = "APPROVED" ∨ decision = "REJECTED" →
  loans w !! loanId = Some l →
  let l' := Loan.mk (Loan.id l) (Loan.type l) (Loan.amount l) decision
                    (Loan.applicantId l) (Loan.merchantId l) (Some userId)
                    (Loan.createdAt l) (now env) in
  let entry := AuditLog.mk (Some loanId)
                 (if decide (decision = "APPROVED") then "LOAN_APPROVED" else "LOAN_REJECTED")
                 (Some userId) (now env) in
  let r := LoanService.updateLoanStatus env loanId decision userId notes w in
  r.1 = inr l'
  ∧ loans r.2 = <[loanId := l']> (loans w)
  ∧ kycDocuments r.2 = kycDocuments w
  ∧ auditLogs r.2 = match auditLogError env with
                    | None => (auditLogs w ++ [entry])%list
                    | Some _ => auditLogs w
                    end.
Proof.
  intros Hvalid Hl. unfold LoanService.updateLoanStatus, LoanService.createAuditLog.
  rewrite bool_decide_eq_true_2 by (apply decision_in_pair; exact Hvalid).
  run_monad. rewrite Hl. simpl.
  destruct (auditLogError env); simpl; repeat split; try done.
  by destruct (decide (decision = "APPROVED")) as [Hd|Hd];
    [rewrite (bool_decide_eq_true_2 _ Hd) | rewrite (bool_decide_eq_false_2 _ Hd)].
Qed.

(** C7.  [updateLoanStatus] fails with status 400 ("Invalid status
    transition") exactly when the decision is neither APPROVED nor
    REJECTED, and then changes no table.  For a valid decision on a stored
    loan, whatever the loan's current status, it returns the row with
    [status] set to the decision, [bankerId] set to the deciding banker
    and [updatedAt] refreshed, stores that row, and (the audit table
    accepting the write) appends one entry tagged LOAN_APPROVED or
    LOAN_REJECTED.  In particular a loan decided APPROVED can be decided
    again: the second decision succeeds and overwrites the first. *)
Theorem updateLoanStatus_decides (env : Env) (w : World)
    (loanId decision userId notes : string) :
  let r := LoanService.updateLoanStatus env loanId decision userId notes w in
  ((∃ e, r.1 = inl e ∧ status e = Some 400)
     ↔ decision ≠ "APPROVED" ∧ decision ≠ "REJECTED")
  ∧ (decision ≠ "APPROVED" ∧ decision ≠ "REJECTED" →
       r.1 = inl (mkError "Invalid status transition" (Some 400) None)
       ∧ loans r.2 = loans w ∧ kycDocuments r.2 = kycDocuments w
       ∧ auditLogs r.2 = auditLogs w)
  ∧ (∀ l, decision = "APPROVED" ∨ decision = "REJECTED" →
       loans w !! loanId = Some l →
       ∃ l', r.1 = inr l'
         ∧ loans r.2 = <[loanId := l']> (loans w)
         ∧ Loan.status l' = decision
         ∧ Loan.bankerId l' = Some userId
         ∧ Loan.updatedAt l' = now env
         ∧ (Loan.id l', Loan.type l', Loan.amount l', Loan.applicantId l',
            Loan.merchantId l', Loan.createdAt l')
           = (Loan.id l, Loan.type l, Loan.amount l, Loan.applicantId l,
              Loan.merchantId l, Loan.createdAt l)
         ∧ (auditLogError env = None →
            ∃ tag, (decision = "APPROVED" ∧ tag = "LOAN_APPROVED"
                    ∨ decision = "REJECTED" ∧ tag = "LOAN_REJECTED")
              ∧ auditLogs r.2
                = (auditLogs w ++ [AuditLog.mk (Some loanId) tag (Some userId) (now env)])%list))
  ∧ (∀ l banker2 notes2, loans w !! loanId = Some l → decision = "APPROVED" →
       let r2 := LoanService.updateLoanStatus env loanId "REJECTED" banker2 notes2 r.2 in
       ∃ l2, r2.1 = inr l2 ∧ loans r2.2 !! loanId = Some l2
         ∧ Loan.status l2 = "REJECTED" ∧ Loan.bankerId l2 = Some banker2).
Proof.
  intros r.
  assert (decision ≠ "APPROVED" ∧ decision ≠ "REJECTED" →
          r.1 = inl (mkError "Invalid status transition" (Some 400) None)
          ∧ loans r.2 = loans w ∧ kycDocuments r.2 = kycDocuments w
          ∧ auditLogs r.2 = auditLogs w) as Hinvalid.
  { intros [Ha Hr]. subst r. unfold LoanService.updateLoanStatus.
    rewrite bool_decide_eq_false_2
      by (intros Hin; apply decision_in_pair in Hin; tauto).
    run_monad. done. }
  split; [|split; [exact Hinvalid|split]].
  - split.
    + intros (e & He & H400).
      destruct (decide (decision = "APPROVED" ∨ decision = "REJECTED")) as [Hv|Hv]; [|tauto].
      exfalso. subst r.
      destruct (loans w !! loanId) as [l|] eqn:Hl.
      * destruct (updateLoanStatus_valid env w loanId decision userId notes l Hv Hl)
          as (Hres & _). rewrite Hres in He. done.
      * revert He. unfold LoanService.updateLoanStatus.
        rewrite bool_decide_eq_true_2 by (apply decision_in_pair; exact Hv).
        run_monad. rewrite Hl. simpl. intros [= <-]. done.
    + intros Hinv. destruct (Hinvalid Hinv) as (Hres & _).
      eexists. split; [exact Hres | done].
  - intros l Hv Hl. subst r.
    destruct (updateLoanStatus_valid env w loanId decision userId notes l Hv Hl)
      as (Hres & Hloans & _ & Haudit).
    eexists. split; [exact Hres|]. split; [exact Hloans|]. simpl.
    repeat split; try done.
    intros Hup. rewrite Hup in Haudit. rewrite Haudit.
    destruct Hv as [-> | ->]; eexists; (split; [|reflexivity]); [left | right]; done.
  - intros l banker2 notes2 Hl ->.
    destruct (updateLoanStatus_valid env w loanId "APPROVED" userId notes l
                (or_introl eq_refl) Hl) as (_ & Hloans & _).
    fold r in Hloans.
    assert (loans r.2 !! loanId = Some
              (Loan.mk (Loan.id l) (Loan.type l) (Loan.amount l) "APPROVED"
                 (Loan.applicantId l) (Loan.merchantId l) (Some userId)
                 (Loan.createdAt l) (now env))) as Hl1.
    { rewrite Hloans. apply lookup_insert_eq. }
    destruct (updateLoanStatus_valid env r.2 loanId "REJECTED" banker2 notes2 _
                (or_intror eq_refl) Hl1) as (Hres2 & Hloans2 & _).
    intros r2. subst r2. eexists. split; [exact Hres2|].
    rewrite Hloans2, lookup_insert_eq. done.
Qed.

Lemma updateLoanStatus_decides_witness :
  ∃ l2,
    (LoanService.updateLoanStatus Sample.env "loan-1" "REJECTED" "dave" "changed my mind"
       (LoanService.updateLoanStatus Sample.env "loan-1" "APPROVED" "bob" "ok"
          Sample.world).2).1 = inr l2
    ∧ Loan.status l2 = "REJECTED" ∧ Loan.bankerId l2 = Some "dave".
Proof.
  destruct (proj2 (proj2 (proj2
              (updateLoanStatus_decides Sample.env Sample.world "loan-1" "APPROVED" "bob" "ok")))
              Sample.pendingLoan "dave" "changed my mind")
    as (l2 & Hrun & _ & Hstatus & Hbanker).
  - reflexivity.
  - reflexivity.
  - exists l2. split; [exact Hrun | split; [exact Hstatus | exact Hbanker]].
Defined.

(** ** Audit trail *)

(** C8.  Take any request environment twice, once with the audit table
    accepting writes and once with it throwing the error [e].  The audit
    helpers of both services return normally in the failing case, leave
    the audit table as it was and log the failure; and every operation
    that writes an audit entry ([createLoan], [updateLoanStatus],
    [completeUpload], [verifyKYCDocument]) returns the same result, or
    the same own error, and leaves the same loan and KYC tables in both
    cases. *)
Theorem audit_write_best_effort (t : Z) (key uid : string) (penv : gmap string string)
    (e : JsError) (w : World) :
  let up := mkEnv t key uid None penv in
  let down := mkEnv t key uid (Some e) penv in
  let same := λ (A : Type) (op : Env → M A),
    (op down w).1 = (op up w).1
    ∧ loans (op down w).2 = loans (op up w).2
    ∧ kycDocuments (op down w).2 = kycDocuments (op up w).2 in
  (∀ loanId action actorId details,
     let r := LoanService.createAuditLog down loanId action actorId details w in
     r.1 = inr () ∧ auditLogs r.2 = auditLogs w
     ∧ loans r.2 = loans w ∧ kycDocuments r.2 = kycDocuments w
     ∧ logFile r.2 = (logFile w ++ [mkLog "error" "Audit Log Creation Failed"])%list)
  ∧ (∀ kycDocId action actorId details,
       let r := KYCService.createKYCAuditLog down kycDocId action actorId details w in
       r.1 = inr () ∧ auditLogs r.2 = auditLogs w
       ∧ loans r.2 = loans w ∧ kycDocuments r.2 = kycDocuments w
       ∧ logFile r.2 = (logFile w ++ [mkLog "error" "KYC Audit Log Failed"])%list)
  ∧ (∀ loanData userId,
       same _ (λ env, LoanService.createLoan env loanData userId))
  ∧ (∀ loanId decision userId notes,
       same _ (λ env, LoanService.updateLoanStatus env loanId decision userId notes))
  ∧ (∀ kycDocId publicId fileSize contentType,
       same _ (λ env, KYCService.completeUpload env kycDocId publicId fileSize contentType))
  ∧ (∀ kycDocId decision bankerId notes,
       same _ (λ env, KYCService.verifyKYCDocument env kycDocId decision bankerId notes)).
Proof.
  intros up down same. subst same up down. cbv beta.
  split; [|split; [|split; [|split; [|split]]]].
  - intros. unfold LoanService.createAuditLog. run_monad. done.
  - intros. unfold KYCService.createKYCAuditLog. run_monad. done.
  - intros. unfold LoanService.createLoan, LoanService.createAuditLog. run_monad.
    destruct (loans w !! key); simpl; done.
  - intros. unfold LoanService.updateLoanStatus, LoanService.createAuditLog. run_monad.
    destruct (bool_decide (decision ∈ LoanService.validStatuses)); simpl; [|done].
    destruct (loans w !! loanId); simpl; done.
  - intros docId pid fileSize contentType.
    unfold KYCService.completeUpload, KYCService.createKYCAuditLog,
      KYCService.maxFileSize, KYCService.allowedTypes, KYCService.documentUrl,
      KYCService.cloudName.
    run_monad.
    destruct (Js.gt fileSize _); simpl; [done|].
    destruct (bool_decide (contentType ∈ _)); simpl; [|done].
    destruct (kycDocuments w !! docId); simpl; done.
  - intros docId decision bankerId notes.
    unfold KYCService.verifyKYCDocument, KYCService.createKYCAuditLog. run_monad.
    destruct (bool_decide (decision ∈ KYCService.validStatuses)); simpl; [|done].
    destruct (kycDocuments w !! docId); simpl; done.
Qed.

(** ** KYC ledger: finalizing an upload *)

(** A finalization that passes both checks overwrites the stored row. *)
Lemma completeUpload_ok (env : Env) (w : World) (docId pid : string) (fileSize : Z)
    (contentType : string) (d : KYCDocument.t) :
  Js.gt fileSize (KYCService.maxFileSize env) = false →
  contentType ∈ KYCService.allowedTypes env →
  kycDocuments w !! docId = Some d →
  let d' := KYCDocument.mk (KYCDocument.id d) (KYCDocument.type d)
              (Some (KYCService.documentUrl env pid)) "PENDING"
              (KYCDocument.userId d) None (KYCDocument.createdAt d) in
  let r := KYCService.completeUpload env docId pid fileSize contentType w in
  r.1 = inr d' ∧ kycDocuments r.2 = <[docId := d']> (kycDocuments w)
  ∧ loans r.2 = loans w.
Proof.
  intros Hsize Htype Hd. unfold KYCService.completeUpload, KYCService.createKYCAuditLog.
  rewrite Hsize, (bool_decide_eq_true_2 _ Htype). run_monad. rewrite Hd. simpl.
  destruct (auditLogError env); simpl; done.
Qed.

(** The outcome of the two checks of [completeUpload]. *)
Lemma completeUpload_checks (env : Env) (w : World) (docId pid : string) (fileSize : Z)
    (contentType : string) :
  let r := KYCService.completeUpload env docId pid fileSize contentType w in
  (Js.gt fileSize (KYCService.maxFileSize env) = true →
     r.1 = inl (mkError "File size exceeds 5MB limit" (Some 413) None)
     ∧ kycDocuments r.2 = kycDocuments w)
  ∧ (Js.gt fileSize (KYCService.maxFileSize env) = false →
     contentType ∉ KYCService.allowedTypes env →
     r.1 = inl (mkError "Invalid file type. Only JPG, PNG, PDF allowed" (Some 415) None)
     ∧ kycDocuments r.2 = kycDocuments w)
  ∧ (Js.gt fileSize (KYCService.maxFileSize env) = false →
     contentType ∈ KYCService.allowedTypes env →
     kycDocuments w !! docId = None →
     r.1 = inl Prisma.recordNotFound).
Proof.
  unfold KYCService.completeUpload. split; [|split].
  - intros ->. run_monad. done.
  - intros -> Htype. rewrite (bool_decide_eq_false_2 _ Htype). run_monad. done.
  - intros -> Htype Hd. rewrite (bool_decide_eq_true_2 _ Htype). run_monad.
    rewrite Hd. done.
Qed.

(** C9, as the code orders its checks.  For a configured ceiling of
    magnitude below 2^53 (above it [parseInt] rounds), [completeUpload]
    fails with status 413 exactly when [fileSize] exceeds the ceiling, and
    with status 415 exactly when [fileSize] does not exceed the ceiling and
    [contentType] is outside the configured allow-list: the size check runs
    first.  A KYC_MAX_FILE_SIZE that is no number switches the size check
    off.  When KYC_MAX_FILE_SIZE is unset the ceiling is 5242880: 5242881
    fails, and 5242880 succeeds for an allowed content type and a stored
    document.  When KYC_ALLOWED_TYPES is unset the allow-list is
    image/jpeg, image/png and application/pdf.  A [contentType] outside
    the allow-list always fails, with 413 or 415, and changes no
    document. *)
Theorem completeUpload_limits (env : Env) (w : World) (docId pid : string)
    (fileSize : Z) (contentType : string) :
  let r := KYCService.completeUpload env docId pid fileSize contentType w in
  let fails_with (st : Z) := ∃ e, r.1 = inl e ∧ status e = Some st in
  (∀ ceiling, KYCService.maxFileSize env = Some ceiling → Z.abs ceiling < 2 ^ 53 →
     (fails_with 413 ↔ ceiling < fileSize)
     ∧ (fails_with 415 ↔
          fileSize ≤ ceiling ∧ contentType ∉ KYCService.allowedTypes env))
  ∧ (KYCService.maxFileSize env = None →
     ¬ fails_with 413
     ∧ (fails_with 415 ↔ contentType ∉ KYCService.allowedTypes env))
  ∧ (process_env env !! "KYC_MAX_FILE_SIZE" = None →
     KYCService.maxFileSize env = Some 5242880
     ∧ (fileSize = 5242881 →
        r.1 = inl (mkError "File size exceeds 5MB limit" (Some 413) None))
     ∧ (∀ d, fileSize = 5242880 → contentType ∈ KYCService.allowedTypes env →
        kycDocuments w !! docId = Some d →
        ∃ d', r.1 = inr d' ∧ KYCDocument.status d' = "PENDING"
              ∧ kycDocuments r.2 !! docId = Some d'))
  ∧ (process_env env !! "KYC_ALLOWED_TYPES" = None →
     KYCService.allowedTypes env = ["image/jpeg"; "image/png"; "application/pdf"])
  ∧ (contentType ∉ KYCService.allowedTypes env →
     ∃ e, r.1 = inl e
       ∧ (status e = Some 413 ∨ status e = Some 415)
       ∧ (Js.gt fileSize (KYCService.maxFileSize env) = false → status e = Some 415)
       ∧ kycDocuments r.2 = kycDocuments w).
Proof.
  intros r fails_with.
  destruct (completeUpload_checks env w docId pid fileSize contentType)
    as (Hbig & Hbad & Hmissing). fold r in Hbig, Hbad, Hmissing.
  assert (process_env env !! "KYC_MAX_FILE_SIZE" = None →
          KYCService.maxFileSize env = Some 5242880) as Hdefault.
  { intros Hunset. unfold KYCService.maxFileSize. rewrite Hunset. reflexivity. }
  (* the status of the failure, by the outcome of the two checks *)
  assert (Js.gt fileSize (KYCService.maxFileSize env) = true →
          fails_with 413 ∧ ¬ fails_with 415) as Hcase_big.
  { intros Hgt. destruct (Hbig Hgt) as (Hres & _). split.
    - eexists. split; [exact Hres | done].
    - intros (e & He & Hst). rewrite Hres in He. by injection He as <-. }
  assert (Js.gt fileSize (KYCService.maxFileSize env) = false →
          ¬ fails_with 413
          ∧ (fails_with 415 ↔ contentType ∉ KYCService.allowedTypes env)) as Hcase_small.
  { intros Hgt.
    destruct (decide (contentType ∈ KYCService.allowedTypes env)) as [Hin|Hout].
    - assert (∀ st, st = 413 ∨ st = 415 → ¬ fails_with st) as Hnone.
      { intros st Hst (e & He & Hse).
        destruct (kycDocuments w !! docId) as [d|] eqn:Hd.
        - destruct (completeUpload_ok env w docId pid fileSize contentType d Hgt Hin Hd)
            as (Hres & _). fold r in Hres. rewrite Hres in He. done.
        - rewrite (Hmissing Hgt Hin eq_refl) in He. by injection He as <-. }
      split; [apply Hnone; by left|]. split; [|done].
      intros H415. destruct (Hnone 415); [by right | done].
    - destruct (Hbad Hgt Hout) as (Hres & _). split.
      + intros (e & He & Hst). rewrite Hres in He. by injection He as <-.
      + split; [done|]. intros _. eexists. split; [exact Hres | done]. }
  split; [|split; [|split; [|split]]].
  - intros ceiling Hceil _.
    destruct (Js.gt fileSize (KYCService.maxFileSize env)) eqn:Hgt.
    + destruct (Hcase_big eq_refl) as (H413 & H415).
      rewrite Hceil in Hgt. simpl in Hgt. apply Z.ltb_lt in Hgt.
      split; [done|]. split; [done | lia].
    + destruct (Hcase_small eq_refl) as (H413 & H415).
      rewrite Hceil in Hgt. simpl in Hgt. apply Z.ltb_ge in Hgt.
      split; [split; [done | lia]|]. rewrite H415. tauto.
  - intros Hnan. apply Hcase_small. rewrite Hnan. reflexivity.
  - intros Hunset. specialize (Hdefault Hunset). split; [exact Hdefault|]. split.
    + intros ->. apply Hbig. rewrite Hdefault. reflexivity.
    + intros d -> Hin Hd.
      destruct (completeUpload_ok env w docId pid 5242880 contentType d) as (Hres & Hst & _);
        [rewrite Hdefault; reflexivity | done | done |].
      eexists. split; [exact Hres|]. split; [reflexivity|].
      fold r. unfold r. rewrite Hst. apply lookup_insert_eq.
  - intros Hunset. unfold KYCService.allowedTypes. rewrite Hunset. reflexivity.
  - intros Hout. destruct (Js.gt fileSize (KYCService.maxFileSize env)) eqn:Hgt.
    + destruct (Hbig eq_refl) as (Hres & Hst). eexists. split; [exact Hres|].
      split; [by left|]. split; [done | exact Hst].
    + destruct (Hbad eq_refl Hout) as (Hres & Hst). eexists. split; [exact Hres|].
      split; [by right|]. split; [done | exact Hst].
Qed.

Lemma completeUpload_limits_witness :
  (KYCService.completeUpload Sample.env "doc-2" "alice/ID_PROOF/x" 5242881 "image/png"
     Sample.world).1 = inl (mkError "File size exceeds 5MB limit" (Some 413) None)
  ∧ (∃ d', (KYCService.completeUpload Sample.env "doc-2" "alice/ID_PROOF/x" 5242880
              "image/png" Sample.world).1 = inr d'
           ∧ KYCDocument.status d' = "PENDING")
  ∧ (∃ e, (KYCService.completeUpload Sample.env "doc-2" "alice/ID_PROOF/x" 5242880
             "text/plain" Sample.world).1 = inl e
          ∧ status e = Some 415).
Proof.
  split; [|split].
  - destruct (completeUpload_limits Sample.env Sample.world "doc-2" "alice/ID_PROOF/x"
                5242881 "image/png") as (_ & _ & Hdefault & _).
    destruct (Hdefault eq_refl) as (_ & Hbig & _). apply Hbig. reflexivity.
  - destruct (completeUpload_limits Sample.env Sample.world "doc-2" "alice/ID_PROOF/x"
                5242880 "image/png") as (_ & _ & Hdefault & _).
    destruct (Hdefault eq_refl) as (_ & _ & Hfits).
    destruct (Hfits Sample.pendingDoc) as (d' & Hrun & Hstatus & _).
    + reflexivity.
    + refine (bool_decide_unpack _ _). vm_compute. exact I.
    + reflexivity.
    + exists d'. split; [exact Hrun | exact Hstatus].
  - destruct (completeUpload_limits Sample.env Sample.world "doc-2" "alice/ID_PROOF/x"
                5242880 "text/plain") as (Hceiling & _).
    destruct (Hceiling 5242880) as (_ & H415).
    + reflexivity.
    + reflexivity.
    + apply H415. split; [lia|].
      intros Hin. revert Hin. refine (bool_decide_unpack _ _). vm_compute. exact I.
Defined.

(** C9, as stated, fails: the size check runs before the type check, so an
    oversized file of a content type outside the allow-list fails with
    status 413 and not with status 415. *)
Lemma completeUpload_oversized_disallowed_type :
  let r := KYCService.completeUpload Sample.env "doc-2" "alice/ID_PROOF/x" 5242881
             "text/plain" Sample.world in
  ("text/plain" ∉ KYCService.allowedTypes Sample.env)
  ∧ r.1 = inl (mkError "File size exceeds 5MB limit" (Some 413) None)
  ∧ ¬ (∃ e, r.1 = inl e ∧ status e = Some 415).
Proof.
  split; [|split].
  - refine (bool_decide_unpack _ _). vm_compute. exact I.
  - vm_compute. reflexivity.
  - intros (e & He & Hst). vm_compute in He. injection He as <-. discriminate.
Qed.

(** ** KYC ledger: the reviewer's decision *)

(** The row and the audit entry a review leaves behind. *)
Lemma verifyKYCDocument_valid (env : Env) (w : World) (docId decision bankerId notes : string)
    (d : KYCDocument.t) :
  decision = "VERIFIED" ∨ decision = "REJECTED" →
  kycDocuments w !! docId = Some d →
  let d' := KYCDocument.mk (KYCDocument.id d) (KYCDocument.type d) (KYCDocument.url d)
              decision (KYCDocument.userId d)
              (if decide (decision = "VERIFIED") then Some bankerId else None)
              (KYCDocument.createdAt d) in
  let action := if decide (decision = "VERIFIED") then "KYC_VERIFIED" else "KYC_REJECTED" in
  let r := KYCService.verifyKYCDocument env docId decision bankerId notes w in
  (∃ msg, r.1 = inr (mkVerifyResult d' action msg))
  ∧ kycDocuments r.2 = <[docId := d']> (kycDocuments w)
  ∧ auditLogs r.2 = match auditLogError env with
                    | None => (auditLogs w ++
                                 [AuditLog.mk None ("KYC_" +:+ action) (Some bankerId)
                                              (now env)])%list
                    | Some _ => auditLogs w
                    end.
Proof.
  intros Hvalid Hd. unfold KYCService.verifyKYCDocument, KYCService.createKYCAuditLog.
  rewrite bool_decide_eq_true_2 by (apply decision_in_pair; exact Hvalid).
  run_monad. rewrite Hd. simpl.
  destruct (decide (decision = "VERIFIED")) as [Hv|Hv];
    [rewrite !(bool_decide_eq_true_2 _ Hv) | rewrite !(bool_decide_eq_false_2 _ Hv)];
    destruct (auditLogError env); simpl; eauto.
Qed.

(** A review never leaves a row PENDING that was not PENDING already, and
    changes no row but the reviewed one. *)
Lemma verifyKYCDocument_no_new_pending (env : Env) (w : World)
    (docId decision bankerId notes : string) :
  let r := KYCService.verifyKYCDocument env docId decision bankerId notes w in
  ∀ k d', kycDocuments r.2 !! k = Some d' → KYCDocument.status d' = "PENDING" →
          kycDocuments w !! k = Some d'.
Proof.
  intros r k d' Hk Hpending. subst r.
  destruct (decide (decision = "VERIFIED" ∨ decision = "REJECTED")) as [Hv|Hv].
  - destruct (kycDocuments w !! docId) as [d|] eqn:Hd.
    + destruct (verifyKYCDocument_valid env w docId decision bankerId notes d Hv Hd)
        as (_ & Hst & _).
      rewrite Hst in Hk. destruct (decide (docId = k)) as [->|Hne].
      * rewrite lookup_insert_eq in Hk. injection Hk as <-. simpl in Hpending.
        destruct Hv as [-> | ->]; done.
      * by rewrite lookup_insert_ne in Hk.
    + revert Hk. unfold KYCService.verifyKYCDocument.
      rewrite bool_decide_eq_true_2 by (apply decision_in_pair; exact Hv).
      run_monad. rewrite Hd. done.
  - revert Hk. unfold KYCService.verifyKYCDocument.
    rewrite bool_decide_eq_false_2
      by (intros Hin; apply decision_in_pair in Hin; tauto).
    run_monad. done.
Qed.

(** C6, evaluated on a stored PENDING document.  The review sets the
    status and [verifiedBy] as decided (the reviewer for VERIFIED, [null]
    for REJECTED) and reports the action KYC_VERIFIED or KYC_REJECTED to
    its caller, but the audit entries it writes are tagged
    KYC_KYC_VERIFIED and KYC_KYC_REJECTED: [createKYCAuditLog] prefixes
    the tag it is given, and the review hands it a prefixed one. *)
Theorem verifyKYCDocument_audit_tag_doubled :
  let verified := KYCService.verifyKYCDocument Sample.env "doc-2" "VERIFIED" "bob" "" Sample.world in
  let rejected := KYCService.verifyKYCDocument Sample.env "doc-2" "REJECTED" "bob" "blurred"
                    Sample.world in
  let decided (st : string) (by_ : option string) :=
    KYCDocument.mk "doc-2" "ID_PROOF" (KYCDocument.url Sample.pendingDoc) st "alice" by_ 60 in
  verified.1 = inr (mkVerifyResult (decided "VERIFIED" (Some "bob")) "KYC_VERIFIED"
                      "Document verified successfully")
  ∧ kycDocuments verified.2 !! "doc-2" = Some (decided "VERIFIED" (Some "bob"))
  ∧ (AuditLog.action <$> auditLogs verified.2) = ["KYC_KYC_VERIFIED"]
  ∧ rejected.1 = inr (mkVerifyResult (decided "REJECTED" None) "KYC_REJECTED"
                        "Document rejected: blurred")
  ∧ kycDocuments rejected.2 !! "doc-2" = Some (decided "REJECTED" None)
  ∧ (AuditLog.action <$> auditLogs rejected.2) = ["KYC_KYC_REJECTED"].
Proof. repeat split; vm_compute; reflexivity. Qed.

(** ** KYC ledger: lifecycle of a document row *)

(** Registering an upload never touches a stored row; when it succeeds
    the row it adds is new and UPLOADING. *)
Lemma generateUploadUrl_rows (env : Env) (w : World) (user docType : string) :
  let r := KYCService.generateUploadUrl env user docType w in
  (∀ k d, kycDocuments w !! k = Some d → kycDocuments r.2 !! k = Some d)
  ∧ (∀ data, r.1 = inr data →
       kycDocuments w !! kycDocId data = None
       ∧ ∃ d, kycDocuments r.2 !! kycDocId data = Some d
              ∧ KYCDocument.status d = "UPLOADING" ∧ KYCDocument.userId d = user)
  ∧ (docType ∈ KYCService.allowedDocTypes → kycDocuments w !! newId env = None →
     ∃ data, r.1 = inr data ∧ kycDocId data = newId env).
Proof.
  unfold KYCService.generateUploadUrl, KYCService.createKYCDocument.
  destruct (decide (docType ∈ KYCService.allowedDocTypes)) as [Hin|Hout].
  - rewrite (bool_decide_eq_true_2 _ Hin). run_monad.
    destruct (kycDocuments w !! newId env) as [old|] eqn:Hfresh; simpl.
    + split; [done|]. split; [done|]. done.
    + split; [|split].
      * intros k d Hk. rewrite lookup_insert_ne; [done|]. intros <-. congruence.
      * intros data [= <-]. simpl. split; [done|].
        eexists. rewrite lookup_insert_eq. done.
      * intros _ _. eexists. split; [reflexivity | done].
  - rewrite (bool_decide_eq_false_2 _ Hout). run_monad. split; [done|]. split; done.
Qed.

(** C4, as the code has it.  A stored row is never changed by a new
    upload registration, which adds a fresh UPLOADING row or nothing, and a
    review never leaves a row PENDING that was not PENDING before.  But
    [completeUpload] does not look at the current status of the row it is
    given: for a stored row of any status, VERIFIED and REJECTED
    included, a call that passes the size and type checks sets the row to
    PENDING and clears [verifiedBy]. *)
Theorem kyc_row_lifecycle (env : Env) (w : World) :
  (∀ user docType,
     let r := KYCService.generateUploadUrl env user docType w in
     (∀ k d, kycDocuments w !! k = Some d → kycDocuments r.2 !! k = Some d)
     ∧ (∀ data, r.1 = inr data →
          kycDocuments w !! kycDocId data = None
          ∧ ∃ d, kycDocuments r.2 !! kycDocId data = Some d
                 ∧ KYCDocument.status d = "UPLOADING"))
  ∧ (∀ docId decision bankerId notes,
       let r := KYCService.verifyKYCDocument env docId decision bankerId notes w in
       ∀ k d', kycDocuments r.2 !! k = Some d' → KYCDocument.status d' = "PENDING" →
               kycDocuments w !! k = Some d')
  ∧ (∀ docId pid fileSize contentType d,
       kycDocuments w !! docId = Some d →
       Js.gt fileSize (KYCService.maxFileSize env) = false →
       contentType ∈ KYCService.allowedTypes env →
       let r := KYCService.completeUpload env docId pid fileSize contentType w in
       ∃ d', r.1 = inr d'
         ∧ kycDocuments r.2 = <[docId := d']> (kycDocuments w)
         ∧ KYCDocument.status d' = "PENDING"
         ∧ KYCDocument.verifiedBy d' = None
         ∧ (KYCDocument.id d', KYCDocument.type d', KYCDocument.userId d',
            KYCDocument.createdAt d')
           = (KYCDocument.id d, KYCDocument.type d, KYCDocument.userId d,
              KYCDocument.createdAt d)).
Proof.
  split; [|split].
  - intros user docType r.
    destruct (generateUploadUrl_rows env w user docType) as (Hkeep & Hnew & _).
    split; [exact Hkeep|]. intros data Hdata.
    destruct (Hnew data Hdata) as (Hfree & d & Hd & Hst & _). eauto.
  - intros docId decision bankerId notes.
    apply verifyKYCDocument_no_new_pending.
  - intros docId pid fileSize contentType d Hd Hsize Htype r.
    destruct (completeUpload_ok env w docId pid fileSize contentType d Hsize Htype Hd)
      as (Hres & Hst & _).
    eexists. split; [exact Hres|]. split; [exact Hst|]. done.
Qed.

Lemma kyc_row_lifecycle_witness :
  ∃ d', (KYCService.completeUpload Sample.env "doc-1" "alice/ID_PROOF/again" 1024
           "application/pdf" Sample.world).1 = inr d'
        ∧ KYCDocument.status d' = "PENDING" ∧ KYCDocument.verifiedBy d' = None.
Proof.
  destruct (proj2 (proj2 (kyc_row_lifecycle Sample.env Sample.world))
              "doc-1" "alice/ID_PROOF/again" 1024 "application/pdf" Sample.verifiedDoc)
    as (d' & Hrun & _ & Hstatus & Hby & _).
  - reflexivity.
  - reflexivity.
  - refine (bool_decide_unpack _ _). vm_compute. exact I.
  - exists d'. split; [exact Hrun | split; [exact Hstatus | exact Hby]].
Defined.

(** C4, as stated, fails: finalizing an upload against the id of a
    VERIFIED row takes that very row back to PENDING and forgets its
    reviewer; no new row is created. *)
Lemma completeUpload_reopens_verified_row :
  let r := KYCService.completeUpload Sample.env "doc-1" "alice/ID_PROOF/again" 1024
             "application/pdf" Sample.world in
  (KYCDocument.status <$> kycDocuments Sample.world !! "doc-1") = Some "VERIFIED"
  ∧ (KYCDocument.status <$> kycDocuments r.2 !! "doc-1") = Some "PENDING"
  ∧ (KYCDocument.verifiedBy <$> kycDocuments r.2 !! "doc-1") = Some None
  ∧ dom (kycDocuments r.2) = dom (kycDocuments Sample.world).
Proof.
  split; [|split; [|split]]; vm_compute; reflexivity.
Qed.

(** ** KYC ledger: required documents *)

(** Spreading a [Set] keeps one copy of every element of the list. *)
Lemma spreadSet_from (l seen : list string) :
  NoDup seen →
  let out := fold_left (λ (seen : list string) x,
                          if bool_decide (x ∈ seen) then seen else (seen ++ [x])%list)
                       l seen in
  NoDup out ∧ ∀ x, x ∈ out ↔ x ∈ seen ∨ x ∈ l.
Proof.
  revert seen. induction l as [|y l IH]; intros seen Hnd; simpl.
  - split; [done|]. intros x. rewrite elem_of_nil. tauto.
  - destruct (decide (y ∈ seen)) as [Hin|Hout].
    + rewrite (bool_decide_eq_true_2 _ Hin).
      destruct (IH seen Hnd) as [Hnd' Hmem]. split; [done|].
      intros x. rewrite Hmem, elem_of_cons. split; [tauto|].
      intros [Hx|[->|Hx]]; tauto.
    + rewrite (bool_decide_eq_false_2 _ Hout).
      destruct (IH (seen ++ [y])%list) as [Hnd' Hmem].
      { apply NoDup_app. split; [done|]. split; [|apply NoDup_singleton].
        intros x Hx ->%list_elem_of_singleton. done. }
      split; [done|].
      intros x. rewrite Hmem, elem_of_app, list_elem_of_singleton, elem_of_cons. tauto.
Qed.

Lemma spreadSet_spec (l : list string) :
  NoDup (KYCService.spreadSet l) ∧ ∀ x, x ∈ KYCService.spreadSet l ↔ x ∈ l.
Proof.
  destruct (spreadSet_from l [] (NoDup_nil_2)) as [Hnd Hmem]. split; [exact Hnd|].
  intros x. unfold KYCService.spreadSet. rewrite Hmem, elem_of_nil. tauto.
Qed.

Lemma baseRequirements_NoDup (r : Role) :
  NoDup (default [] (KYCService.baseRequirements !! role_name r)).
Proof. destruct r; refine (bool_decide_unpack _ _); vm_compute; exact I. Qed.

Lemma required_types (userRole : string) (loanType : option string) :
  required_type <$> KYCService.getRequiredDocuments userRole loanType
    = KYCService.requirements userRole loanType.
Proof.
  unfold KYCService.getRequiredDocuments. rewrite <- list_fmap_compose.
  apply list_fmap_id.
Qed.

(** C10.  For every role and every loan type (or none),
    [getRequiredDocuments] is a function of its two arguments alone, the
    types it lists are pairwise distinct, and they include every type
    listed for the same role without a loan type. *)
Theorem getRequiredDocuments_properties (r : Role) (t : option LoanType) :
  let docs := KYCService.getRequiredDocuments (role_name r) (loanType_name <$> t) in
  (∀ (userRole : string) (loanType : option string),
     userRole = role_name r → loanType = (loanType_name <$> t) →
     KYCService.getRequiredDocuments userRole loanType = docs)
  ∧ NoDup (required_type <$> docs)
  ∧ (∀ ty, ty ∈ required_type <$> KYCService.getRequiredDocuments (role_name r) None →
           ty ∈ required_type <$> docs).
Proof.
  intros docs. subst docs. rewrite !required_types. split; [|split].
  - intros userRole loanType -> ->. reflexivity.
  - unfold KYCService.requirements. destruct t as [t|]; simpl.
    + destruct (Js.truthy (loanType_name t)).
      * apply spreadSet_spec.
      * apply baseRequirements_NoDup.
    + apply baseRequirements_NoDup.
  - intros ty. unfold KYCService.requirements. destruct t as [t|]; simpl; [|done].
    destruct (Js.truthy (loanType_name t)); [|done].
    intros Hbase. apply spreadSet_spec. apply elem_of_app. by left.
Qed.

Lemma getRequiredDocuments_properties_witness :
  KYCService.getRequiredDocuments "CUSTOMER" (Some "VEHICLE")
    = KYCService.getRequiredDocuments (role_name CUSTOMER) (loanType_name <$> Some VEHICLE)
  ∧ "ADDRESS_PROOF" ∈ required_type
                        <$> KYCService.getRequiredDocuments (role_name CUSTOMER)
                              (loanType_name <$> Some VEHICLE).
Proof.
  destruct (getRequiredDocuments_properties CUSTOMER (Some VEHICLE)) as (Hfun & _ & Hsup).
  split.
  - apply Hfun; reflexivity.
  - apply Hsup. refine (bool_decide_unpack _ _). vm_compute. exact I.
Defined.

(** ** KYC ledger: completion status *)

(** Double arithmetic against exact arithmetic, by evaluation: below 40
    required entries [Math.round((c / t) * 100)] is the integer nearest to
    the exact quotient, ties upwards (at 23 of 40 the double product is
    57.49999999999999 and rounds to 57, not 58). *)
Lemma percent_nearest_below_40 :
  Forall (λ t, Forall (λ c, KYCController.percent c t = (200 * c + t) / (2 * t))
                      (seqZ 0 (t + 1)))
         (seqZ 1 39).
Proof. refine (bool_decide_unpack _ _). vm_compute. exact I. Qed.

(** Below 200 required entries the percentage is 100 only when every
    entry is counted. *)
Lemma percent_100_below_200 :
  Forall (λ t, Forall (λ c, KYCController.percent c t = 100 ↔ c = t) (seqZ 0 (t + 1)))
         (seqZ 1 199).
Proof. refine (bool_decide_unpack _ _). vm_compute. exact I. Qed.

Lemma table_lookup (P : Z → Z → Prop) (n c t : Z) :
  Forall (λ t, Forall (λ c, P c t) (seqZ 0 (t + 1))) (seqZ 1 n) →
  0 ≤ c ≤ t → 0 < t ≤ n → P c t.
Proof.
  intros Htable Hc Ht. rewrite Forall_forall in Htable.
  specialize (Htable t). rewrite Forall_forall in Htable.
  apply Htable; apply elem_of_seqZ; lia.
Qed.

(** The count over a [Set] of types is the count of required entries for
    which a document of that type and status exists. *)
Lemma countIn_spec (st : string) (documents : list KYCDocument.t)
    (requiredDocs : list RequiredDoc) :
  KYCController.countIn (KYCController.typesWithStatus st documents) requiredDocs
    = Z.of_nat (length (filter
        (λ r, Exists (λ doc, KYCDocument.type doc = required_type r
                             ∧ KYCDocument.status doc = st) documents)
        requiredDocs)).
Proof.
  unfold KYCController.countIn, KYCController.typesWithStatus. do 2 f_equal.
  apply list_filter_iff. intros r. rewrite list_elem_of_fmap, Exists_exists. split.
  - intros (doc & Hty & Hin). apply list_elem_of_filter in Hin as [Hst Hin]. eauto.
  - intros (doc & Hin & Hty & Hst). exists doc. split; [done|].
    apply list_elem_of_filter. done.
Qed.

Lemma countIn_bounds (types : list string) (requiredDocs : list RequiredDoc) :
  0 ≤ KYCController.countIn types requiredDocs ≤ Z.of_nat (length requiredDocs).
Proof.
  unfold KYCController.countIn.
  pose proof (length_filter (λ doc, required_type doc ∈ types) requiredDocs). lia.
Qed.

(** C5, as the code computes it.  [completed] counts the required entries
    whose type has a VERIFIED document and [pending] those whose type has
    a PENDING document, each entry once however many documents match; the
    two counts are independent, so a type with both a VERIFIED and a
    PENDING document is counted in both.  [incomplete] is the remainder
    (and can be negative).  [percentComplete] is 0 for an empty requirement
    list and otherwise [Math.round((completed / required) * 100)] in
    double arithmetic, the nearest integer to the exact quotient below 40
    entries.  Below 200 entries [status] is COMPLETE exactly when
    [percentComplete] is 100. *)
Theorem calculateKYCCompletion_counts (documents : list KYCDocument.t)
    (requiredDocs : list RequiredDoc) :
  let c := KYCController.calculateKYCCompletion documents requiredDocs in
  let total := Z.of_nat (length requiredDocs) in
  completed c
    = Z.of_nat (length (filter
        (λ r, Exists (λ doc, KYCDocument.type doc = required_type r
                             ∧ KYCDocument.status doc = "VERIFIED") documents)
        requiredDocs))
  ∧ pending c
    = Z.of_nat (length (filter
        (λ r, Exists (λ doc, KYCDocument.type doc = required_type r
                             ∧ KYCDocument.status doc = "PENDING") documents)
        requiredDocs))
  ∧ incomplete c = total - completed c - pending c
  ∧ 0 ≤ completed c ≤ total ∧ 0 ≤ pending c ≤ total
  ∧ (total = 0 → percentComplete c = 0)
  ∧ (0 < total → percentComplete c = KYCController.percent (completed c) total)
  ∧ (0 < total < 40 → percentComplete c = (200 * completed c + total) / (2 * total))
  ∧ (total < 200 → (completion_status c = "COMPLETE" ↔ percentComplete c = 100)).
Proof.
  intros c total. subst c. unfold KYCController.calculateKYCCompletion. simpl. fold total.
  pose proof (countIn_bounds (KYCController.typesWithStatus "VERIFIED" documents)
                requiredDocs) as Hc.
  pose proof (countIn_bounds (KYCController.typesWithStatus "PENDING" documents)
                requiredDocs) as Hp.
  fold total in Hc, Hp.
  set (done_ := KYCController.countIn
                  (KYCController.typesWithStatus "VERIFIED" documents) requiredDocs) in *.
  split; [apply countIn_spec|]. split; [apply countIn_spec|].
  split; [reflexivity|]. split; [exact Hc|]. split; [exact Hp|].
  split; [|split; [|split]].
  - intros ->. reflexivity.
  - intros Hpos. by rewrite (proj2 (Z.ltb_lt 0 total) Hpos).
  - intros [Hpos Hlt]. rewrite (proj2 (Z.ltb_lt 0 total) Hpos).
    apply (table_lookup (λ c t, KYCController.percent c t = (200 * c + t) / (2 * t)) 39);
      [exact percent_nearest_below_40 | lia | lia].
  - intros Hlt. destruct (decide (total = 0)) as [Hz|Hnz].
    + rewrite Hz. simpl. split; discriminate.
    + rewrite (bool_decide_eq_false_2 _ Hnz).
      rewrite (proj2 (Z.ltb_lt 0 total)) by lia.
      pose proof (table_lookup (λ c t, KYCController.percent c t = 100 ↔ c = t) 199
                    done_ total percent_100_below_200) as Htable.
      simpl in Htable. rewrite Htable by lia.
      destruct (decide (done_ = total)) as [Heq|Hne].
      * rewrite (bool_decide_eq_true_2 _ Heq). done.
      * rewrite (bool_decide_eq_false_2 _ Hne).
        split; [|done]. destruct (0 <? _); discriminate.
Qed.

Lemma calculateKYCCompletion_counts_witness :
  let c := KYCController.calculateKYCCompletion [Sample.verifiedDoc; Sample.pendingDoc]
             (KYCService.getRequiredDocuments "CUSTOMER" None) in
  percentComplete c = 33 ∧ (completion_status c = "COMPLETE" ↔ percentComplete c = 100).
Proof.
  destruct (calculateKYCCompletion_counts [Sample.verifiedDoc; Sample.pendingDoc]
              (KYCService.getRequiredDocuments "CUSTOMER" None))
    as (_ & _ & _ & _ & _ & _ & _ & Hnear & Hiff).
  split.
  - rewrite Hnear; [reflexivity | split; reflexivity].
  - apply Hiff. reflexivity.
Defined.

(** C5, as stated, fails: VERIFIED does not take precedence over PENDING.
    With a VERIFIED and a PENDING identity document on file, the identity
    requirement is counted as completed and as pending: against the three
    CUSTOMER requirements [pending] is 1 and [incomplete] is 1, where
    precedence would give 0 and 2, and against the identity requirement
    alone [incomplete] is -1.  (No required entry has a PENDING document
    without also having a VERIFIED one.)  On long requirement lists the
    double arithmetic shows as well: with 23 of 40 entries verified
    [percentComplete] is 57 where the exact quotient 57.5 rounds to 58, and
    with 199 of 200 verified it is 100 while [status] is INCOMPLETE. *)
Lemma calculateKYCCompletion_counts_type_twice :
  let documents := [Sample.verifiedDoc; Sample.pendingDoc] in
  let customer := KYCService.getRequiredDocuments "CUSTOMER" None in
  let c := KYCController.calculateKYCCompletion documents customer in
  let c1 := KYCController.calculateKYCCompletion documents (take 1 customer) in
  let identity := mkRequired "ID_PROOF" "Government ID (Aadhaar/Passport)" true "NOT_STARTED" in
  let pan := mkRequired "PAN_CARD" "PAN Card" true "NOT_STARTED" in
  let c40 := KYCController.calculateKYCCompletion [Sample.verifiedDoc]
               (replicate 23 identity ++ replicate 17 pan) in
  let c200 := KYCController.calculateKYCCompletion [Sample.verifiedDoc]
                (replicate 199 identity ++ [pan]) in
  (completed c, pending c, incomplete c) = (1, 1, 1)
  ∧ (completed c1, pending c1, incomplete c1) = (1, 1, -1)
  ∧ filter (λ r, Exists (λ doc, KYCDocument.type doc = required_type r
                                ∧ KYCDocument.status doc = "PENDING") documents
                 ∧ ¬ Exists (λ doc, KYCDocument.type doc = required_type r
                                    ∧ KYCDocument.status doc = "VERIFIED") documents)
           customer = []
  ∧ (completed c40, percentComplete c40, (200 * 23 + 40) / (2 * 40)) = (23, 57, 58)
  ∧ (completed c200, percentComplete c200, completion_status c200) = (199, 100, "INCOMPLETE").
Proof. repeat split; vm_compute; reflexivity. Qed.

(** ** Worked requests *)

(** A CUSTOMER applying for a PERSONAL loan of 50000 without a merchant
    reference: the loan is PENDING with no merchant, and the audit table
    gains exactly one entry, tagged LOAN_CREATED. *)
Example customer_application :
  let r := LoanController.apply Sample.isGuid Sample.env Sample.customer Sample.plainBody
             Sample.world in
  r.1 = inr (mkApplyResponse
               (Loan.mk "id-9" "PERSONAL" 50000 "PENDING" "alice" None None
                        1700000000000 1700000000000)
               "customer_direct")
  ∧ auditLogs r.2 = [AuditLog.mk (Some "id-9") "LOAN_CREATED" (Some "alice") 1700000000000].
Proof. split; vm_compute; reflexivity. Qed.

(** The schema accepts amounts from 1000 to 5000000 inclusive. *)
Example loan_amount_bounds :
  let body (a : Z) := mkBody (Some "PERSONAL") (Some a) ref_undefined None in
  LoanController.validateLoan Sample.isGuid (body 999) = inl LoanController.validationFailed
  ∧ LoanController.validateLoan Sample.isGuid (body 1000)
    = inr (mkLoanData "PERSONAL" 1000 None)
  ∧ LoanController.validateLoan Sample.isGuid (body 5000000)
    = inr (mkLoanData "PERSONAL" 5000000 None)
  ∧ LoanController.validateLoan Sample.isGuid (body 5000001)
    = inl LoanController.validationFailed.
Proof. repeat split; vm_compute; reflexivity. Qed.

(** A decision taken while the audit table is unreachable: the loan is
    decided and returned, the audit table stays empty, and the failure is
    in the log. *)
Example decision_with_audit_down :
  let r := LoanService.updateLoanStatus Sample.env_audit_down "loan-1" "APPROVED" "bob" "ok"
             Sample.world in
  r.1 = inr (Loan.mk "loan-1" "PERSONAL" 50000 "APPROVED" "alice" None (Some "bob")
                     100 1700000000000)
  ∧ auditLogs r.2 = []
  ∧ logFile r.2 = [mkLog "error" "Audit Log Creation Failed";
                   mkLog "info" "Loan Status Updated"].
Proof. repeat split; vm_compute; reflexivity. Qed.

(** The banker recorded on a loan reads it, with the full details the
    controller adds for the BANKER role. *)
Example recorded_banker_reads :
  (LoanController.getStatus Sample.banker "loan-2" Sample.world).1
    = inr (mkStatusResponse Sample.approvedLoan []
             (Some (mkDetails Sample.approvedLoan [])) false).
Proof. vm_compute. reflexivity. Qed.

(** * Properties of the rest of the layer *)

(** ** Loan ledger: the lists of the other roles *)

(** The filters are conjoined with a role scope that sets none of the
    filtered keys. *)
Lemma applyFilters_conjoined (filters : LoanFilters) (wh : LoanWhere) (l : Loan.t) :
  where_status wh = None → where_type wh = None → where_amount_gte wh = None →
  (Prisma.matches (LoanService.applyFilters filters wh) l = true ↔
     Prisma.matches wh l = true
     ∧ (∀ s, filter_status filters = Some s → s ≠ "" → Loan.status l = s)
     ∧ (∀ t, filter_type filters = Some t → t ≠ "" → Loan.type l = t)
     ∧ (∀ a, filter_minAmount filters = Some a → a ≠ 0 → a ≤ Loan.amount l)).
Proof.
  destruct wh as [wa wo ws wt wg]. simpl. intros -> -> ->.
  unfold LoanService.applyFilters, Prisma.matches.
  destruct filters as [fs ft fa fl]; simpl.
  set (base := Prisma.key_ok wa _ && Prisma.key_ok wo _).
  assert (∀ (b1 b2 b3 : bool) (S T U : Prop),
            (b1 = true ↔ S) → (b2 = true ↔ T) → (b3 = true ↔ U) →
            (base && b1 && b2 && b3 = true ↔ (base && true && true && true = true) ∧ S ∧ T ∧ U))
    as Hand.
  { intros b1 b2 b3 S T U H1 H2 H3. rewrite !andb_true_r, !andb_true_iff. tauto. }
  assert (∀ (o : option string) (x : string),
            Prisma.key_ok (match o with
                           | Some s => if Js.truthy s then Some s else None
                           | None => None
                           end) (λ s, bool_decide (x = s)) = true
            ↔ ∀ s, o = Some s → s ≠ "" → x = s) as Hstr.
  { intros [s|] x; simpl.
    - destruct (Js.truthy s) eqn:Hs; simpl.
      + rewrite bool_decide_eq_true. split; [by intros -> ? [= <-] | intros H].
        apply H; [done | by apply truthy_spec].
      + split; [|done]. intros _ s' [= <-] Hne. apply truthy_spec in Hne. congruence.
    - split; [done | done]. }
  assert (Prisma.key_ok (match fa with
                         | Some a => if bool_decide (a = 0) then None else Some a
                         | None => None
                         end) (λ a, a <=? Loan.amount l) = true
          ↔ ∀ a, fa = Some a → a ≠ 0 → a ≤ Loan.amount l) as Hamt.
  { destruct fa as [a|]; simpl; [|done].
    destruct (decide (a = 0)) as [Ha|Ha].
    - rewrite (bool_decide_eq_true_2 _ Ha). simpl. split; [|done].
      intros _ a' [= <-]. done.
    - rewrite (bool_decide_eq_false_2 _ Ha). simpl. rewrite Z.leb_le.
      split; [by intros ? a' [= <-] | intros H; by apply H]. }
  specialize (Hand _ _ _ _ _ _ (Hstr fs (Loan.status l)) (Hstr ft (Loan.type l)) Hamt).
  revert Hand.
  destruct fs as [s|]; [destruct (Js.truthy s)|];
    (destruct ft as [t|]; [destruct (Js.truthy t)|]);
    (destruct fa as [a|]; [destruct (bool_decide (a = 0))|]); simpl; done.
Qed.

(** X1.  For a CUSTOMER, and for any role other than MERCHANT and BANKER,
    when the [status] and [type] filters are values of the store's
    enumerations (or empty, or absent) the list holds the stored loans the
    user applied for that pass every supplied filter, newest first, at
    most [limit] of them ([limit] is 20 when absent or 0 and the magnitude
    of the number otherwise), and none is left out unless the list is
    full.  With a [status] or [type] filter the store does not know the
    call fails with the store's error, which carries no HTTP status.  In
    either case no table is changed. *)
Theorem getUserLoans_own_applications (user role_ : string) (filters : LoanFilters)
    (w : World) :
  role_ ≠ "MERCHANT" → role_ ≠ "BANKER" →
  let scope (l : Loan.t) :=
    Loan.applicantId l = user
    ∧ (∀ s, filter_status filters = Some s → s ≠ "" → Loan.status l = s)
    ∧ (∀ t, filter_type filters = Some t → t ≠ "" → Loan.type l = t)
    ∧ (∀ a, filter_minAmount filters = Some a → a ≠ 0 → a ≤ Loan.amount l) in
  let cap := match filter_limit filters with
             | Some n => if decide (n = 0) then 20%nat else Z.to_nat (Z.abs n)
             | None => 20%nat
             end in
  let r := LoanService.getUserLoans user role_ filters w in
  (known_filters filters →
     ∃ result,
       r.1 = inr result
       ∧ (∀ l, l ∈ result → (∃ k, loans w !! k = Some l) ∧ scope l)
       ∧ StronglySorted Prisma.newest_first result
       ∧ (length result ≤ cap)%nat
       ∧ (∀ k l, loans w !! k = Some l → scope l →
            l ∈ result ∨ length result = cap))
  ∧ (¬ known_filters filters → ∃ e, r.1 = inl e ∧ status e = None)
  ∧ loans r.2 = loans w ∧ kycDocuments r.2 = kycDocuments w
  ∧ auditLogs r.2 = auditLogs w.
Proof.
  intros Hm Hb scope cap r.
  assert (LoanService.roleScope user role_ = mkWhere (Some user) None None None None)
    as Hscope.
  { unfold LoanService.roleScope.
    rewrite (bool_decide_eq_false_2 _ Hm), (bool_decide_eq_false_2 _ Hb).
    by destruct (bool_decide (role_ = "CUSTOMER")). }
  apply (getUserLoans_page user role_ filters w scope).
  intros l. rewrite Hscope, applyFilters_conjoined by done.
  unfold Prisma.matches, scope. simpl. rewrite !andb_true_r, bool_decide_eq_true. done.
Qed.

Lemma getUserLoans_own_applications_witness :
  (∃ result,
     (LoanService.getUserLoans "carol" "CUSTOMER" (mkFilters (Some "PENDING") None None None)
        Sample.world).1 = inr result
     ∧ (Sample.laterLoan ∈ result ∨ length result = 20%nat))
  ∧ (∃ e, (LoanService.getUserLoans "carol" "CUSTOMER"
             (mkFilters None (Some "HOME") None None) Sample.world).1 = inl e
          ∧ status e = None).
Proof.
  split.
  - destruct (getUserLoans_own_applications "carol" "CUSTOMER"
                (mkFilters (Some "PENDING") None None None) Sample.world)
      as (Hok & _); [discriminate | discriminate |].
    destruct Hok as (result & Hrun & _ & _ & _ & Hfull).
    { split; [|exact I]. intros _. refine (bool_decide_unpack _ _). vm_compute. exact I. }
    exists result. split; [exact Hrun|].
    apply (Hfull "loan-3" Sample.laterLoan).
    + reflexivity.
    + split; [reflexivity|]. split; [|split].
      * intros s [= <-] _. reflexivity.
      * intros t. discriminate.
      * intros a. discriminate.
  - destruct (getUserLoans_own_applications "carol" "CUSTOMER"
                (mkFilters None (Some "HOME") None None) Sample.world)
      as (_ & Herr & _); [discriminate | discriminate |].
    apply Herr. intros [_ Ht]. simpl in Ht.
    assert ("HOME" ∈ Prisma.enum_LoanType) as Hin by (apply Ht; discriminate).
    revert Hin. refine (bool_decide_unpack _ _). vm_compute. exact I.
Defined.

(** X2.  For a MERCHANT whose [status] and [type] filters are values of
    the store's enumerations (or empty, or absent), the list holds the
    stored loans on which the user is the applicant or the recorded
    merchant, with the supplied filters conjoined, newest first, at most
    [limit] of them ([limit] is 20 when absent or 0 and the magnitude of
    the number otherwise), and complete unless the list is full.  With a
    [status] or [type] filter the store does not know the call fails with
    the store's error, which carries no HTTP status.  In either case no
    table is changed. *)
Theorem getUserLoans_merchant_scope (user : string) (filters : LoanFilters) (w : World) :
  let scope (l : Loan.t) :=
    (Loan.applicantId l = user ∨ Loan.merchantId l = Some user)
    ∧ (∀ s, filter_status filters = Some s → s ≠ "" → Loan.status l = s)
    ∧ (∀ t, filter_type filters = Some t → t ≠ "" → Loan.type l = t)
    ∧ (∀ a, filter_minAmount filters = Some a → a ≠ 0 → a ≤ Loan.amount l) in
  let cap := match filter_limit filters with
             | Some n => if decide (n = 0) then 20%nat else Z.to_nat (Z.abs n)
             | None => 20%nat
             end in
  let r := LoanService.getUserLoans user "MERCHANT" filters w in
  (known_filters filters →
     ∃ result,
       r.1 = inr result
       ∧ (∀ l, l ∈ result → (∃ k, loans w !! k = Some l) ∧ scope l)
       ∧ StronglySorted Prisma.newest_first result
       ∧ (length result ≤ cap)%nat
       ∧ (∀ k l, loans w !! k = Some l → scope l →
            l ∈ result ∨ length result = cap))
  ∧ (¬ known_filters filters → ∃ e, r.1 = inl e ∧ status e = None)
  ∧ loans r.2 = loans w ∧ kycDocuments r.2 = kycDocuments w
  ∧ auditLogs r.2 = auditLogs w.
Proof.
  intros scope cap r.
  apply (getUserLoans_page user "MERCHANT" filters w scope).
  intros l.
  change (LoanService.roleScope user "MERCHANT")
    with (mkWhere None (Some [applicantId_is user; merchantId_is user]) None None None).
  rewrite applyFilters_conjoined by done.
  unfold Prisma.matches, scope. simpl.
  rewrite !andb_true_r, orb_false_r, !orb_true_iff, !bool_decide_eq_true. tauto.
Qed.

Lemma getUserLoans_merchant_scope_witness :
  (∃ result,
     (LoanService.getUserLoans "mike" "MERCHANT" (mkFilters None None None None)
        Sample.world).1 = inr result
     ∧ (Sample.approvedLoan ∈ result ∨ length result = 20%nat))
  ∧ (∃ e, (LoanService.getUserLoans "mike" "MERCHANT"
             (mkFilters (Some "approved") None None None) Sample.world).1 = inl e
          ∧ status e = None).
Proof.
  split.
  - destruct (getUserLoans_merchant_scope "mike" (mkFilters None None None None)
                Sample.world) as (Hok & _).
    destruct Hok as (result & Hrun & _ & _ & _ & Hfull).
    { split; exact I. }
    exists result. split; [exact Hrun|].
    apply (Hfull "loan-2" Sample.approvedLoan).
    + reflexivity.
    + split; [right; reflexivity|]. split; [|split]; intros x; discriminate.
  - destruct (getUserLoans_merchant_scope "mike"
                (mkFilters (Some "approved") None None None) Sample.world)
      as (_ & Herr & _).
    apply Herr. intros [Hs _]. simpl in Hs.
    assert ("approved" ∈ Prisma.enum_LoanStatus) as Hin by (apply Hs; discriminate).
    revert Hin. refine (bool_decide_unpack _ _). vm_compute. exact I.
Defined.

(** ** Loan routes: decisions *)

Ltac run_routes :=
  unfold LoanRoutes.approve_route, LoanRoutes.reject_route, LoanRoutes.listLoans_route,
         KYCRoutes.verify_route, KYCRoutes.getForReview_route,
         AuthMiddleware.chain, AuthMiddleware.chain_any, AuthMiddleware.authorize,
         logger_warn;
  run_monad.

(** X3.  Through the exported chains, approve and reject are closed to
    everyone but a BANKER: a failed authentication is passed on as it is,
    a principal of another role is refused with "Insufficient permissions"
    (403) by the middleware, before the handler's own role test, and in
    both cases no loan and no audit entry is touched. *)
Theorem decision_routes_refuse (env : Env) (loanId : string) (notes : BodyNotes)
    (w : World) :
  let untouched (r : (JsError + DecisionResponse) * World) :=
    loans r.2 = loans w ∧ kycDocuments r.2 = kycDocuments w ∧ auditLogs r.2 = auditLogs w in
  (∀ e,
     let ra := LoanRoutes.approve_route env loanId notes (inl e) w in
     let rr := LoanRoutes.reject_route env loanId notes (inl e) w in
     ra.1 = inl e ∧ untouched ra ∧ rr.1 = inl e ∧ untouched rr)
  ∧ (∀ u, role u ≠ "BANKER" →
       let ra := LoanRoutes.approve_route env loanId notes (inr u) w in
       let rr := LoanRoutes.reject_route env loanId notes (inr u) w in
       ra.1 = inl (mkError "Insufficient permissions" (Some 403) None) ∧ untouched ra
       ∧ rr.1 = inl (mkError "Insufficient permissions" (Some 403) None) ∧ untouched rr).
Proof.
  intros untouched. subst untouched. split.
  - intros e. run_routes. done.
  - intros u Hrole. run_routes.
    rewrite bool_decide_eq_false_2
      by (intros Hin; apply list_elem_of_singleton in Hin; done).
    simpl. done.
Qed.

Lemma decision_routes_refuse_witness :
  (LoanRoutes.approve_route Sample.env "loan-1" notes_undefined (inr Sample.merchant)
     Sample.world).1
    = inl (mkError "Insufficient permissions" (Some 403) None).
Proof.
  refine (proj1 (proj2 (decision_routes_refuse Sample.env "loan-1" notes_undefined
                          Sample.world)
                   Sample.merchant _)).
  discriminate.
Defined.

Lemma notes_cases (notes : BodyNotes) :
  notes = notes_other true ∨ notes ≠ notes_other true.
Proof. destruct notes as [| |s|[|]]; by (left + right). Qed.

(** The service call of a decision handler on a stored loan: the loan is
    updated and the audit entry attempted whatever [notes] is; the call
    returns the loan unless [notes] is a truthy value that is no string,
    in which case it throws after both writes. *)
Lemma decide_loan_stored (env : Env) (w : World) (loanId decision userId : string)
    (notes : BodyNotes) (fallback : string) (l : Loan.t) :
  decision = "APPROVED" ∨ decision = "REJECTED" →
  loans w !! loanId = Some l →
  let l' := Loan.mk (Loan.id l) (Loan.type l) (Loan.amount l) decision
                    (Loan.applicantId l) (Loan.merchantId l) (Some userId)
                    (Loan.createdAt l) (now env) in
  let entry := AuditLog.mk (Some loanId)
                 (if decide (decision = "APPROVED") then "LOAN_APPROVED" else "LOAN_REJECTED")
                 (Some userId) (now env) in
  let r := LoanRoutes.decide_loan env loanId decision userId notes fallback w in
  (notes ≠ notes_other true → r.1 = inr l')
  ∧ (notes = notes_other true → r.1 = inl (LoanRoutes.notAFunction "notes"))
  ∧ loans r.2 = <[loanId := l']> (loans w)
  ∧ kycDocuments r.2 = kycDocuments w
  ∧ auditLogs r.2 = match auditLogError env with
                    | None => (auditLogs w ++ [entry])%list
                    | Some _ => auditLogs w
                    end.
Proof.
  intros Hvalid Hl l' entry r.
  assert (∀ s, let r' := LoanService.updateLoanStatus env loanId decision userId s w in
               LoanRoutes.notesArg notes fallback = Some s →
               r = r') as Hstr.
  { intros s r' Hs. subst r r'. unfold LoanRoutes.decide_loan. by rewrite Hs. }
  destruct (notes_cases notes) as [->|Hn].
  - subst r. unfold LoanRoutes.decide_loan. simpl.
    unfold LoanRoutes.updateLoanStatus_noString, LoanRoutes.createAuditLog_noString.
    rewrite bool_decide_eq_true_2 by (apply decision_in_pair; exact Hvalid).
    run_monad. rewrite Hl. simpl.
    split; [done|]. split; [by destruct (auditLogError env)|].
    destruct (auditLogError env); simpl; repeat split; try done.
    subst entry.
    by destruct (decide (decision = "APPROVED")) as [Hd|Hd];
      [rewrite (bool_decide_eq_true_2 _ Hd) | rewrite (bool_decide_eq_false_2 _ Hd)].
  - assert (∃ s, LoanRoutes.notesArg notes fallback = Some s) as [s Hs].
    { destruct notes as [| |s|[|]]; simpl; eauto. done. }
    rewrite (Hstr s Hs).
    destruct (updateLoanStatus_valid env w loanId decision userId s l Hvalid Hl)
      as (Hres & Hloans & Hkyc & Haudit).
    split; [intros _; exact Hres|]. split; [done|]. done.
Qed.

(** The same call on an id that names no loan: the store's not-found
    error, and nothing written. *)
Lemma decide_loan_missing (env : Env) (w : World) (loanId decision userId : string)
    (notes : BodyNotes) (fallback : string) :
  decision = "APPROVED" ∨ decision = "REJECTED" →
  loans w !! loanId = None →
  let r := LoanRoutes.decide_loan env loanId decision userId notes fallback w in
  r.1 = inl Prisma.recordNotFound
  ∧ loans r.2 = loans w ∧ kycDocuments r.2 = kycDocuments w
  ∧ auditLogs r.2 = auditLogs w.
Proof.
  intros Hvalid Hl r. subst r. unfold LoanRoutes.decide_loan.
  destruct (LoanRoutes.notesArg notes fallback) as [s|];
    unfold LoanService.updateLoanStatus, LoanRoutes.updateLoanStatus_noString;
    rewrite bool_decide_eq_true_2 by (apply decision_in_pair; exact Hvalid);
    run_monad; rewrite Hl; simpl; done.
Qed.

(** X4.  Through the exported chains a BANKER's decision on a stored loan
    is written whatever the loan's status and whatever the body's [notes]:
    the loan is stored with the decided status, the acting banker as
    [bankerId] and [updatedAt] refreshed, and the audit entry is appended
    when the audit write succeeds.  The request is answered with the
    loan's id, new status and [updatedAt] unless [notes] is a truthy value
    that is no string (the body is not validated); then it fails, after
    both writes, with an error that carries no HTTP status.  Deciding an
    id that names no loan fails with the store's error for a missing
    record (code P2025, no HTTP status) and writes nothing. *)
Theorem decision_routes_decide (env : Env) (loanId : string) (notes : BodyNotes)
    (u : Principal) (w : World) :
  role u = "BANKER" →
  let ra := LoanRoutes.approve_route env loanId notes (inr u) w in
  let rr := LoanRoutes.reject_route env loanId notes (inr u) w in
  let decided (st : string) (l : Loan.t) :=
    Loan.mk (Loan.id l) (Loan.type l) (Loan.amount l) st (Loan.applicantId l)
            (Loan.merchantId l) (Some (userId u)) (Loan.createdAt l) (now env) in
  let logged (action : string) (r : (JsError + DecisionResponse) * World) :=
    auditLogs r.2 = match auditLogError env with
                    | None => (auditLogs w
                               ++ [AuditLog.mk (Some loanId) action (Some (userId u))
                                               (now env)])%list
                    | Some _ => auditLogs w
                    end in
  (∀ l, loans w !! loanId = Some l →
     loans ra.2 = <[loanId := decided "APPROVED" l]> (loans w)
     ∧ logged "LOAN_APPROVED" ra
     ∧ loans rr.2 = <[loanId := decided "REJECTED" l]> (loans w)
     ∧ logged "LOAN_REJECTED" rr
     ∧ (notes ≠ notes_other true →
        ra.1 = inr (mkDecisionResponse (Loan.id l) "APPROVED" (now env))
        ∧ rr.1 = inr (mkDecisionResponse (Loan.id l) "REJECTED" (now env)))
     ∧ (notes = notes_other true →
        ∃ ea er, ra.1 = inl ea ∧ status ea = None
                 ∧ rr.1 = inl er ∧ status er = None))
  ∧ (loans w !! loanId = None →
     ∃ ea er,
       ra.1 = inl ea ∧ status ea = None ∧ code ea = Some "P2025"
       ∧ rr.1 = inl er ∧ status er = None ∧ code er = Some "P2025"
       ∧ loans ra.2 = loans w ∧ auditLogs ra.2 = auditLogs w
       ∧ loans rr.2 = loans w ∧ auditLogs rr.2 = auditLogs w).
Proof.
  intros Hrole ra rr decided logged.
  assert (∃ w0, loans w0 = loans w ∧ auditLogs w0 = auditLogs w
                ∧ ra = LoanRoutes.approve env loanId notes u w0
                ∧ rr = LoanRoutes.reject env loanId notes u w0)
    as (w0 & Hloans0 & Haudit0 & Hra & Hrr).
  { exists (mkWorld (loans w) (kycDocuments w) (auditLogs w)
              (logFile w ++ [mkLog "info" "Token Verified"])).
    subst ra rr. run_routes.
    rewrite bool_decide_eq_true_2 by (apply list_elem_of_singleton; exact Hrole).
    done. }
  unfold LoanRoutes.approve in Hra. unfold LoanRoutes.reject in Hrr.
  rewrite (bool_decide_eq_true_2 _ Hrole) in Hra, Hrr. simpl in Hra, Hrr.
  unfold bind in Hra, Hrr. clearbody ra rr. subst logged decided.
  split.
  - intros l Hl. rewrite <- Hloans0 in Hl.
    destruct (decide_loan_stored env w0 loanId "APPROVED" (userId u) notes
                "Loan approved by banker" l (or_introl eq_refl) Hl)
      as (Hao & Hae & Hal & _ & Haa).
    destruct (decide_loan_stored env w0 loanId "REJECTED" (userId u) notes
                "Loan rejected by banker" l (or_intror eq_refl) Hl)
      as (Hro & Hre & Hrl & _ & Hraa).
    destruct (LoanRoutes.decide_loan env loanId "APPROVED" (userId u) notes
                "Loan approved by banker" w0) as [resa wa].
    destruct (LoanRoutes.decide_loan env loanId "REJECTED" (userId u) notes
                "Loan rejected by banker" w0) as [resr wr].
    simpl in Hao, Hae, Hal, Haa, Hro, Hre, Hrl, Hraa.
    rewrite Hloans0 in Hal, Hrl. rewrite Haudit0 in Haa, Hraa.
    destruct (notes_cases notes) as [Hn|Hn].
    + rewrite (Hae Hn) in Hra. rewrite (Hre Hn) in Hrr. subst ra rr. simpl.
      split; [done|]. split; [done|]. split; [done|]. split; [done|].
      split; [done|]. intros _. eexists _, _. done.
    + rewrite (Hao Hn) in Hra. rewrite (Hro Hn) in Hrr. subst ra rr.
      unfold logger_info, logger_log, ret. simpl.
      split; [done|]. split; [done|]. split; [done|]. split; [done|].
      split; [done|]. done.
  - intros Hl. rewrite <- Hloans0 in Hl.
    destruct (decide_loan_missing env w0 loanId "APPROVED" (userId u) notes
                "Loan approved by banker" (or_introl eq_refl) Hl)
      as (Hae & Hal & _ & Haa).
    destruct (decide_loan_missing env w0 loanId "REJECTED" (userId u) notes
                "Loan rejected by banker" (or_intror eq_refl) Hl)
      as (Hre & Hrl & _ & Hraa).
    destruct (LoanRoutes.decide_loan env loanId "APPROVED" (userId u) notes
                "Loan approved by banker" w0) as [resa wa].
    destruct (LoanRoutes.decide_loan env loanId "REJECTED" (userId u) notes
                "Loan rejected by banker" w0) as [resr wr].
    simpl in Hae, Hal, Haa, Hre, Hrl, Hraa.
    rewrite Hloans0 in Hal, Hrl. rewrite Haudit0 in Haa, Hraa.
    subst resa resr ra rr. simpl.
    eexists _, _. repeat (split; [done|]). done.
Qed.

Lemma decision_routes_decide_witness :
  (LoanRoutes.reject_route Sample.env "loan-2" (notes_string "late documents")
     (inr Sample.otherBanker) Sample.world).1
    = inr (mkDecisionResponse "loan-2" "REJECTED" 1700000000000)
  ∧ loans (LoanRoutes.approve_route Sample.env "loan-1" (notes_other true)
             (inr Sample.banker) Sample.world).2
    = <["loan-1" := Loan.mk "loan-1" (Loan.type Sample.pendingLoan)
                      (Loan.amount Sample.pendingLoan) "APPROVED"
                      (Loan.applicantId Sample.pendingLoan)
                      (Loan.merchantId Sample.pendingLoan) (Some (userId Sample.banker))
                      (Loan.createdAt Sample.pendingLoan) (now Sample.env)]>
        (loans Sample.world)
  ∧ (∃ ea er,
       (LoanRoutes.approve_route Sample.env "loan-1" (notes_other true)
          (inr Sample.banker) Sample.world).1 = inl ea ∧ status ea = None
       ∧ (LoanRoutes.reject_route Sample.env "loan-1" (notes_other true)
            (inr Sample.banker) Sample.world).1 = inl er ∧ status er = None).
Proof.
  split; [|split].
  - refine (proj2 (proj1 (proj2 (proj2 (proj2 (proj2 (proj1
             (decision_routes_decide Sample.env "loan-2" (notes_string "late documents")
                Sample.otherBanker Sample.world _) Sample.approvedLoan _))))) _)).
    + reflexivity.
    + reflexivity.
    + discriminate.
  - refine (proj1 (proj1
             (decision_routes_decide Sample.env "loan-1" (notes_other true)
                Sample.banker Sample.world _) Sample.pendingLoan _)).
    + reflexivity.
    + reflexivity.
  - refine (proj2 (proj2 (proj2 (proj2 (proj2 (proj1
             (decision_routes_decide Sample.env "loan-1" (notes_other true)
                Sample.banker Sample.world _) Sample.pendingLoan _))))) _).
    + reflexivity.
    + reflexivity.
    + reflexivity.
Defined.

(** ** Loan routes: the list *)

(** X5.  For a query whose keys are single strings, GET /loan/list
    answers when the [status] and [type] of the query are values of the
    store's enumerations (or empty, or absent): it
    reports as [total] the number of entries it lists, never applies a
    minimum amount, and the page holds as many of the loans matching the
    role's query as fit the page size, which is 10 when the query gives no
    [limit], 20 when the [limit] is not a number or is 0, and otherwise the
    magnitude of the number the [limit] starts with.  With any other
    [status] or [type] the request fails with the store's error, which
    carries no HTTP status.  In either case no table is changed. *)
Theorem listLoans_page_size (query : ListQuery) (user : Principal) (w : World) :
  let filters := LoanRoutes.listFilters query in
  let size := match query_limit query with
              | None => 10%nat
              | Some s =>
                  match Js.parseInt s with
                  | None => 20%nat
                  | Some n => if decide (n = 0) then 20%nat else Z.to_nat (Z.abs n)
                  end
              end in
  let matching :=
    filter (λ l, Prisma.matches
                   (LoanService.applyFilters filters
                      (LoanService.roleScope (userId user) (role user))) l)
           (Prisma.loan_rows w) in
  let r := LoanRoutes.listLoans query user w in
  (known_filters filters →
     ∃ response,
       r.1 = inr response
       ∧ listed_total response = Z.of_nat (length (listed response))
       ∧ filter_minAmount (listed_filters response) = None
       ∧ length (listed response) = Nat.min size (length matching))
  ∧ (¬ known_filters filters → ∃ e, r.1 = inl e ∧ status e = None)
  ∧ loans r.2 = loans w ∧ kycDocuments r.2 = kycDocuments w
  ∧ auditLogs r.2 = auditLogs w.
Proof.
  intros filters size matching r.
  assert (Z.to_nat (Z.abs (LoanService.limitOf filters)) = size) as Hsize.
  { rewrite limitOf_cap. subst size filters. unfold LoanRoutes.listFilters. simpl.
    destruct (query_limit query) as [s|]; [|done].
    by destruct (Js.parseInt s). }
  destruct (getUserLoans_run (userId user) (role user) filters w)
    as (Hok & Herr & Hstate).
  subst r. unfold LoanRoutes.listLoans. fold filters. unfold bind.
  destruct (LoanService.getUserLoans (userId user) (role user) filters w)
    as [[e|found] w2]; simpl in *.
  - split; [|split; [|exact Hstate]].
    + intros Hknown. specialize (Hok Hknown). discriminate.
    + intros Hn. exists e. split; [done|]. specialize (Herr Hn). by simplify_eq.
  - split; [|split; [|exact Hstate]].
    + intros Hknown. specialize (Hok Hknown). simplify_eq.
      eexists. split; [reflexivity|]. simpl. rewrite length_fmap.
      split; [reflexivity|]. split; [reflexivity|].
      rewrite take_rows_length_eq, Hsize.
      by rewrite (Permutation_length (merge_sort_Permutation _ _)).
    + intros Hn. specialize (Herr Hn). discriminate.
Qed.

Lemma listLoans_page_size_witness :
  (∃ response,
     (LoanRoutes.listLoans (mkListQuery None None (Some "0")) Sample.customer
        Sample.world).1 = inr response
     ∧ (length (listed response) ≤ 20)%nat)
  ∧ (∃ e, (LoanRoutes.listLoans (mkListQuery (Some "FOO") None None) Sample.banker
             Sample.world).1 = inl e
          ∧ status e = None).
Proof.
  split.
  - destruct (listLoans_page_size (mkListQuery None None (Some "0")) Sample.customer
                Sample.world) as (Hok & _).
    destruct Hok as (response & Hrun & _ & _ & Hlen).
    { split; exact I. }
    exists response. split; [exact Hrun|].
    rewrite Hlen. apply Nat.le_min_l.
  - destruct (listLoans_page_size (mkListQuery (Some "FOO") None None) Sample.banker
                Sample.world) as (_ & Herr & _).
    apply Herr. intros [Hs _]. simpl in Hs.
    assert ("FOO" ∈ Prisma.enum_LoanStatus) as Hin by (apply Hs; discriminate).
    revert Hin. refine (bool_decide_unpack _ _). vm_compute. exact I.
Defined.

(** ** Loan ledger: merchant analytics *)









(** ** KYC ledger: the queries *)

#[local] Instance doc_newest_first_trans : Transitive KYCQueries.doc_newest_first.
Proof. unfold KYCQueries.doc_newest_first. intros a b c ??. lia. Qed.
#[local] Instance doc_newest_first_total : Total KYCQueries.doc_newest_first.
Proof. unfold KYCQueries.doc_newest_first. intros a b. lia. Qed.
#[local] Instance doc_oldest_first_trans : Transitive KYCQueries.doc_oldest_first.
Proof. unfold KYCQueries.doc_oldest_first. intros a b c ??. lia. Qed.
#[local] Instance doc_oldest_first_total : Total KYCQueries.doc_oldest_first.
Proof. unfold KYCQueries.doc_oldest_first. intros a b. lia. Qed.

Lemma elem_of_doc_rows (w : World) (d : KYCDocument.t) :
  d ∈ KYCQueries.doc_rows w ↔ ∃ k, kycDocuments w !! k = Some d.
Proof.
  unfold KYCQueries.doc_rows. rewrite list_elem_of_fmap. split.
  - intros [[k d'] [-> Hin]]. exists k. by apply elem_of_map_to_list in Hin.
  - intros [k Hk]. exists (k, d). split; [done | by apply elem_of_map_to_list].
Qed.

(** X8.  The documents listed for a user are exactly the stored documents
    that user owns, of the requested status when one is requested, newest
    first and without a cap; each carries the display name of its type and
    is flagged pending exactly when PENDING and for resubmission exactly
    when REJECTED.  No table is touched. *)
Theorem getUserKYCDocuments_scope (user : string) (st : option string) (w : World) :
  let wanted (d : KYCDocument.t) :=
    KYCDocument.userId d = user
    ∧ when_present st (λ s, s ≠ "" → KYCDocument.status d = s) in
  let r := KYCQueries.getUserKYCDocuments user st w in
  ∃ result,
    r.1 = inr result
    ∧ (∀ d, d ∈ enriched_doc <$> result ↔ (∃ k, kycDocuments w !! k = Some d) ∧ wanted d)
    ∧ StronglySorted KYCQueries.doc_newest_first (enriched_doc <$> result)
    ∧ (∀ e, e ∈ result →
         docTypeName e = KYCService.getDocTypeName (KYCDocument.type (enriched_doc e))
         ∧ (isPending e = true ↔ KYCDocument.status (enriched_doc e) = "PENDING")
         ∧ (needsResubmission e = true ↔ KYCDocument.status (enriched_doc e) = "REJECTED"))
    ∧ kycDocuments r.2 = kycDocuments w ∧ loans r.2 = loans w
    ∧ auditLogs r.2 = auditLogs w.
Proof.
  intros wanted r. subst r. unfold KYCQueries.getUserKYCDocuments. run_monad.
  eexists. split; [reflexivity|].
  rewrite <- list_fmap_compose, list_fmap_id.
  split; [|split; [|split]].
  - intros d. rewrite merge_sort_Permutation, list_elem_of_filter, elem_of_doc_rows.
    unfold wanted, when_present. destruct st as [s|]; simpl.
    + destruct (Js.truthy s) eqn:Hs.
      * split.
        -- intros [[Hu Hst] Hk]. split; [done|]. split; [done|].
           intros _. specialize (Hst eq_refl). congruence.
        -- intros [Hk [Hu Hst]]. split; [|done]. split; [done|].
           intros _. f_equal. apply Hst. by apply truthy_spec.
      * split.
        -- intros [[Hu _] Hk]. split; [done|]. split; [done|].
           intros Hne. apply truthy_spec in Hne. congruence.
        -- intros [Hk [Hu _]]. split; [|done]. split; [done | done].
    + split.
      * intros [[Hu _] Hk]. done.
      * intros [Hk [Hu _]]. done.
  - apply StronglySorted_merge_sort; apply _.
  - intros e He. apply list_elem_of_fmap in He as (d & -> & _). simpl.
    rewrite !bool_decide_eq_true. done.
  - done.
Qed.

Lemma getUserKYCDocuments_scope_witness :
  ∃ result,
    (KYCQueries.getUserKYCDocuments "alice" (Some "PENDING") Sample.world).1 = inr result
    ∧ Sample.pendingDoc ∈ enriched_doc <$> result.
Proof.
  destruct (getUserKYCDocuments_scope "alice" (Some "PENDING") Sample.world)
    as (result & Hrun & Hmem & _).
  exists result. split; [exact Hrun|].
  apply Hmem. split.
  - exists "doc-2". reflexivity.
  - split; [reflexivity|]. intros _. reflexivity.
Defined.

(** X9.  The review queue lists stored PENDING documents only, oldest
    first, at most [limit] of them, and all of them unless the page is
    full; with a non-negative [limit] it is first in, first out: no PENDING
    document left out was created before a listed one. *)
Theorem getPendingKYCForReview_fifo (env : Env) (bankerId : string) (limit : Z) (w : World) :
  let r := KYCQueries.getPendingKYCForReview env bankerId limit w in
  let cap := Z.to_nat (Z.abs limit) in
  ∃ result,
    r.1 = inr result
    ∧ (∀ d, d ∈ pending_doc <$> result →
         (∃ k, kycDocuments w !! k = Some d) ∧ KYCDocument.status d = "PENDING")
    ∧ StronglySorted KYCQueries.doc_oldest_first (pending_doc <$> result)
    ∧ (length result ≤ cap)%nat
    ∧ (∀ k d, kycDocuments w !! k = Some d → KYCDocument.status d = "PENDING" →
         d ∈ pending_doc <$> result ∨ length result = cap)
    ∧ (0 ≤ limit →
       ∀ k d listed, kycDocuments w !! k = Some d → KYCDocument.status d = "PENDING" →
         d ∉ pending_doc <$> result → listed ∈ pending_doc <$> result →
         KYCDocument.createdAt listed ≤ KYCDocument.createdAt d)
    ∧ kycDocuments r.2 = kycDocuments w.
Proof.
  intros r cap. subst r. unfold KYCQueries.getPendingKYCForReview. run_monad.
  eexists. split; [reflexivity|].
  rewrite <- list_fmap_compose, list_fmap_id, length_fmap.
  destruct (sorted_page_spec KYCQueries.doc_oldest_first
              (λ d, KYCDocument.status d = "PENDING") (KYCQueries.doc_rows w) limit)
    as (Hin & Hsorted & Hcap & Hfull).
  split; [|split; [|split; [|split; [|split]]]].
  - intros d Hd. destruct (Hin d Hd) as [Hrow Hst].
    split; [by apply elem_of_doc_rows | done].
  - exact Hsorted.
  - exact Hcap.
  - intros k d Hk Hst. apply Hfull; [apply elem_of_doc_rows; eauto | done].
  - intros Hpos k d listed Hk Hst Hout Hlisted.
    set (all := merge_sort KYCQueries.doc_oldest_first
                  (filter (λ d, KYCDocument.status d = "PENDING") (KYCQueries.doc_rows w)))
      in *.
    unfold Prisma.take_rows in Hout, Hlisted.
    rewrite (proj2 (Z.leb_le 0 limit) Hpos) in Hout, Hlisted.
    assert (d ∈ all) as Hd.
    { unfold all. rewrite merge_sort_Permutation, list_elem_of_filter, elem_of_doc_rows.
      eauto. }
    rewrite <- (take_drop (Z.to_nat limit) all) in Hd.
    apply elem_of_app in Hd as [Hd|Hd]; [done|].
    assert (StronglySorted KYCQueries.doc_oldest_first all) as Hall
      by (apply StronglySorted_merge_sort; apply _).
    rewrite <- (take_drop (Z.to_nat limit) all) in Hall.
    exact (StronglySorted_app_1_elem_of _ _ _ _ _ Hall Hlisted Hd).
  - done.
Qed.

Lemma getPendingKYCForReview_fifo_witness :
  ∃ result,
    (KYCQueries.getPendingKYCForReview Sample.env "bob" 1 Sample.world).1 = inr result
    ∧ (Sample.pendingDoc ∈ pending_doc <$> result ∨ length result = 1%nat).
Proof.
  destruct (getPendingKYCForReview_fifo Sample.env "bob" 1 Sample.world)
    as (result & Hrun & _ & _ & _ & Hfull & _).
  exists result. split; [exact Hrun|].
  apply (Hfull "doc-2" Sample.pendingDoc); reflexivity.
Defined.

(** X10.  GET /kyc/:id/review through its chain: a principal who is not a
    BANKER is refused with 403 by the middleware; for a BANKER an id that
    names no document fails with 404, and a stored document is returned as
    stored with the display name of its type, flagged overdue only if it is
    PENDING.  No table is touched. *)
Theorem getForReview_route_outcomes (env : Env) (docId : string) (u : Principal)
    (w : World) :
  let r := KYCRoutes.getForReview_route env docId (inr u) w in
  (role u ≠ "BANKER" →
     r.1 = inl (mkError "Insufficient permissions" (Some 403) None))
  ∧ (role u = "BANKER" → kycDocuments w !! docId = None →
     r.1 = inl (mkError "KYC document not found" (Some 404) None))
  ∧ (∀ d, role u = "BANKER" → kycDocuments w !! docId = Some d →
     ∃ review, r.1 = inr review
       ∧ review_doc review = d
       ∧ review_docTypeName review = KYCService.getDocTypeName (KYCDocument.type d)
       ∧ (isOverdue review = true → KYCDocument.status d = "PENDING"))
  ∧ kycDocuments r.2 = kycDocuments w ∧ loans r.2 = loans w
  ∧ auditLogs r.2 = auditLogs w.
Proof.
  intros r. subst r. run_routes.
  destruct (decide (role u = "BANKER")) as [Hrole|Hrole].
  - rewrite bool_decide_eq_true_2 by (apply list_elem_of_singleton; exact Hrole).
    simpl. unfold KYCRoutes.getForReview, KYCQueries.getKYCForReview.
    rewrite (bool_decide_eq_true_2 _ Hrole). run_monad.
    destruct (kycDocuments w !! docId) as [d|] eqn:Hd; simpl.
    + split; [done|]. split; [done|]. split; [|done].
      intros d' _ [= <-]. eexists. split; [reflexivity|]. simpl.
      split; [done|]. split; [done|].
      rewrite andb_true_iff, bool_decide_eq_true. tauto.
    + split; [done|]. split; [done|]. split; [|done]. intros d' _ Hd'. done.
  - rewrite bool_decide_eq_false_2
      by (intros Hin; apply list_elem_of_singleton in Hin; done).
    simpl. split; [done|]. split; [done|]. split; [|done]. intros d' Hb. done.
Qed.

Lemma getForReview_route_outcomes_witness :
  (KYCRoutes.getForReview_route Sample.env "doc-9" (inr Sample.banker) Sample.world).1
    = inl (mkError "KYC document not found" (Some 404) None).
Proof.
  refine (proj1 (proj2 (getForReview_route_outcomes Sample.env "doc-9" Sample.banker
                          Sample.world)) _ _); reflexivity.
Defined.

(** ** KYC routes: the status page *)

(** The documents the status page is computed from. *)
Lemma getStatus_documents (st : option string) (u : Principal) (w : World) :
  ∃ docs,
    (KYCRoutes.getStatus st u w).1
      = inr (let c := KYCController.calculateKYCCompletion docs
                        (KYCService.getRequiredDocuments (role u) None) in
             mkKycStatus
               ((λ d, mkEnriched d (KYCService.getDocTypeName (KYCDocument.type d))
                                 (bool_decide (KYCDocument.status d = "PENDING"))
                                 (bool_decide (KYCDocument.status d = "REJECTED"))) <$> docs)
               (KYCService.getRequiredDocuments (role u) None) c
               (if bool_decide (percentComplete c = 100) then "COMPLETE" else "INCOMPLETE"))
    ∧ ∀ d, d ∈ docs ↔
        (∃ k, kycDocuments w !! k = Some d)
        ∧ KYCDocument.userId d = userId u
        ∧ when_present st (λ s, s ≠ "" → KYCDocument.status d = s).
Proof.
  unfold KYCRoutes.getStatus, KYCQueries.getUserKYCDocuments. run_monad.
  eexists. split.
  - rewrite <- list_fmap_compose, list_fmap_id. reflexivity.
  - intros d. rewrite merge_sort_Permutation, list_elem_of_filter, elem_of_doc_rows.
    unfold when_present. destruct st as [s|]; simpl.
    + destruct (Js.truthy s) eqn:Hs.
      * split.
        -- intros [[Hu Hst] Hk]. split; [done|]. split; [done|].
           intros _. specialize (Hst eq_refl). congruence.
        -- intros [Hk [Hu Hst]]. split; [|done]. split; [done|].
           intros _. f_equal. apply Hst. by apply truthy_spec.
      * split.
        -- intros [[Hu _] Hk]. split; [done|]. split; [done|].
           intros Hne. apply truthy_spec in Hne. congruence.
        -- intros [Hk [Hu _]]. split; [|done]. split; [done | done].
    + split.
      * intros [[Hu _] Hk]. done.
      * intros [Hk [Hu _]]. done.
Qed.

Lemma filter_length_all {A} (P : A → Prop) `{!∀ x, Decision (P x)} (l : list A) :
  length (filter P l) = length l ↔ Forall P l.
Proof.
  induction l as [|x l IH]; [by split; [constructor | ]|].
  rewrite filter_cons, Forall_cons. destruct (decide (P x)) as [HP|HP]; simpl.
  - rewrite <- IH. split; [intros [= ->]; done | intros [_ ->]; done].
  - pose proof (length_filter P l). split; [lia | tauto].
Qed.

Lemma filter_none {A} (P : A → Prop) `{!∀ x, Decision (P x)} (l : list A) :
  (∀ x, x ∈ l → ¬ P x) → filter P l = [].
Proof.
  induction l as [|x l IH]; intros Hno; [done|].
  rewrite filter_cons_False by (apply Hno; left).
  apply IH. intros y Hy. apply Hno. by right.
Qed.

(** X11.  A status page requested with a status filter other than
    VERIFIED is computed from the filtered documents alone: whatever the
    user has on file, it reports no completed requirement, 0 percent and an
    overall status of INCOMPLETE. *)
Theorem getStatus_filtered_never_complete (st : string) (u : Principal) (r : Role)
    (w : World) :
  role u = role_name r → st ≠ "" → st ≠ "VERIFIED" →
  ∃ page, (KYCRoutes.getStatus (Some st) u w).1 = inr page
    ∧ completed (completion page) = 0
    ∧ percentComplete (completion page) = 0
    ∧ overallStatus page = "INCOMPLETE".
Proof.
  intros Hrole Hne Hnv.
  destruct (getStatus_documents (Some st) u w) as (docs & Hrun & Hdocs).
  eexists. split; [exact Hrun|].
  assert (KYCController.typesWithStatus "VERIFIED" docs = []) as Hnone.
  { unfold KYCController.typesWithStatus.
    rewrite filter_none; [done|]. intros d Hd Hv.
    apply Hdocs in Hd as (_ & _ & Hst). simpl in Hst. specialize (Hst Hne). congruence. }
  rewrite Hrole. cbv zeta. unfold KYCController.calculateKYCCompletion. cbv zeta.
  rewrite Hnone. destruct r; vm_compute; done.
Qed.

Lemma getStatus_filtered_never_complete_witness :
  ∃ page, (KYCRoutes.getStatus (Some "PENDING") Sample.customer Sample.world).1 = inr page
    ∧ overallStatus page = "INCOMPLETE".
Proof.
  destruct (getStatus_filtered_never_complete "PENDING" Sample.customer CUSTOMER Sample.world)
    as (page & Hrun & _ & _ & Hoverall).
  - reflexivity.
  - discriminate.
  - discriminate.
  - exists page. split; [exact Hrun | exact Hoverall].
Defined.

(** X12.  Without a status filter, the status page of a principal reports
    an overall status of COMPLETE exactly when the role requires documents
    at all and, for every required type, the store holds a VERIFIED
    document of that type owned by the principal.  For a BANKER, who is
    required none, it is never COMPLETE. *)
Theorem getStatus_complete_iff (u : Principal) (r : Role) (w : World) :
  role u = role_name r →
  ∃ page, (KYCRoutes.getStatus None u w).1 = inr page
    ∧ (overallStatus page = "COMPLETE" ↔
         r ≠ BANKER
         ∧ ∀ ty, ty ∈ KYCService.requirements (role_name r) None →
             ∃ k d, kycDocuments w !! k = Some d
                    ∧ KYCDocument.userId d = userId u
                    ∧ KYCDocument.type d = ty
                    ∧ KYCDocument.status d = "VERIFIED").
Proof.
  intros Hrole.
  destruct (getStatus_documents None u w) as (docs & Hrun & Hdocs).
  eexists. split; [exact Hrun|]. cbv zeta. simpl overallStatus.
  set (req := KYCService.getRequiredDocuments (role u) None).
  assert (percentComplete (KYCController.calculateKYCCompletion docs req) = 100 ↔
          r ≠ BANKER
          ∧ Forall (λ rd, Exists (λ doc, KYCDocument.type doc = required_type rd
                                        ∧ KYCDocument.status doc = "VERIFIED") docs) req)
    as Hpercent.
  { unfold KYCController.calculateKYCCompletion. cbv zeta. simpl percentComplete.
    rewrite countIn_spec.
    rewrite <- (filter_length_all
                  (λ rd, Exists (λ doc, KYCDocument.type doc = required_type rd
                                        ∧ KYCDocument.status doc = "VERIFIED") docs) req).
    set (n := length (filter _ req)).
    pose proof (length_filter
                  (λ rd, Exists (λ doc, KYCDocument.type doc = required_type rd
                                        ∧ KYCDocument.status doc = "VERIFIED") docs) req)
      as Hle. fold n in Hle.
    assert (length req = 0%nat ∧ r = BANKER ∨ (0 < length req < 200)%nat ∧ r ≠ BANKER)
      as [[Hlen ->]|[Hlen Hr]].
    { unfold req. rewrite Hrole. destruct r; vm_compute; [right|right|left]; split;
        first [lia | done]. }
    - rewrite Hlen. simpl. split; [discriminate | tauto].
    - rewrite (proj2 (Z.ltb_lt 0 (Z.of_nat (length req)))) by lia.
      rewrite (table_lookup (λ c t, KYCController.percent c t = 100 ↔ c = t) 199
                 (Z.of_nat n) (Z.of_nat (length req)) percent_100_below_200) by lia.
      split; [intros Heq; split; [done | lia] | intros [_ Heq]; lia]. }
  destruct (decide (percentComplete (KYCController.calculateKYCCompletion docs req) = 100))
    as [Hp|Hp].
  - rewrite (bool_decide_eq_true_2 _ Hp). split; [intros _|done].
    apply Hpercent in Hp as [Hr Hall]. split; [done|].
    intros ty Hty. rewrite <- Hrole, <- required_types in Hty.
    apply list_elem_of_fmap in Hty as (rd & -> & Hrd).
    rewrite Forall_forall in Hall. apply Hall in Hrd.
    apply Exists_exists in Hrd as (d & Hd & Hty & Hst).
    apply Hdocs in Hd as ((k & Hk) & Hu & _). eauto 10.
  - rewrite (bool_decide_eq_false_2 _ Hp). split; [done|].
    intros [Hr Hall]. exfalso. apply Hp, Hpercent. split; [done|].
    apply Forall_forall. intros rd Hrd.
    destruct (Hall (required_type rd)) as (k & d & Hk & Hu & Hty & Hst).
    { rewrite <- Hrole, <- required_types. by apply list_elem_of_fmap_2. }
    apply Exists_exists. exists d. split; [|done].
    apply Hdocs. split; [eauto|]. split; [done | done].
Qed.

Lemma getStatus_complete_iff_witness :
  ∃ page, (KYCRoutes.getStatus None Sample.banker Sample.world).1 = inr page
    ∧ overallStatus page ≠ "COMPLETE".
Proof.
  destruct (getStatus_complete_iff Sample.banker BANKER Sample.world)
    as (page & Hrun & Hiff).
  - reflexivity.
  - exists page. split; [exact Hrun|].
    intros Hc. apply Hiff in Hc as [Hr _]. apply Hr. reflexivity.
Defined.

(** ** KYC routes: finalizing and reviewing *)



(** X14.  A finalization succeeds through the route only if the caller is
    a CUSTOMER or MERCHANT, the body is complete, the file has at least one
    byte and no more than the configured ceiling, the document exists, and
    the content type is in the schema's list and in the configured list as
    well: configuring a type the schema does not list cannot admit it. *)
Theorem completeUpload_route_success_requires (isGuid : string → bool) (env : Env)
    (body : CompleteUploadBody) (u : Principal) (w : World) (doc : KYCDocument.t) :
  (KYCRoutes.completeUpload isGuid env body u w).1 = inr doc →
  (role u = "CUSTOMER" ∨ role u = "MERCHANT")
  ∧ ∃ docId pid size ct,
      body = mkCompleteBody (Some docId) (Some pid) (Some size) (Some ct)
      ∧ isGuid docId = true ∧ pid ≠ ""
      ∧ 1 ≤ size
      ∧ (∀ ceiling, KYCService.maxFileSize env = Some ceiling → size ≤ ceiling)
      ∧ ct ∈ ["image/jpeg"; "image/png"; "application/pdf"]
      ∧ ct ∈ KYCService.allowedTypes env
      ∧ is_Some (kycDocuments w !! docId).
Proof.
  unfold KYCRoutes.completeUpload.
  destruct (decide (role u ∈ ["CUSTOMER"; "MERCHANT"])) as [Hrole|Hrole].
  2: { rewrite (bool_decide_eq_false_2 _ Hrole). simpl. run_monad. done. }
  rewrite (bool_decide_eq_true_2 _ Hrole). simpl.
  unfold KYCRoutes.validateCompleteUpload.
  destruct body as [[docId|] [pid|] [size|] [ct|]]; simpl; try (run_monad; done).
  destruct (Js.truthy docId && isGuid docId && Js.truthy pid && (1 <=? size)
            && bool_decide (ct ∈ ["image/jpeg"; "image/png"; "application/pdf"])) eqn:Hok;
    [|run_monad; done].
  rewrite !andb_true_iff, bool_decide_eq_true, Z.leb_le, !truthy_spec in Hok.
  destruct Hok as ((((_ & Hguid) & Hpid) & Hsize) & Hct).
  destruct (completeUpload_checks env w docId pid size ct) as (Hbig & Hbad & Hmissing).
  run_monad.
  destruct (KYCService.completeUpload env docId pid size ct w) as [res w2] eqn:Hrun.
  simpl in *. destruct res as [e|d']; [done|]. intros _.
  split; [by apply decision_in_pair|].
  exists docId, pid, size, ct. split; [done|]. split; [done|]. split; [done|].
  split; [done|].
  destruct (Js.gt size (KYCService.maxFileSize env)) eqn:Hgt.
  { destruct (Hbig eq_refl) as [Hres _]. done. }
  split.
  { intros ceiling Hc. rewrite Hc in Hgt. simpl in Hgt. lia. }
  split; [done|].
  destruct (decide (ct ∈ KYCService.allowedTypes env)) as [Hin|Hout].
  2: { destruct (Hbad eq_refl Hout) as [Hres _]. done. }
  split; [done|].
  destruct (kycDocuments w !! docId) as [d|] eqn:Hd; [eauto|].
  specialize (Hmissing eq_refl Hin eq_refl). done.
Qed.

Lemma completeUpload_route_success_requires_witness :
  "image/png" ∈ KYCService.allowedTypes Sample.env.
Proof.
  destruct (completeUpload_route_success_requires Sample.isGuid Sample.env
              Fixtures.completeBody Fixtures.stranger Fixtures.world
              (KYCDocument.mk Fixtures.docKey "PAN_CARD"
                 (Some "https://res.cloudinary.com/undefined/image/upload/mallory/PAN_CARD/x")
                 "PENDING" "alice" None 70))
    as (_ & docId & pid & size & ct & Hbody & _ & _ & _ & _ & _ & Hct & _).
  - vm_compute. reflexivity.
  - injection Hbody as _ _ _ <-. exact Hct.
Defined.

(** X15.  POST /kyc/:id/verify through its chain.  A principal who is not
    a BANKER is refused with 403 and a body whose status is not VERIFIED or
    REJECTED with the schema's 400, both before any table is touched.  A
    BANKER's decision on a stored document, of any status, stores the
    decided status with the acting banker as reviewer when VERIFIED and no
    reviewer when REJECTED, and the response echoes the decision. *)
Theorem verify_route_outcomes (env : Env) (docId : string) (body : VerifyBody)
    (u : Principal) (w : World) :
  let r := KYCRoutes.verify_route env docId body (inr u) w in
  (role u ≠ "BANKER" →
     r.1 = inl (mkError "Insufficient permissions" (Some 403) None)
     ∧ kycDocuments r.2 = kycDocuments w ∧ auditLogs r.2 = auditLogs w)
  ∧ (role u = "BANKER" →
     verify_status body ≠ Some "VERIFIED" → verify_status body ≠ Some "REJECTED" →
     r.1 = inl LoanController.validationFailed
     ∧ kycDocuments r.2 = kycDocuments w ∧ auditLogs r.2 = auditLogs w)
  ∧ (∀ st d, role u = "BANKER" →
     KYCRoutes.validateVerify body = inr (st, verify_notes body) →
     kycDocuments w !! docId = Some d →
     ∃ response d',
       r.1 = inr response
       ∧ newStatus response = st ∧ verified_kycDocId response = docId
       ∧ kycDocuments r.2 = <[docId := d']> (kycDocuments w)
       ∧ KYCDocument.status d' = st
       ∧ (st = "VERIFIED" → KYCDocument.verifiedBy d' = Some (userId u))
       ∧ (st = "REJECTED" → KYCDocument.verifiedBy d' = None)
       ∧ KYCDocument.userId d' = KYCDocument.userId d).
Proof.
  intros r. subst r. run_routes.
  destruct (decide (role u = "BANKER")) as [Hrole|Hrole].
  - rewrite bool_decide_eq_true_2 by (apply list_elem_of_singleton; exact Hrole).
    simpl. unfold KYCRoutes.verify. rewrite (bool_decide_eq_true_2 _ Hrole). simpl.
    split; [done|]. split.
    + intros _ Hv Hr. unfold KYCRoutes.validateVerify.
      destruct (verify_status body) as [s|]; [|run_monad; done].
      rewrite bool_decide_eq_false_2; [run_monad; done|].
      intros Hin. apply decision_in_pair in Hin as [-> | ->]; done.
    + intros st d _ Hvalid Hd. rewrite Hvalid. run_monad.
      assert (st = "VERIFIED" ∨ st = "REJECTED") as Hst.
      { revert Hvalid. unfold KYCRoutes.validateVerify.
        destruct (verify_status body) as [s|]; [|done].
        destruct (bool_decide (s ∈ ["VERIFIED"; "REJECTED"])) eqn:Hs; [|done].
        apply bool_decide_eq_true, decision_in_pair in Hs.
        destruct (match verify_notes body with Some _ => _ | None => _ end); [|done].
        simpl. by intros [= <-]. }
      match goal with |- context [KYCService.verifyKYCDocument env docId st ?b ?n ?w'] =>
        destruct (verifyKYCDocument_valid env w' docId st b n d Hst Hd)
          as ((msg & Hres) & Hdocs & _);
        destruct (KYCService.verifyKYCDocument env docId st b n w') as [res w2] end.
      simpl in Hres, Hdocs. subst res. simpl.
      eexists _, _. split; [reflexivity|]. simpl.
      split; [done|]. split; [done|]. split; [exact Hdocs|]. simpl.
      split; [done|]. split; [|split; [|done]].
      * intros Hv. by rewrite decide_True.
      * intros ->. by rewrite decide_False.
  - rewrite bool_decide_eq_false_2
      by (intros Hin; apply list_elem_of_singleton in Hin; done).
    simpl. split; [done|]. split; [done|]. intros st d Hb. done.
Qed.

Lemma verify_route_outcomes_witness :
  ∃ response d',
    (KYCRoutes.verify_route Sample.env "doc-1" (mkVerifyBody (Some "REJECTED") (Some "expired"))
       (inr Sample.otherBanker) Sample.world).1 = inr response
    ∧ newStatus response = "REJECTED"
    ∧ KYCDocument.verifiedBy d' = None.
Proof.
  destruct (proj2 (proj2 (verify_route_outcomes Sample.env "doc-1"
                            (mkVerifyBody (Some "REJECTED") (Some "expired"))
                            Sample.otherBanker Sample.world))
              "REJECTED" Sample.verifiedDoc)
    as (response & d' & Hrun & Hnew & _ & _ & _ & _ & Hrej & _).
  - reflexivity.
  - reflexivity.
  - reflexivity.
  - exists response, d'. split; [exact Hrun|]. split; [exact Hnew|]. by apply Hrej.
Defined.

(** ** Round trips *)

Lemma publicId_truthy (a b : string) : Js.truthy (a +:+ "/" +:+ b) = true.
Proof. apply truthy_spec. by destruct a. Qed.

(** X16.  Registration followed by finalization.  Registering an upload
    of an admitted type stores a new UPLOADING document owned by the user
    whose [url] already points at the returned [publicId]; finalizing with
    the returned [kycDocId] and [publicId], a size within the ceiling and a
    configured content type, under the same process environment, leaves
    that document PENDING with the same [url], owner, type and creation
    time. *)
Theorem register_then_finalize (env env' : Env) (user docType : string) (size : Z)
    (ct : string) (w : World) :
  docType ∈ KYCService.allowedDocTypes →
  kycDocuments w !! newId env = None →
  process_env env' = process_env env →
  Js.gt size (KYCService.maxFileSize env') = false →
  ct ∈ KYCService.allowedTypes env' →
  let r1 := KYCService.generateUploadUrl env user docType w in
  ∃ data url,
    r1.1 = inr data
    ∧ kycDocId data = newId env
    ∧ url = KYCService.documentUrl env (publicId data)
    ∧ kycDocuments r1.2 !! kycDocId data
      = Some (KYCDocument.mk (newId env) docType (Some url) "UPLOADING" user None (now env))
    ∧ let r2 := KYCService.completeUpload env' (kycDocId data) (publicId data) size ct r1.2 in
      r2.1 = inr (KYCDocument.mk (newId env) docType (Some url) "PENDING" user None (now env))
      ∧ kycDocuments r2.2 !! kycDocId data
        = Some (KYCDocument.mk (newId env) docType (Some url) "PENDING" user None (now env)).
Proof.
  intros Htype Hfresh Henv Hsize Hct r1. subst r1.
  unfold KYCService.generateUploadUrl, KYCService.createKYCDocument.
  rewrite (bool_decide_eq_true_2 _ Htype). run_monad. rewrite Hfresh. simpl.
  unfold Js.or_null. rewrite publicId_truthy. simpl.
  eexists _, _. split; [reflexivity|]. simpl. split; [reflexivity|].
  split; [reflexivity|]. rewrite lookup_insert_eq. split; [reflexivity|].
  match goal with |- context [KYCService.completeUpload env' ?i ?p size ct ?w1] =>
    destruct (completeUpload_ok env' w1 i p size ct
                (KYCDocument.mk (newId env) docType
                   (Some (KYCService.documentUrl env p)) "UPLOADING" user None (now env))
                Hsize Hct) as (Hres & Hst & _);
      [simpl; apply lookup_insert_eq|];
    destruct (KYCService.completeUpload env' i p size ct w1) as [res w2] end.
  simpl in Hres, Hst. subst res. simpl.
  assert (∀ p, KYCService.documentUrl env' p = KYCService.documentUrl env p) as Hurl.
  { intros p. unfold KYCService.documentUrl, KYCService.cloudName. by rewrite Henv. }
  rewrite Hst, lookup_insert_eq, Hurl. done.
Qed.

Lemma register_then_finalize_witness :
  ∃ data url,
    (KYCService.generateUploadUrl Sample.env "alice" "BANK_STATEMENT" Sample.world).1
      = inr data
    ∧ (KYCService.completeUpload Sample.env_audit_down (kycDocId data) (publicId data) 4096
         "application/pdf"
         (KYCService.generateUploadUrl Sample.env "alice" "BANK_STATEMENT" Sample.world).2).1
      = inr (KYCDocument.mk "id-9" "BANK_STATEMENT" (Some url) "PENDING" "alice" None
               1700000000000).
Proof.
  destruct (register_then_finalize Sample.env Sample.env_audit_down "alice" "BANK_STATEMENT"
              4096 "application/pdf" Sample.world)
    as (data & url & Hrun & _ & _ & _ & Hfin & _).
  - refine (bool_decide_unpack _ _). vm_compute. exact I.
  - reflexivity.
  - reflexivity.
  - reflexivity.
  - refine (bool_decide_unpack _ _). vm_compute. exact I.
  - exists data, url. split; [exact Hrun | exact Hfin].
Defined.

(** The applicant of a stored loan reads it. *)
Lemma getLoanById_applicant (w : World) (loanId : string) (l : Loan.t) :
  loans w !! loanId = Some l →
  (LoanService.getLoanById loanId (Loan.applicantId l) w).1
    = inr (mkDetails l (Prisma.recent_auditLogs loanId w)).
Proof.
  intros Hl. unfold LoanService.getLoanById. run_monad. rewrite Hl. simpl.
  unfold LoanService.canAccess. rewrite bool_decide_eq_true_2 by done. done.
Qed.

(** X17.  Application followed by a status request.  After an accepted
    application the applicant reads the new loan back under the generated
    id: PENDING, with the applicant as owner, the type and amount of the
    request and no banker; and when the audit table accepted the write,
    the LOAN_CREATED entry is in the audit table under that id. *)
Theorem apply_then_read (isGuid : string → bool) (env : Env) (u : Principal)
    (body : ApplyBody) (loanData : LoanData) (w : World) :
  role u = "CUSTOMER" ∨ role u = "MERCHANT" →
  LoanController.validateLoan isGuid body = inr loanData →
  loans w !! newId env = None →
  let r := LoanController.apply isGuid env u body w in
  ∃ response details,
    r.1 = inr response
    ∧ (LoanService.getLoanById (newId env) (userId u) r.2).1 = inr details
    ∧ loan details = applied_loan response
    ∧ (Loan.id (loan details), Loan.status (loan details), Loan.applicantId (loan details),
       Loan.type (loan details), Loan.amount (loan details), Loan.bankerId (loan details))
      = (newId env, "PENDING", userId u, data_type loanData, data_amount loanData, None)
    ∧ (auditLogError env = None →
       AuditLog.mk (Some (newId env)) "LOAN_CREATED" (Some (userId u)) (now env)
         ∈ auditLogs r.2).
Proof.
  intros Hrole Hvalid Hfresh r. subst r. unfold LoanController.apply.
  rewrite bool_decide_eq_true_2 by (apply decision_in_pair; exact Hrole). simpl.
  rewrite Hvalid.
  assert (∀ (mid : option string) (w0 : World),
            loans w0 = loans w →
            let r := LoanService.createLoan env
                       (mkLoanData (data_type loanData) (data_amount loanData) mid)
                       (userId u) w0 in
            ∃ l w1, r = (inr l, w1)
              ∧ loans w1 !! newId env = Some l
              ∧ (Loan.id l, Loan.status l, Loan.applicantId l, Loan.type l, Loan.amount l,
                 Loan.bankerId l)
                = (newId env, "PENDING", userId u, data_type loanData, data_amount loanData,
                   None)
              ∧ (auditLogError env = None →
                 AuditLog.mk (Some (newId env)) "LOAN_CREATED" (Some (userId u)) (now env)
                   ∈ auditLogs w1)) as Hcreate.
  { intros mid w0 Hsame. unfold LoanService.createLoan, LoanService.createAuditLog.
    run_monad. rewrite Hsame, Hfresh. simpl.
    destruct (auditLogError env) eqn:Haudit; simpl; eexists _, _;
      (split; [reflexivity|]); simpl; rewrite lookup_insert_eq;
      (split; [reflexivity|]); (split; [reflexivity|]); [done|].
    intros _. apply elem_of_app. right. by left. }
  assert (∀ (m : M (option string)) (w0 : World) (ty : option string → string),
            (∃ mid w1, m w0 = (inr mid, w1) ∧ loans w1 = loans w) →
            let r := (finalMerchantId <- m ;;
                      loan <- LoanService.createLoan env
                                (mkLoanData (data_type loanData) (data_amount loanData)
                                            finalMerchantId) (userId u) ;;
                      logger_info "Loan Application Submitted" ;;;
                      ret (mkApplyResponse loan (ty finalMerchantId))) w0 in
            ∃ response details,
              r.1 = inr response
              ∧ (LoanService.getLoanById (newId env) (userId u) r.2).1 = inr details
              ∧ loan details = applied_loan response
              ∧ (Loan.id (loan details), Loan.status (loan details),
                 Loan.applicantId (loan details), Loan.type (loan details),
                 Loan.amount (loan details), Loan.bankerId (loan details))
                = (newId env, "PENDING", userId u, data_type loanData,
                   data_amount loanData, None)
              ∧ (auditLogError env = None →
                 AuditLog.mk (Some (newId env)) "LOAN_CREATED" (Some (userId u)) (now env)
                   ∈ auditLogs r.2)) as Hthen.
  { intros m w0 ty (mid & w1 & Hm & Hsame). cbv zeta. unfold bind. rewrite Hm.
    destruct (Hcreate mid w1 Hsame) as (l & w2 & Hrun & Hl & Hfields & Haudit).
    rewrite Hrun. run_monad.
    assert (Loan.applicantId l = userId u) as Happ by (by injection Hfields).
    eexists _, _. split; [reflexivity|]. split.
    - rewrite <- Happ. apply getLoanById_applicant. exact Hl.
    - simpl. split; [reflexivity|]. split; [exact Hfields | exact Haudit]. }
  destruct (bool_decide (role u = "MERCHANT")).
  - destruct (LoanController.isProxy loanData);
      apply (Hthen _ w (λ mid, match mid with None => "merchant_self" | Some _ => "merchant_proxy" end));
      run_monad; eexists _, _; (split; [reflexivity | done]).
  - apply (Hthen _ w (λ _, "customer_direct")). run_monad.
    eexists _, _. split; [reflexivity | done].
Qed.

Lemma apply_then_read_witness :
  ∃ response details,
    (LoanController.apply Sample.isGuid Sample.env Sample.customer Sample.plainBody
       Sample.world).1 = inr response
    ∧ (LoanService.getLoanById "id-9" "alice"
         (LoanController.apply Sample.isGuid Sample.env Sample.customer Sample.plainBody
            Sample.world).2).1 = inr details
    ∧ loan details = applied_loan response.
Proof.
  destruct (apply_then_read Sample.isGuid Sample.env Sample.customer Sample.plainBody
              (mkLoanData "PERSONAL" 50000 None) Sample.world)
    as (response & details & Hrun & Hread & Hsame & _).
  - left. reflexivity.
  - reflexivity.
  - reflexivity.
  - exists response, details. split; [exact Hrun|]. split; [exact Hread | exact Hsame].
Defined.

(** X18.  Decision followed by the review list.  Once a decision on a
    stored loan has succeeded, the decided row is in no list a BANKER
    obtains without a status filter, whatever the other filters are; and
    when the BANKER's filter is the decided status and the row passes the
    [type] and [minAmount] filters, the row is in the list unless the list
    is full ([limit] rows, 20 when the limit is absent or 0).  The list is
    obtained whenever the [status] and [type] filters are values of the
    store's enumerations (or empty, or absent). *)
Theorem decide_then_list (env : Env) (w : World) (loanId decision banker notes : string)
    (l : Loan.t) (reader : string) (filters : LoanFilters) :
  decision = "APPROVED" ∨ decision = "REJECTED" →
  loans w !! loanId = Some l →
  let r := LoanService.updateLoanStatus env loanId decision banker notes w in
  let list := LoanService.getUserLoans reader "BANKER" filters r.2 in
  let cap := match filter_limit filters with
             | Some n => if decide (n = 0) then 20%nat else Z.to_nat (Z.abs n)
             | None => 20%nat
             end in
  ∃ l',
    r.1 = inr l'
    ∧ loans r.2 !! loanId = Some l'
    ∧ (known_filters filters → ∃ result, list.1 = inr result)
    ∧ (filter_status filters = None ∨ filter_status filters = Some "" →
       ∀ result, list.1 = inr result → l' ∉ result)
    ∧ (filter_status filters = Some decision →
       (∀ t, filter_type filters = Some t → t ≠ "" → Loan.type l = t) →
       (∀ a, filter_minAmount filters = Some a → a ≠ 0 → a ≤ Loan.amount l) →
       ∀ result, list.1 = inr result → l' ∈ result ∨ length result = cap).
Proof.
  intros Hvalid Hl r list cap.
  destruct (updateLoanStatus_valid env w loanId decision banker notes l Hvalid Hl)
    as (Hres & Hloans & _). fold r in Hres, Hloans.
  assert (loans r.2 !! loanId = Some
            (Loan.mk (Loan.id l) (Loan.type l) (Loan.amount l) decision (Loan.applicantId l)
                     (Loan.merchantId l) (Some banker) (Loan.createdAt l) (now env))) as Hl'.
  { rewrite Hloans. apply lookup_insert_eq. }
  destruct (getUserLoans_page reader "BANKER" filters r.2 _
              (λ x, banker_where reader filters x)) as (Hok & Herr & _).
  fold list in Hok, Herr.
  assert (∀ result, list.1 = inr result → known_filters filters) as Hknown.
  { intros result Hrun. destruct (decide (known_filters filters)) as [|Hn]; [done|].
    destruct (Herr Hn) as (e & He & _). congruence. }
  eexists. split; [exact Hres|]. split; [exact Hl'|]. split; [|split].
  - intros Hk. destruct (Hok Hk) as (result & Hrun & _). eauto.
  - intros Hnone result Hrun Hmem.
    destruct (Hok (Hknown _ Hrun)) as (result' & Hrun' & Hin & _).
    assert (result' = result) as -> by congruence.
    apply Hin in Hmem as [_ [Hst _]]. simpl in Hst.
    destruct Hnone as [Hnone|Hnone]; rewrite Hnone in Hst; simpl in Hst;
      destruct Hvalid; congruence.
  - intros Hsome Hty Hamt result Hrun.
    destruct (Hok (Hknown _ Hrun)) as (result' & Hrun' & _ & _ & _ & Hfull).
    assert (result' = result) as -> by congruence.
    apply (Hfull loanId); [exact Hl'|]. simpl. rewrite Hsome.
    assert (Js.truthy decision = true) as ->
      by (apply truthy_spec; destruct Hvalid as [-> | ->]; done).
    done.
Qed.

Lemma decide_then_list_witness :
  ∃ l' result,
    (LoanService.updateLoanStatus Sample.env "loan-1" "APPROVED" "bob" "ok" Sample.world).1
      = inr l'
    ∧ (LoanService.getUserLoans "bob" "BANKER" (mkFilters None (Some "BUSINESS") None None)
         (LoanService.updateLoanStatus Sample.env "loan-1" "APPROVED" "bob" "ok"
            Sample.world).2).1 = inr result
    ∧ l' ∉ result.
Proof.
  destruct (decide_then_list Sample.env Sample.world "loan-1" "APPROVED" "bob" "ok"
              Sample.pendingLoan "bob" (mkFilters None (Some "BUSINESS") None None))
    as (l' & Hrun & _ & Hlist & Hout & _).
  - left. reflexivity.
  - reflexivity.
  - destruct Hlist as (result & Hlist).
    { split; [exact I|]. intros _. refine (bool_decide_unpack _ _). vm_compute. exact I. }
    exists l', result. split; [exact Hrun|]. split; [exact Hlist|].
    apply Hout; [left; reflexivity | exact Hlist].
Defined.

(** ** KYC routes: registering an upload *)

(** X19.  POST /kyc/upload-url never changes a stored document.  It
    succeeds only for a CUSTOMER or MERCHANT and a document type of the
    schema, and then the one document it adds is new, UPLOADING, of the
    requested type and owned by the caller. *)
Theorem generateUploadUrl_route_outcomes (env : Env) (body : UploadUrlBody)
    (u : Principal) (w : World) :
  let r := KYCRoutes.generateUploadUrl env body u w in
  (∀ k d, kycDocuments w !! k = Some d → kycDocuments r.2 !! k = Some d)
  ∧ loans r.2 = loans w ∧ auditLogs r.2 = auditLogs w
  ∧ (∀ data, r.1 = inr data →
       (role u = "CUSTOMER" ∨ role u = "MERCHANT")
       ∧ ∃ t d, upload_docType body = Some t
           ∧ t ∈ ["ID_PROOF"; "ADDRESS_PROOF"; "PAN_CARD"; "BANK_STATEMENT"]
           ∧ kycDocuments w !! kycDocId data = None
           ∧ kycDocuments r.2 !! kycDocId data = Some d
           ∧ (KYCDocument.type d, KYCDocument.status d, KYCDocument.userId d,
              KYCDocument.verifiedBy d)
             = (t, "UPLOADING", userId u, None)).
Proof.
  intros r. subst r. unfold KYCRoutes.generateUploadUrl.
  destruct (decide (role u ∈ ["CUSTOMER"; "MERCHANT"])) as [Hrole|Hrole].
  2: { rewrite (bool_decide_eq_false_2 _ Hrole). simpl. run_monad. done. }
  rewrite (bool_decide_eq_true_2 _ Hrole). simpl.
  unfold KYCRoutes.validateUploadUrl.
  destruct (upload_docType body) as [t|]; [|run_monad; done].
  destruct (decide (t ∈ ["ID_PROOF"; "ADDRESS_PROOF"; "PAN_CARD"; "BANK_STATEMENT"]))
    as [Ht|Ht].
  2: { rewrite (bool_decide_eq_false_2 _ Ht). run_monad. done. }
  rewrite (bool_decide_eq_true_2 _ Ht).
  unfold KYCService.generateUploadUrl, KYCService.createKYCDocument.
  rewrite (bool_decide_eq_true_2 _ Ht). run_monad.
  destruct (kycDocuments w !! newId env) as [old|] eqn:Hfresh; simpl; [done|].
  split; [|split; [done|split; [done|]]].
  - intros k d Hk. rewrite lookup_insert_ne; [done|]. intros <-. congruence.
  - intros data [= <-]. simpl. split; [by apply decision_in_pair|].
    eexists _, _. split; [reflexivity|]. split; [done|]. split; [done|].
    rewrite lookup_insert_eq. split; [reflexivity | done].
Qed.

Lemma generateUploadUrl_route_outcomes_witness :
  kycDocuments
    (KYCRoutes.generateUploadUrl Sample.env (mkUploadUrlBody (Some "PAN_CARD"))
       Sample.customer Sample.world).2 !! "doc-1" = Some Sample.verifiedDoc.
Proof.
  refine (proj1 (generateUploadUrl_route_outcomes Sample.env
                   (mkUploadUrlBody (Some "PAN_CARD")) Sample.customer Sample.world)
            "doc-1" Sample.verifiedDoc _).
  reflexivity.
Defined.
